(** * The diff preview panel of the Git Graph fork

    A shallow embedding of [GitDiffView], the webview panel that shows a
    diff rendered by diff2html.  The repository holds two successive
    designs of the class:

    - [src/gitDiffView.ts]: the panel stores a git command and a watched
      file path, runs the command through [execShell] on every refresh and
      refreshes when a matching document is saved ([CommandView] below);
    - the earlier one, where the caller hands the diff text to
      [createOrShow] directly ([ContentView] below).

    The static slot [GitDiffView.currentPanel], the objects ever built, the
    listeners subscribed to the workspace and the promises still pending
    are the components of an explicit [World]; the host and the user drive
    it through [Event]s. *)

From Stdlib Require Import Ascii String Arith Lia Bool.
From stdpp Require Import base tactics option list strings.

(** ** Strings *)

(** The three characters a Rocq literal cannot hold comfortably. *)
Definition LF : string := String "010"%char EmptyString.
Definition TAB : string := String "009"%char EmptyString.
Definition DQ : string := String "034"%char EmptyString.

(** [q s] is [s] between double quotes, as an attribute value is written. *)
Definition q (s : string) : string := DQ +:+ s +:+ DQ.

Fixpoint tabs (n : nat) : string :=
  match n with
  | 0 => EmptyString
  | S n' => TAB +:+ tabs n'
  end.

(** One line of a template literal: the line break that precedes it, its
    indentation and its text. *)
Definition ln (indent : nat) (s : string) : string := LF +:+ tabs indent +:+ s.

(** JavaScript truthiness of a string: every string but the empty one. *)
Definition truthy (s : string) : bool :=
  match s with
  | EmptyString => false
  | String _ _ => true
  end.

(** [String.prototype.endsWith]: the last [length search] characters of [s]
    are compared with [search]; a [search] longer than [s] never matches. *)
Definition endsWith (s search : string) : bool :=
  let len := String.length s in
  let searchLength := String.length search in
  if (searchLength <=? len)%nat
  then String.eqb (substring (len - searchLength) searchLength s) search
  else false.

(** [String.prototype.includes], by trying every start position. *)
Fixpoint includes (s search : string) : bool :=
  String.prefix search s
  || match s with
     | EmptyString => false
     | String _ s' => includes s' search
     end.

(** ** The host: VS Code and the libraries the extension calls *)

(** [vscode.ViewColumn]. *)
Inductive ViewColumn : Type :=
| Active | Beside | One | Two | Three | Four | Five | Six | Seven | Eight | Nine.

(** The collaborators whose code is not the extension's: diff2html's
    [html], Node's [path.join], [vscode.Uri.file] and the webview's
    [asWebviewUri] (a [Uri] is kept in its string form, which is what a
    template literal interpolates). *)
Class Host := {
  html : string -> string;
  path_join : list string -> string;
  Uri_file : string -> string;
  asWebviewUri : string -> string
}.

(** A [vscode.WebviewPanel] as far as the class uses it.  The two hook
    fields tell whether the listener the constructor passed to
    [onDidDispose] and to [onDidChangeViewState] is still attached. *)
Record WebviewPanel : Type := mkPanel {
  webview_html : string;
  visible : bool;
  viewColumn : ViewColumn;
  panelDisposed : bool;
  didDisposeHook : bool;
  viewStateHook : bool
}.

(** [vscode.window.createWebviewPanel]: an empty, visible panel in the
    requested column, with no listener yet. *)
Definition createWebviewPanel (column : ViewColumn) : WebviewPanel :=
  mkPanel EmptyString true column false false false.

Definition set_html (h : string) (p : WebviewPanel) : WebviewPanel :=
  mkPanel h (visible p) (viewColumn p) (panelDisposed p)
          (didDisposeHook p) (viewStateHook p).

Definition set_visible (b : bool) (p : WebviewPanel) : WebviewPanel :=
  mkPanel (webview_html p) b (viewColumn p) (panelDisposed p)
          (didDisposeHook p) (viewStateHook p).

(** [panel.reveal(column)]. *)
Definition reveal (column : ViewColumn) (p : WebviewPanel) : WebviewPanel :=
  mkPanel (webview_html p) (visible p) column (panelDisposed p)
          (didDisposeHook p) (viewStateHook p).

Definition set_panelDisposed (b : bool) (p : WebviewPanel) : WebviewPanel :=
  mkPanel (webview_html p) (visible p) (viewColumn p) b
          (didDisposeHook p) (viewStateHook p).

Definition set_didDisposeHook (b : bool) (p : WebviewPanel) : WebviewPanel :=
  mkPanel (webview_html p) (visible p) (viewColumn p) (panelDisposed p)
          b (viewStateHook p).

Definition set_viewStateHook (b : bool) (p : WebviewPanel) : WebviewPanel :=
  mkPanel (webview_html p) (visible p) (viewColumn p) (panelDisposed p)
          (didDisposeHook p) b.

(** ** The disposable chain *)

(** The four disposables the constructor registers, in its order: the
    [toDisposable] closure that empties [currentPanel], the listener handle
    returned by [onDidDispose], the one returned by
    [onDidChangeViewState], and the panel itself. *)
Inductive Cleanup : Type :=
| ClearCurrentPanel
| DetachDidDispose
| DetachViewState
| DisposePanel.

(** Modelled from the spec: the [Disposable] base class of
    [./utils/disposable], which is not among the sources.  It is the
    spec's DisposableChain, an ordered collection of cleanup actions:
    registering appends, and disposing invokes every registered action
    once, in registration order, a second call being a no-op.  The state of
    the base class is the list and the flag that makes the second call
    one. *)
Record Disposable : Type := mkDisposable {
  disposables : list Cleanup;
  disposed : bool
}.

(** Modelled from the spec: the chain a fresh object starts with
    ([super()]). *)
Definition Disposable_new : Disposable := mkDisposable [] false.

(** Modelled from the spec: [registerDisposables(...ds)] appends. *)
Definition Disposable_register (ds : list Cleanup) (d : Disposable) : Disposable :=
  mkDisposable (disposables d ++ ds) (disposed d).

(** Modelled from the spec: the mark a first [dispose()] leaves. *)
Definition Disposable_mark (d : Disposable) : Disposable :=
  mkDisposable (disposables d) true.

(** ** The life cycle of an object *)

(** What the constructor of either design registers, in its order. *)
Definition registered : list Cleanup :=
  [ClearCurrentPanel; DetachDidDispose; DetachViewState; DisposePanel].

(** The part of an object that its disposal touches: the chain, whether
    the panel is gone, and the two listeners. *)
Record Lifecycle : Type := mkCycle {
  chain : Disposable;
  gone : bool;
  hookDispose : bool;
  hookViewState : bool
}.

Definition lifecycle_of (d : Disposable) (p : WebviewPanel) : Lifecycle :=
  mkCycle d (panelDisposed p) (didDisposeHook p) (viewStateHook p).

(** An object in use, and an object disposed of. *)
Definition alive_cycle : Lifecycle := mkCycle (mkDisposable registered false) false true true.
Definition dead_cycle : Lifecycle := mkCycle (mkDisposable registered true) true false false.

Definition cycle_live (c : Lifecycle) : bool := negb (disposed (chain c)).

(** The panel once its object has been disposed of. *)
Definition retire_panel (p : WebviewPanel) : WebviewPanel :=
  mkPanel (webview_html p) (visible p) (viewColumn p) true false false.

(** The invariant of the registry: the object in the slot is in use, and
    every other object has been disposed of. *)
Definition lifecycles_ok (current : option nat) (cycles : list Lifecycle) : Prop :=
  (forall i c, cycles !! i = Some c ->
     (c = alive_cycle /\ current = Some i) \/ (c = dead_cycle /\ current <> Some i))
  /\ (forall i, current = Some i -> i < length cycles).

(** ** The head of the document, common to both designs *)

Section Template.
Context `{Host}.

(** The template literal up to the opening quote of the style sheet's
    [href]. *)
Definition template_head : string :=
  ln 2 "<!DOCTYPE html>"
  +:+ ln 2 ("<html lang=" +:+ q "en" +:+ " id=" +:+ q "diff-2-html" +:+ ">")
  +:+ ln 2 "<head>"
  +:+ ln 3 "<title></title>"
  +:+ ln 3 ("<meta charset=" +:+ q "UTF-8" +:+ ">")
  +:+ ln 3 ("<meta name=" +:+ q "viewport" +:+ " content="
            +:+ q "width=device-width, initial-scale=1.0" +:+ ">")
  +:+ ln 3 ("<meta http-equiv=" +:+ q "Content-Type" +:+ " content="
            +:+ q "text/html; charset=UTF-8" +:+ ">")
  +:+ ln 3 ("<link rel=" +:+ q "stylesheet" +:+ " type=" +:+ q "text/css"
            +:+ " href=" +:+ DQ).

(** From the closing quote of that [href] to the end of the head. *)
Definition template_links : string :=
  DQ +:+ ">"
  +:+ ln 3 ("<link rel=" +:+ q "stylesheet" +:+ " href="
            +:+ q "https://cdnjs.cloudflare.com/ajax/libs/highlight.js/11.2.0/styles/github.min.css"
            +:+ " />")
  +:+ ln 3 ("<link rel=" +:+ q "stylesheet" +:+ " type=" +:+ q "text/css"
            +:+ " href="
            +:+ q "https://cdn.jsdelivr.net/npm/diff2html/bundles/css/diff2html.min.css"
            +:+ " />")
  +:+ ln 3 ("<script type=" +:+ q "text/javascript" +:+ " src="
            +:+ q "https://cdn.jsdelivr.net/npm/diff2html/bundles/js/diff2html-ui.min.js"
            +:+ "></script>")
  +:+ ln 2 "</head>".

(** [getUri(...pathComps)]. *)
Definition getUri (extensionPath : string) (pathComps : list string) : string :=
  Uri_file (path_join (extensionPath :: pathComps)).

(** [getMediaUri(file)]. *)
Definition getMediaUri (extensionPath file : string) : string :=
  asWebviewUri (getUri extensionPath ["media"; file]).
End Template.

(** ** The command-driven design ([src/gitDiffView.ts]) *)

Module CommandView.

Record GitDiffView : Type := mkView {
  panel : WebviewPanel;
  extensionPath : string;
  isPanelVisible : bool;
  gitCmd : string;
  filePath : string;
  base : Disposable
}.

Definition set_panel (p : WebviewPanel) (v : GitDiffView) : GitDiffView :=
  mkView p (extensionPath v) (isPanelVisible v) (gitCmd v) (filePath v) (base v).

Definition set_isPanelVisible (b : bool) (v : GitDiffView) : GitDiffView :=
  mkView (panel v) (extensionPath v) b (gitCmd v) (filePath v) (base v).

Definition set_gitCmd (c : string) (v : GitDiffView) : GitDiffView :=
  mkView (panel v) (extensionPath v) (isPanelVisible v) c (filePath v) (base v).

Definition set_filePath (f : string) (v : GitDiffView) : GitDiffView :=
  mkView (panel v) (extensionPath v) (isPanelVisible v) (gitCmd v) f (base v).

Definition set_base (d : Disposable) (v : GitDiffView) : GitDiffView :=
  mkView (panel v) (extensionPath v) (isPanelVisible v) (gitCmd v) (filePath v) d.

(** What the class asks of the host, in the order it asks. *)
Inductive Effect : Type :=
| CreateWebviewPanel (i : nat) (column : ViewColumn)
| Reveal (i : nat) (column : ViewColumn)
| ExecShell (i req : nat) (cmd : string)
| AppendLine (i : nat) (line : string)
| Invoked (i : nat) (a : Cleanup).

(** A promise returned by [execShell] and not settled yet: its number, the
    object whose [then] callback waits for it, and the command.
    [execShell] itself ([./utils]) is not among the sources; it is the
    spec's external execution collaborator, which returns a promise of the
    command's output and may reject: the world keeps the promise, and the
    events [ExecResolved] and [ExecRejected] below settle it. *)
Record Pending : Type := mkPending {
  req_id : nat;
  req_owner : nat;
  req_cmd : string
}.

(** Objects are numbered in the order of their construction and never
    leave [objects]: a disposed object is still referenced by the
    closures it registered. *)
Record World : Type := mkWorld {
  currentPanel : option nat;
  objects : list GitDiffView;
  saveListeners : list nat;
  pending : list Pending;
  nextReq : nat;
  effects : list Effect
}.

Definition init : World := mkWorld None [] [] [] 0 [].

Definition set_currentPanel (c : option nat) (w : World) : World :=
  mkWorld c (objects w) (saveListeners w) (pending w) (nextReq w) (effects w).

Definition set_objects (os : list GitDiffView) (w : World) : World :=
  mkWorld (currentPanel w) os (saveListeners w) (pending w) (nextReq w) (effects w).

Definition set_saveListeners (ls : list nat) (w : World) : World :=
  mkWorld (currentPanel w) (objects w) ls (pending w) (nextReq w) (effects w).

Definition set_pending (ps : list Pending) (w : World) : World :=
  mkWorld (currentPanel w) (objects w) (saveListeners w) ps (nextReq w) (effects w).

Definition emit (e : Effect) (w : World) : World :=
  mkWorld (currentPanel w) (objects w) (saveListeners w) (pending w) (nextReq w)
          (effects w ++ [e]).

(** A field update of object [i]; nothing happens when there is no such
    object. *)
Definition update (i : nat) (f : GitDiffView -> GitDiffView) (w : World) : World :=
  set_objects (alter f i (objects w)) w.

Definition update_panel (i : nat) (f : WebviewPanel -> WebviewPanel) (w : World) : World :=
  update i (fun v => set_panel (f (panel v)) v) w.

Section Operations.
Context `{Host}.

Definition getHtmlForWebview (v : GitDiffView) (diffContent : string) : string :=
  template_head
  +:+ getMediaUri (extensionPath v) "out.min.css"
  +:+ template_links
  +:+ ln 2 ("<body style=" +:+ q "position:inherit" +:+ ">")
  +:+ ln 3 ("<div id=" +:+ q "app" +:+ ">")
  +:+ ln 4 (html diffContent)
  +:+ ln 3 "</div>"
  +:+ LF
  +:+ ln 3 "<div>"
  +:+ ln 4 "<hr/><br/>"
  +:+ ln 4 "<b>The cmd use to generate this is:</b><br/>"
  +:+ ln 4 (gitCmd v +:+ ";")
  +:+ ln 3 "</div>"
  +:+ ln 2 "</body>"
  +:+ ln 2 "</html>".

(** [refreshViewContent()]: [execShell] is called with the command the
    object holds now, and the call returns at once; the [then]
    callback waits in [pending]. *)
Definition refreshViewContent (i : nat) (w : World) : World :=
  match objects w !! i with
  | Some v =>
      let r := nextReq w in
      emit (ExecShell i r (gitCmd v))
        (mkWorld (currentPanel w) (objects w) (saveListeners w)
                 (pending w ++ [mkPending r i (gitCmd v)]) (S r) (effects w))
  | None => w
  end.

(** The [then] callback of object [i], run when its promise is fulfilled
    with [stdout]: the document is built with the command the object holds
    at that moment.  The assignment is recorded on the object whether or
    not its panel has been disposed of. *)
Definition onFulfilled (i : nat) (stdout : string) (w : World) : World :=
  match objects w !! i with
  | Some v =>
      emit (AppendLine i "content refreshed")
        (update_panel i (set_html (getHtmlForWebview v stdout)) w)
  | None => w
  end.

Definition is_req (r : nat) (p : Pending) : bool := req_id p =? r.

Definition drop_req (r : nat) (w : World) : World :=
  set_pending (filter (fun p => negb (is_req r p)) (pending w)) w.

(** Promise [r] is fulfilled: its callback runs. *)
Definition execResolved (r : nat) (stdout : string) (w : World) : World :=
  match find (is_req r) (pending w) with
  | Some p => onFulfilled (req_owner p) stdout (drop_req r w)
  | None => w
  end.

(** Promise [r] is rejected: [then] was given no second callback and no
    [catch] follows, so no code of the class runs. *)
Definition execRejected (r : nat) (w : World) : World :=
  match find (is_req r) (pending w) with
  | Some _ => drop_req r w
  | None => w
  end.

(** The listener the constructor passes to
    [vscode.workspace.onDidSaveTextDocument], for object [i]. *)
Definition onDidSaveTextDocument (i : nat) (uri_path : string) (w : World) : World :=
  match objects w !! i with
  | Some v =>
      if truthy uri_path && endsWith uri_path (filePath v) then
        refreshViewContent i
          (emit (AppendLine i ("<<<refreshViewContent>>>  " +:+ filePath v)) w)
      else if String.eqb (filePath v) "." then
        refreshViewContent i
          (emit (AppendLine i "<<<refreshViewContent>>> for current repository.") w)
      else w
  | None => w
  end.

(** The listener passed to [panel.onDidChangeViewState]. *)
Definition onDidChangeViewState (i : nat) (w : World) : World :=
  match objects w !! i with
  | Some v =>
      if negb (Bool.eqb (visible (panel v)) (isPanelVisible v))
      then update i (set_isPanelVisible (visible (panel v))) w
      else w
  | None => w
  end.

(** [WebviewPanel.dispose()] of the host: a panel is disposed once, and
    the listener of [onDidDispose], when still attached, is then
    called. *)
Definition panel_dispose (listener : World -> World) (i : nat) (w : World) : World :=
  match objects w !! i with
  | Some v =>
      if panelDisposed (panel v) then w
      else
        let w' := update_panel i (set_panelDisposed true) w in
        if didDisposeHook (panel v) then listener w' else w'
  | None => w
  end.

(** One registered disposable of object [i] is disposed. *)
Definition invoke (listener : World -> World) (i : nat) (a : Cleanup) (w : World) : World :=
  let w := emit (Invoked i a) w in
  match a with
  | ClearCurrentPanel => set_currentPanel None w
  | DetachDidDispose => update_panel i (set_didDisposeHook false) w
  | DetachViewState => update_panel i (set_viewStateHook false) w
  | DisposePanel => panel_dispose listener i w
  end.

(** Modelled from the spec: [dispose()] of the [Disposable] base class,
    which is not among the sources: every registered action is invoked
    once, in registration order, and a call on a disposed object does
    nothing.  Disposing the panel calls back the [onDidDispose]
    listener, which is [() => this.dispose()]; [fuel] bounds that
    re-entrance, and [dispose_fuel_enough] shows that it is never
    spent. *)
Fixpoint dispose_fuel (fuel : nat) (i : nat) (w : World) : World :=
  match fuel with
  | 0 => w
  | S fuel' =>
      match objects w !! i with
      | Some v =>
          if disposed (base v) then w
          else
            fold_left (fun w a => invoke (dispose_fuel fuel' i) i a w)
                      (disposables (base v))
                      (update i (fun v => set_base (Disposable_mark (base v)) v) w)
      | None => w
      end
  end.

Definition dispose (i : nat) (w : World) : World := dispose_fuel 2 i w.

(** [new GitDiffView(extensionPath, gitCmd, filePath, column)]: the new
    object's number and the world it leaves. *)
Definition construct (extensionPath gitCmd filePath : string) (column : ViewColumn)
           (w : World) : nat * World :=
  let i := length (objects w) in
  let v := mkView (createWebviewPanel column) extensionPath true gitCmd filePath
                  Disposable_new in
  let w := emit (CreateWebviewPanel i column) (set_objects (objects w ++ [v]) w) in
  let w := refreshViewContent i w in
  let w := set_saveListeners (saveListeners w ++ [i]) w in
  let w := update_panel i (set_didDisposeHook true) w in
  let w := update_panel i (set_viewStateHook true) w in
  let w := update i (fun v => set_base
             (Disposable_register
                [ClearCurrentPanel; DetachDidDispose; DetachViewState; DisposePanel]
                (base v)) v) w in
  (i, w).

(** [GitDiffView.createOrShow(extensionPath, gitCmd, filePath, column)]. *)
Definition createOrShow (extensionPath gitCmd filePath : string) (column : ViewColumn)
           (w : World) : World :=
  match currentPanel w with
  | Some i =>
      let w := emit (Reveal i column) (update_panel i (reveal column) w) in
      let w := update i (set_gitCmd gitCmd) w in
      let w := update i (set_filePath filePath) w in
      refreshViewContent i w
  | None =>
      let '(i, w) := construct extensionPath gitCmd filePath column w in
      set_currentPanel (Some i) w
  end.

(** What can happen to the panel: a call of [createOrShow] (the column
    defaults to [Beside]), a saved document, a settled promise, the
    user closing the panel, a call of the public [dispose()], and the
    host reporting the panel shown or hidden. *)
Inductive Event : Type :=
| CreateOrShow (extensionPath gitCmd filePath : string) (column : option ViewColumn)
| DidSaveTextDocument (uri_path : string)
| ExecResolved (r : nat) (stdout : string)
| ExecRejected (r : nat)
| PanelClosed (i : nat)
| Dispose (i : nat)
| ViewStateChanged (i : nat) (nowVisible : bool).

(** The host changes the visibility of panel [i] and tells the
    listener, if there is one. *)
Definition viewStateChanged (i : nat) (nowVisible : bool) (w : World) : World :=
  match objects w !! i with
  | Some v =>
      if panelDisposed (panel v) then w
      else
        let w' := update_panel i (set_visible nowVisible) w in
        if viewStateHook (panel v) then onDidChangeViewState i w' else w'
  | None => w
  end.

Definition step (w : World) (e : Event) : World :=
  match e with
  | CreateOrShow ep cmd fp col =>
      createOrShow ep cmd fp (default Beside col) w
  | DidSaveTextDocument p =>
      fold_left (fun w i => onDidSaveTextDocument i p w) (saveListeners w) w
  | ExecResolved r out => execResolved r out w
  | ExecRejected r => execRejected r w
  | PanelClosed i => panel_dispose (dispose i) i w
  | Dispose i => dispose i w
  | ViewStateChanged i b => viewStateChanged i b w
  end.

Definition run (w : World) (es : list Event) : World := fold_left step es w.
End Operations.

(** *** Observations *)

(** An object is live from its construction to its disposal. *)
Definition isLive (v : GitDiffView) : bool := negb (disposed (base v)).

Definition liveCount (w : World) : nat :=
  length (List.filter isLive (objects w)).

Definition is_create (e : Effect) : bool :=
  match e with
  | CreateWebviewPanel _ _ => true
  | _ => false
  end.

(** The number of host panels created so far. *)
Definition panelsCreated (w : World) : nat :=
  length (List.filter is_create (effects w)).

Definition is_exec_of (i : nat) (e : Effect) : bool :=
  match e with
  | ExecShell j _ _ => j =? i
  | _ => false
  end.

(** The number of refreshes object [i] has started so far. *)
Definition refreshCount (i : nat) (w : World) : nat :=
  length (List.filter (is_exec_of i) (effects w)).

(** What the panel of object [i] displays. *)
Definition displayed (i : nat) (w : World) : option string :=
  (fun v => webview_html (panel v)) <$> objects w !! i.

(** The rule the save listener applies, on the two paths alone. *)
Definition saveTriggers (uri_path filePath : string) : bool :=
  (truthy uri_path && endsWith uri_path filePath) || String.eqb filePath ".".

(** The part of an object its disposal touches. *)
Definition lifecycle (v : GitDiffView) : Lifecycle := lifecycle_of (base v) (panel v).

(** An object once disposed of. *)
Definition retire (v : GitDiffView) : GitDiffView :=
  mkView (retire_panel (panel v)) (extensionPath v) (isPanelVisible v) (gitCmd v)
         (filePath v) (Disposable_mark (base v)).

(** The world once object [i], which was [v], has been disposed of. *)
Definition retired (i : nat) (v : GitDiffView) (w : World) : World :=
  mkWorld None (<[i := retire v]> (objects w)) (saveListeners w) (pending w) (nextReq w)
          (effects w ++ (Invoked i <$> registered)).

(** What holds of every world the events lead to: the registry invariant,
    one save listener per object ever built, and request numbers not yet
    given out absent from the pending promises. *)
Definition Inv (w : World) : Prop :=
  lifecycles_ok (currentPanel w) (lifecycle <$> objects w)
  /\ saveListeners w = seq 0 (length (objects w))
  /\ Forall (fun p => req_id p < nextReq w) (pending w).

(** The object the constructor leaves. *)
Definition fresh (extensionPath gitCmd filePath : string) (column : ViewColumn) : GitDiffView :=
  mkView (mkPanel EmptyString true column false true true) extensionPath true gitCmd
         filePath (mkDisposable registered false).

(** The object [createOrShow] leaves when it reuses [v]. *)
Definition reused (gitCmd filePath : string) (column : ViewColumn) (v : GitDiffView)
  : GitDiffView :=
  set_filePath filePath (set_gitCmd gitCmd (set_panel (reveal column (panel v)) v)).

(** [w'] comes from [w] by starting refreshes only: the slot, the objects
    and the listeners are the same, and the new promises carry new
    numbers. *)
Definition only_refreshes (w w' : World) : Prop :=
  currentPanel w' = currentPanel w
  /\ objects w' = objects w
  /\ saveListeners w' = saveListeners w
  /\ nextReq w <= nextReq w'
  /\ (Forall (fun p => req_id p < nextReq w) (pending w) ->
      Forall (fun p => req_id p < nextReq w') (pending w')).

(** The line the save listener writes to the output channel. *)
Definition saveLine (uri_path filePath : string) : string :=
  if truthy uri_path && endsWith uri_path filePath
  then "<<<refreshViewContent>>>  " +:+ filePath
  else "<<<refreshViewContent>>> for current repository.".

Definition is_createOrShow (e : Event) : bool :=
  match e with
  | CreateOrShow _ _ _ _ => true
  | _ => false
  end.

Definition is_viewStateChanged (e : Event) : bool :=
  match e with
  | ViewStateChanged _ _ => true
  | _ => false
  end.

Definition is_execResolved (e : Event) : bool :=
  match e with
  | ExecResolved _ _ => true
  | _ => false
  end.

(** The object after the host has reported its panel shown or hidden:
    the panel carries the reported value, and the listener, when attached,
    copies it into the flag if the two differ. *)
Definition seen (nowVisible : bool) (v : GitDiffView) : GitDiffView :=
  let v1 := set_panel (set_visible nowVisible (panel v)) v in
  if viewStateHook (panel v) && negb (Bool.eqb nowVisible (isPanelVisible v))
  then set_isPanelVisible nowVisible v1
  else v1.

(** What an event may change in an object that exists already: the
    command and the watched path change in [createOrShow] only, the
    visibility flag when the host reports a change of visibility only, and
    the displayed document when a promise is fulfilled only. *)
Definition kept (e : Event) (v v' : GitDiffView) : Prop :=
  extensionPath v' = extensionPath v
  /\ (is_createOrShow e = false -> gitCmd v' = gitCmd v /\ filePath v' = filePath v)
  /\ (is_viewStateChanged e = false -> isPanelVisible v' = isPanelVisible v)
  /\ (is_execResolved e = false -> webview_html (panel v') = webview_html (panel v)).

(** The text of the template between its three interpolations. *)
Definition body_open : string :=
  template_links
  +:+ ln 2 ("<body style=" +:+ q "position:inherit" +:+ ">")
  +:+ ln 3 ("<div id=" +:+ q "app" +:+ ">")
  +:+ LF +:+ tabs 4.

Definition body_middle : string :=
  ln 3 "</div>"
  +:+ LF
  +:+ ln 3 "<div>"
  +:+ ln 4 "<hr/><br/>"
  +:+ ln 4 "<b>The cmd use to generate this is:</b><br/>"
  +:+ LF +:+ tabs 4.

Definition body_close : string :=
  ";" +:+ ln 3 "</div>" +:+ ln 2 "</body>" +:+ ln 2 "</html>".

(** The document around the rendered diff: neither part depends on the
    diff text or on the renderer. *)
Definition before_diff (uri : string) : string :=
  template_head +:+ uri +:+ body_open.

Definition after_diff (cmd : string) : string :=
  body_middle +:+ cmd +:+ body_close.

End CommandView.

(** ** The direct-content design (the earlier source file) *)

Module ContentView.

Record GitDiffView : Type := mkView {
  panel : WebviewPanel;
  extensionPath : string;
  isPanelVisible : bool;
  base : Disposable
}.

Definition set_panel (p : WebviewPanel) (v : GitDiffView) : GitDiffView :=
  mkView p (extensionPath v) (isPanelVisible v) (base v).

Definition set_isPanelVisible (b : bool) (v : GitDiffView) : GitDiffView :=
  mkView (panel v) (extensionPath v) b (base v).

Definition set_base (d : Disposable) (v : GitDiffView) : GitDiffView :=
  mkView (panel v) (extensionPath v) (isPanelVisible v) d.

Inductive Effect : Type :=
| CreateWebviewPanel (i : nat) (column : ViewColumn)
| Reveal (i : nat) (column : ViewColumn)
| Invoked (i : nat) (a : Cleanup).

Record World : Type := mkWorld {
  currentPanel : option nat;
  objects : list GitDiffView;
  effects : list Effect
}.

Definition init : World := mkWorld None [] [].

Definition set_currentPanel (c : option nat) (w : World) : World :=
  mkWorld c (objects w) (effects w).

Definition set_objects (os : list GitDiffView) (w : World) : World :=
  mkWorld (currentPanel w) os (effects w).

Definition emit (e : Effect) (w : World) : World :=
  mkWorld (currentPanel w) (objects w) (effects w ++ [e]).

Definition update (i : nat) (f : GitDiffView -> GitDiffView) (w : World) : World :=
  set_objects (alter f i (objects w)) w.

Definition update_panel (i : nat) (f : WebviewPanel -> WebviewPanel) (w : World) : World :=
  update i (fun v => set_panel (f (panel v)) v) w.

Section Operations.
Context `{Host}.

Definition getHtmlForWebview (v : GitDiffView) (diffContent : string) : string :=
  template_head
  +:+ getMediaUri (extensionPath v) "out.min.css"
  +:+ template_links
  +:+ ln 2 "<body>"
  +:+ ln 3 ("<div id=" +:+ q "app" +:+ "></div>")
  +:+ ln 3 (html diffContent)
  +:+ ln 2 "</body>"
  +:+ ln 2 "</html>".

(** The listener passed to [panel.onDidChangeViewState]. *)
Definition onDidChangeViewState (i : nat) (w : World) : World :=
  match objects w !! i with
  | Some v =>
      if negb (Bool.eqb (visible (panel v)) (isPanelVisible v))
      then update i (set_isPanelVisible (visible (panel v))) w
      else w
  | None => w
  end.

(** [WebviewPanel.dispose()] of the host. *)
Definition panel_dispose (listener : World -> World) (i : nat) (w : World) : World :=
  match objects w !! i with
  | Some v =>
      if panelDisposed (panel v) then w
      else
        let w' := update_panel i (set_panelDisposed true) w in
        if didDisposeHook (panel v) then listener w' else w'
  | None => w
  end.

Definition invoke (listener : World -> World) (i : nat) (a : Cleanup) (w : World) : World :=
  let w := emit (Invoked i a) w in
  match a with
  | ClearCurrentPanel => set_currentPanel None w
  | DetachDidDispose => update_panel i (set_didDisposeHook false) w
  | DetachViewState => update_panel i (set_viewStateHook false) w
  | DisposePanel => panel_dispose listener i w
  end.

(** Modelled from the spec: [dispose()] of the [Disposable] base class,
    which is not among the sources; as in [CommandView]. *)
Fixpoint dispose_fuel (fuel : nat) (i : nat) (w : World) : World :=
  match fuel with
  | 0 => w
  | S fuel' =>
      match objects w !! i with
      | Some v =>
          if disposed (base v) then w
          else
            fold_left (fun w a => invoke (dispose_fuel fuel' i) i a w)
                      (disposables (base v))
                      (update i (fun v => set_base (Disposable_mark (base v)) v) w)
      | None => w
      end
  end.

Definition dispose (i : nat) (w : World) : World := dispose_fuel 2 i w.

(** [new GitDiffView(extensionPath, diffContent, column)]. *)
Definition construct (extensionPath diffContent : string) (column : ViewColumn)
           (w : World) : nat * World :=
  let i := length (objects w) in
  let v := mkView (createWebviewPanel column) extensionPath true Disposable_new in
  let w := emit (CreateWebviewPanel i column) (set_objects (objects w ++ [v]) w) in
  let w := update_panel i (set_html (getHtmlForWebview v diffContent)) w in
  let w := update_panel i (set_didDisposeHook true) w in
  let w := update_panel i (set_viewStateHook true) w in
  let w := update i (fun v => set_base
             (Disposable_register
                [ClearCurrentPanel; DetachDidDispose; DetachViewState; DisposePanel]
                (base v)) v) w in
  (i, w).

(** [GitDiffView.createOrShow(extensionPath, diffContent, column)]. *)
Definition createOrShow (extensionPath diffContent : string) (column : ViewColumn)
           (w : World) : World :=
  match currentPanel w with
  | Some i =>
      let w :=
        match objects w !! i with
        | Some v => update_panel i (set_html (getHtmlForWebview v diffContent)) w
        | None => w
        end in
      emit (Reveal i column) (update_panel i (reveal column) w)
  | None =>
      let '(i, w) := construct extensionPath diffContent column w in
      set_currentPanel (Some i) w
  end.

Inductive Event : Type :=
| CreateOrShow (extensionPath diffContent : string) (column : option ViewColumn)
| PanelClosed (i : nat)
| Dispose (i : nat)
| ViewStateChanged (i : nat) (nowVisible : bool).

Definition viewStateChanged (i : nat) (nowVisible : bool) (w : World) : World :=
  match objects w !! i with
  | Some v =>
      if panelDisposed (panel v) then w
      else
        let w' := update_panel i (set_visible nowVisible) w in
        if viewStateHook (panel v) then onDidChangeViewState i w' else w'
  | None => w
  end.

Definition step (w : World) (e : Event) : World :=
  match e with
  | CreateOrShow ep diff col => createOrShow ep diff (default Beside col) w
  | PanelClosed i => panel_dispose (dispose i) i w
  | Dispose i => dispose i w
  | ViewStateChanged i b => viewStateChanged i b w
  end.

Definition run (w : World) (es : list Event) : World := fold_left step es w.
End Operations.

(** *** Observations *)

Definition isLive (v : GitDiffView) : bool := negb (disposed (base v)).

Definition liveCount (w : World) : nat :=
  length (List.filter isLive (objects w)).

Definition is_create (e : Effect) : bool :=
  match e with
  | CreateWebviewPanel _ _ => true
  | _ => false
  end.

Definition panelsCreated (w : World) : nat :=
  length (List.filter is_create (effects w)).

Definition displayed (i : nat) (w : World) : option string :=
  (fun v => webview_html (panel v)) <$> objects w !! i.

Definition lifecycle (v : GitDiffView) : Lifecycle := lifecycle_of (base v) (panel v).

Definition retire (v : GitDiffView) : GitDiffView :=
  mkView (retire_panel (panel v)) (extensionPath v) (isPanelVisible v)
         (Disposable_mark (base v)).

Definition retired (i : nat) (v : GitDiffView) (w : World) : World :=
  mkWorld None (<[i := retire v]> (objects w)) (effects w ++ (Invoked i <$> registered)).

Definition Inv (w : World) : Prop :=
  lifecycles_ok (currentPanel w) (lifecycle <$> objects w).

Section Outcomes.
Context `{Host}.

(** The object the constructor leaves. *)
Definition fresh (extensionPath diffContent : string) (column : ViewColumn) : GitDiffView :=
  mkView (mkPanel
            (getHtmlForWebview
               (mkView (createWebviewPanel column) extensionPath true Disposable_new)
               diffContent)
            true column false true true)
         extensionPath true (mkDisposable registered false).

(** The object [createOrShow] leaves when it reuses [v]. *)
Definition reused (diffContent : string) (column : ViewColumn) (v : GitDiffView)
  : GitDiffView :=
  set_panel (reveal column (set_html (getHtmlForWebview v diffContent) (panel v))) v.

End Outcomes.

Definition is_viewStateChanged (e : Event) : bool :=
  match e with
  | ViewStateChanged _ _ => true
  | _ => false
  end.

Definition seen (nowVisible : bool) (v : GitDiffView) : GitDiffView :=
  let v1 := set_panel (set_visible nowVisible (panel v)) v in
  if viewStateHook (panel v) && negb (Bool.eqb nowVisible (isPanelVisible v))
  then set_isPanelVisible nowVisible v1
  else v1.

(** What an event may change in an object that exists already: the
    visibility flag changes when the host reports a change of visibility
    only. *)
Definition kept (e : Event) (v v' : GitDiffView) : Prop :=
  extensionPath v' = extensionPath v
  /\ (is_viewStateChanged e = false -> isPanelVisible v' = isPanelVisible v).

(** The text of the template between its two interpolations. *)
Definition body_open : string :=
  template_links
  +:+ ln 2 "<body>"
  +:+ ln 3 ("<div id=" +:+ q "app" +:+ "></div>")
  +:+ LF +:+ tabs 3.

Definition body_close : string :=
  ln 2 "</body>" +:+ ln 2 "</html>".

Definition before_diff (uri : string) : string :=
  template_head +:+ uri +:+ body_open.

End ContentView.

(** ** Well-formed markup *)

(** A document is read character by character; the reader keeps the stack
    of the elements still open.  It is well formed when every closing tag
    closes the innermost open element, nothing is left open, one element
    stands at the root and nothing but white space and declarations
    surrounds it. *)
Module Markup.

Inductive Mode : Type :=
| Text
| TagOpen
| Name (closing : bool) (name : string)
| Attrs (closing : bool) (name : string) (quoted slash : bool)
| Declaration
| Malformed.

Record Scan : Type := mkScan {
  mode : Mode;
  open_tags : list string;
  roots : nat;
  stray : bool
}.

Definition start : Scan := mkScan Text [] 0 false.

Definition set_mode (m : Mode) (s : Scan) : Scan :=
  mkScan m (open_tags s) (roots s) (stray s).

Definition is_space (c : ascii) : bool :=
  Ascii.eqb c " " || Ascii.eqb c "009" || Ascii.eqb c "010" || Ascii.eqb c "013".

(** The elements of HTML that have no content and no closing tag. *)
Definition void_elements : list string :=
  ["area"; "base"; "br"; "col"; "embed"; "hr"; "img"; "input"; "link"; "meta";
   "source"; "track"; "wbr"].

Definition is_void (name : string) : bool :=
  existsb (String.eqb name) void_elements.

Definition at_root (s : Scan) : bool :=
  match open_tags s with
  | [] => true
  | _ :: _ => false
  end.

(** The [>] that ends a tag. *)
Definition end_tag (closing slash : bool) (name : string) (s : Scan) : Scan :=
  if closing then
    match open_tags s with
    | top :: rest =>
        if String.eqb top name
        then mkScan Text rest (roots s) (stray s)
        else set_mode Malformed s
    | [] => set_mode Malformed s
    end
  else
    let roots' := if at_root s then S (roots s) else roots s in
    if slash || is_void name
    then mkScan Text (open_tags s) roots' (stray s)
    else mkScan Text (name :: open_tags s) roots' (stray s).

Definition scan_char (s : Scan) (c : ascii) : Scan :=
  match mode s with
  | Text =>
      if Ascii.eqb c "<" then set_mode TagOpen s
      else if is_space c || negb (at_root s) then s
      else mkScan Text (open_tags s) (roots s) true
  | TagOpen =>
      if Ascii.eqb c "!" then set_mode Declaration s
      else if Ascii.eqb c "/" then set_mode (Name true EmptyString) s
      else if Ascii.eqb c ">" || Ascii.eqb c "<" || is_space c then set_mode Malformed s
      else set_mode (Name false (String c EmptyString)) s
  | Name closing name =>
      if is_space c then set_mode (Attrs closing name false false) s
      else if Ascii.eqb c "/" then set_mode (Attrs closing name false true) s
      else if Ascii.eqb c ">" then end_tag closing false name s
      else if Ascii.eqb c "<" then set_mode Malformed s
      else set_mode (Name closing (name +:+ String c EmptyString)) s
  | Attrs closing name quoted slash =>
      if quoted then
        if Ascii.eqb c "034" then set_mode (Attrs closing name false false) s else s
      else if Ascii.eqb c "034" then set_mode (Attrs closing name true false) s
      else if Ascii.eqb c ">" then end_tag closing slash name s
      else if Ascii.eqb c "/" then set_mode (Attrs closing name false true) s
      else if is_space c then s
      else if Ascii.eqb c "<" then set_mode Malformed s
      else set_mode (Attrs closing name false false) s
  | Declaration =>
      if Ascii.eqb c ">" then set_mode Text s else s
  | Malformed => s
  end.

Fixpoint scan (s : Scan) (t : string) : Scan :=
  match t with
  | EmptyString => s
  | String c t' => scan (scan_char s c) t'
  end.

Definition in_text (s : Scan) : bool :=
  match mode s with
  | Text => true
  | _ => false
  end.

(** One complete document: a single root element, everything closed. *)
Definition well_formed (doc : string) : bool :=
  let s := scan start doc in
  in_text s && at_root s && (roots s =? 1) && negb (stray s).

(** A fragment that can stand inside an element: its tags are closed in
    the fragment itself. *)
Definition balanced (fragment : string) : bool :=
  let s := scan start fragment in
  in_text s && at_root s.

Fixpoint has_char (c : ascii) (t : string) : bool :=
  match t with
  | EmptyString => false
  | String c' t' => Ascii.eqb c' c || has_char c t'
  end.

(** The same reader state, inside the elements [ctx]. *)
Definition frame (ctx : list string) (r : nat) (y : bool) (s : Scan) : Scan :=
  mkScan (mode s) (open_tags s ++ ctx) r y.

End Markup.

(** ** A host to run the model on *)

(** A renderer that wraps the diff text in one element, and paths and URIs
    written the usual way. *)
Definition sample_host : Host := {|
  html := fun diffText => "<pre>" +:+ diffText +:+ "</pre>";
  path_join := String.concat "/";
  Uri_file := fun path => "file://" +:+ path;
  asWebviewUri := fun uri => "vscode-resource:" +:+ uri
|}.

(** The diff text of the specification's example. *)
Definition sample_diff : string :=
  "--- a" +:+ LF +:+ "+++ b" +:+ LF +:+ "@@ -1 +1 @@" +:+ LF +:+ "-old" +:+ LF +:+ "+new".

(** The panel is opened on one file. *)
Definition opened : list CommandView.Event :=
  [CommandView.CreateOrShow "/ext" "git diff -- file.txt" "file.txt" None].

(** The panel is opened with an empty watched path. *)
Definition opened_on_nothing : list CommandView.Event :=
  [CommandView.CreateOrShow "/ext" "git diff" EmptyString None].

(** The panel of the earlier design is opened. *)
Definition opened_with_text : list ContentView.Event :=
  [ContentView.CreateOrShow "/ext" sample_diff None].

(** The panel is opened, then disposed of. *)
Definition opened_then_disposed : list CommandView.Event :=
  opened ++ [CommandView.Dispose 0].

(** Then requested again, for another file and in another column. *)
Definition reopened_elsewhere : CommandView.Event :=
  CommandView.CreateOrShow "/ext" "git diff -- other.txt" "other.txt" (Some Two).

(** Events that are not calls of [createOrShow]. *)
Definition other_events : list CommandView.Event :=
  [CommandView.DidSaveTextDocument "/repo/notes.md";
   CommandView.ViewStateChanged 0 false;
   CommandView.ExecRejected 0].

(** A command that carries markup of its own. *)
Definition command_with_markup : string :=
  "git log -p --author=<dev@example.com>".

(** ** Further observations *)

(** The objects whose save rule holds for a saved path. *)
Definition listening (uri_path : string) (vs : list CommandView.GitDiffView)
  : list CommandView.GitDiffView :=
  List.filter (fun v => CommandView.saveTriggers uri_path (CommandView.filePath v)) vs.

(** The flag of an object and the visibility of its panel agree. *)
Definition cv_mirrors (v : CommandView.GitDiffView) : Prop :=
  CommandView.isPanelVisible v = visible (CommandView.panel v).

Definition tv_mirrors (v : ContentView.GitDiffView) : Prop :=
  ContentView.isPanelVisible v = visible (ContentView.panel v).

Definition tv_is_createOrShow (e : ContentView.Event) : bool :=
  match e with
  | ContentView.CreateOrShow _ _ _ => true
  | _ => false
  end.


(** Three panels are opened one after the other, each on the whole
    repository, the first two being closed. *)
Definition three_generations : list CommandView.Event :=
  [CommandView.CreateOrShow "/ext" "git diff" "." None;
   CommandView.PanelClosed 0;
   CommandView.CreateOrShow "/ext" "git diff" "." None;
   CommandView.Dispose 1;
   CommandView.CreateOrShow "/ext" "git diff" "." None].

(** The panel of the earlier design is opened, then disposed of. *)
Definition text_then_disposed : list ContentView.Event :=
  opened_with_text ++ [ContentView.Dispose 0].

(** The panel is opened on a path longer than most. *)
Definition opened_on_long_path : list CommandView.Event :=
  [CommandView.CreateOrShow "/ext" "git diff" "/repo/sub/dir/file.txt" None].

(** * Facts *)

(** ** Strings *)

Section StringFacts.

Lemma str_app_nil_l (s : string) : EmptyString +:+ s = s.
Proof. reflexivity. Qed.

Lemma str_app_cons (c : ascii) (s t : string) :
  String c s +:+ t = String c (s +:+ t).
Proof. reflexivity. Qed.

Lemma str_app_nil_r (s : string) : s +:+ EmptyString = s.
Proof. induction s as [|c s IH]; [reflexivity|]. rewrite str_app_cons. by f_equal. Qed.

Lemma str_app_assoc (s t u : string) : (s +:+ t) +:+ u = s +:+ (t +:+ u).
Proof.
  induction s as [|c s IH]; [reflexivity|].
  rewrite !str_app_cons. by f_equal.
Qed.

Lemma str_length_app (s t : string) :
  String.length (s +:+ t) = String.length s + String.length t.
Proof.
  induction s as [|c s IH]; [reflexivity|].
  rewrite str_app_cons. cbn. by rewrite IH.
Qed.

Lemma substring_whole (s : string) : substring 0 (String.length s) s = s.
Proof. induction s as [|c s IH]; [reflexivity|]. cbn. by f_equal. Qed.

Lemma substring_skip (p t : string) (m : nat) :
  substring (String.length p) m (p +:+ t) = substring 0 m t.
Proof. induction p as [|c p IH]; [reflexivity|]. rewrite str_app_cons. cbn. exact IH. Qed.

(** A string is what comes before position [n] followed by the rest. *)
Lemma substring_split (s : string) (n : nat) :
  n <= String.length s ->
  s = substring 0 n s +:+ substring n (String.length s - n) s.
Proof.
  revert n. induction s as [|c s IH]; intros [|n] Hn; cbn in *; try lia.
  - reflexivity.
  - rewrite str_app_nil_l. f_equal. symmetry. apply substring_whole.
  - rewrite str_app_cons. f_equal. apply IH. lia.
Qed.

(** [endsWith] decides the suffix relation. *)
Lemma endsWith_suffix (s t : string) :
  endsWith s t = true <-> exists p, s = p +:+ t.
Proof.
  unfold endsWith. split.
  - destruct (Nat.leb_spec (String.length t) (String.length s)) as [Hle|]; [|done].
    intros Heq%String.eqb_eq.
    exists (substring 0 (String.length s - String.length t) s).
    etrans; [apply (substring_split s (String.length s - String.length t)); lia|].
    f_equal.
    replace (String.length s - (String.length s - String.length t))
      with (String.length t) by lia.
    exact Heq.
  - intros [p ->]. rewrite str_length_app.
    destruct (Nat.leb_spec (String.length t) (String.length p + String.length t)); [|lia].
    replace (String.length p + String.length t - String.length t)
      with (String.length p) by lia.
    rewrite substring_skip, substring_whole. apply String.eqb_refl.
Qed.

Example endsWith_examples :
  endsWith "/repo/sub/file.txt" "file.txt" = true
  /\ endsWith "/repo/other.txt" "file.txt" = false
  /\ endsWith "txt" "file.txt" = false
  /\ endsWith "file.txt" EmptyString = true.
Proof. repeat split; reflexivity. Qed.

Lemma truthy_nonempty (s : string) : truthy s = true <-> s <> EmptyString.
Proof. destruct s; cbn; split; congruence. Qed.

Lemma prefix_app (s t : string) : String.prefix s (s +:+ t) = true.
Proof.
  induction s as [|c s IH]; [by destruct t|].
  rewrite str_app_cons. cbn. destruct (ascii_dec c c); [exact IH|congruence].
Qed.

Lemma includes_prefix (s t : string) :
  String.prefix t s = true -> includes s t = true.
Proof. intros Hp. destruct s; cbn [includes]; rewrite Hp; reflexivity. Qed.

(** Whatever stands between two other strings is included in the whole. *)
Lemma includes_middle (a s b : string) : includes (a +:+ s +:+ b) s = true.
Proof.
  induction a as [|c a IH].
  - rewrite str_app_nil_l. apply includes_prefix, prefix_app.
  - rewrite str_app_cons. cbn [includes]. rewrite IH. apply orb_true_r.
Qed.

End StringFacts.

(** ** Life cycles *)

Section LifecycleFacts.

Lemma lifecycles_ok_init : lifecycles_ok None [].
Proof. split; [intros i c Hi; by rewrite lookup_nil in Hi|done]. Qed.

(** With the slot empty, a new object takes it. *)
Lemma lifecycles_ok_new (cycles : list Lifecycle) :
  lifecycles_ok None cycles ->
  lifecycles_ok (Some (length cycles)) (cycles ++ [alive_cycle]).
Proof.
  intros [Hobj _]. split.
  - intros i c [Hi|[-> [= <-]]]%lookup_snoc_Some.
    + destruct Hi as [Hlt Hi]. destruct (Hobj i c Hi) as [[_ ?]|[-> _]]; [done|].
      right. split; [done|]. intros [= ?]. lia.
    + by left.
  - intros i [= <-]. rewrite length_app. cbn. lia.
Qed.

(** The object in the slot is disposed of, and the slot emptied. *)
Lemma lifecycles_ok_retire (i : nat) (cycles : list Lifecycle) :
  lifecycles_ok (Some i) cycles ->
  lifecycles_ok None (<[i := dead_cycle]> cycles).
Proof.
  intros [Hobj Hcur]. split; [|done].
  intros j c Hj. right. split; [|done].
  destruct (decide (i = j)) as [<-|Hne].
  - rewrite list_lookup_insert_eq in Hj by (by apply Hcur). congruence.
  - rewrite list_lookup_insert_ne in Hj by done.
    destruct (Hobj j c Hj) as [[_ ?]|[-> _]]; [congruence|done].
Qed.

Lemma lifecycles_ok_none_dead (cycles : list Lifecycle) :
  lifecycles_ok None cycles -> List.filter cycle_live cycles = [].
Proof.
  intros [Hobj _].
  assert (forall i c, cycles !! i = Some c -> c = dead_cycle) as Hdead.
  { intros i c Hi. by destruct (Hobj i c Hi) as [[_ ?]|[-> _]]. }
  clear Hobj. induction cycles as [|c cs IH]; [reflexivity|].
  cbn [List.filter]. rewrite (Hdead 0 c eq_refl). cbn.
  apply IH. intros i c' Hi. exact (Hdead (S i) c' Hi).
Qed.

(** At most one object is in use: the one in the slot. *)
Lemma lifecycles_ok_count (current : option nat) (cycles : list Lifecycle) :
  lifecycles_ok current cycles ->
  length (List.filter cycle_live cycles) = match current with Some _ => 1 | None => 0 end.
Proof.
  revert current. induction cycles as [|c cs IH]; intros current [Hobj Hcur].
  - destruct current as [i|]; [|reflexivity]. specialize (Hcur i eq_refl). cbn in Hcur. lia.
  - cbn [List.filter].
    assert (lifecycles_ok (pred <$> (if decide (current = Some 0) then None else current)) cs)
      as Hcs.
    { split.
      - intros i c' Hi. destruct (Hobj (S i) c' Hi) as [[-> ->]|[-> Hne]].
        + left. by rewrite decide_False by done.
        + right. split; [done|]. case_decide; [done|].
          destruct current as [[|k]|]; cbn; congruence.
      - intros i Hi. case_decide; [done|].
        destruct current as [[|k]|]; simplify_eq/=.
        specialize (Hcur (S i) eq_refl). cbn in Hcur. lia. }
    specialize (IH _ Hcs).
    destruct (Hobj 0 c eq_refl) as [[-> ->]|[-> Hne]]; cbn.
    + rewrite decide_True in IH by done. cbn in IH. by rewrite IH.
    + rewrite decide_False in IH by done. rewrite IH. by destruct current.
Qed.

End LifecycleFacts.

(** ** Markup *)

Module MarkupFacts.
Import Markup.

Lemma scan_app (s : Scan) (a b : string) :
  scan s (a +:+ b) = scan (scan s a) b.
Proof.
  revert s. induction a as [|c a IH]; intros s; [reflexivity|].
  rewrite str_app_cons. cbn [scan]. apply IH.
Qed.

(** Once malformed, always malformed. *)
Lemma scan_malformed (s : Scan) (t : string) :
  mode s = Malformed -> scan s t = s.
Proof.
  revert s. induction t as [|c t IH]; intros s Hs; [reflexivity|].
  cbn [scan]. assert (scan_char s c = s) as -> by (unfold scan_char; by rewrite Hs).
  by apply IH.
Qed.

Lemma at_root_frame ctx r y s : ctx <> [] -> at_root (frame ctx r y s) = false.
Proof. intros Hctx. unfold at_root, frame. cbn. by destruct (open_tags s), ctx. Qed.

Lemma end_tag_frame ctx r y closing slash name s :
  ctx <> [] ->
  mode (end_tag closing slash name s) <> Malformed ->
  end_tag closing slash name (frame ctx r y s)
  = frame ctx r y (end_tag closing slash name s).
Proof.
  intros Hctx. unfold end_tag. rewrite at_root_frame by done.
  destruct closing.
  - destruct s as [m [|top rest] r0 y0]; cbn; [done|].
    destruct (String.eqb top name); cbn; [reflexivity|done].
  - destruct (slash || is_void name); reflexivity.
Qed.

Ltac split_if :=
  match goal with
  | |- context [if ?b then _ else _] => destruct b eqn:?
  end.

(** A character read without error is read in the same way inside other
    elements, where it changes neither the root count nor the stray
    flag. *)
Lemma scan_char_frame ctx r y s c :
  ctx <> [] ->
  mode (scan_char s c) <> Malformed ->
  scan_char (frame ctx r y s) c = frame ctx r y (scan_char s c).
Proof.
  intros Hctx. unfold scan_char.
  change (mode (frame ctx r y s)) with (mode s).
  destruct (mode s) as [| |closing name|closing name quoted slash| |] eqn:Hm.
  - rewrite at_root_frame by done.
    destruct (Ascii.eqb c "<"); [reflexivity|].
    rewrite orb_true_r. intros _.
    destruct (is_space c || negb (at_root s)); unfold frame; cbn;
      rewrite ?Hm; reflexivity.
  - repeat split_if; intros Hok; first [reflexivity | by cbn in Hok].
  - repeat split_if; intros Hok;
      first [reflexivity | by cbn in Hok | by apply end_tag_frame].
  - repeat split_if; intros Hok;
      first [reflexivity | by cbn in Hok | by apply end_tag_frame
            | unfold frame; by rewrite Hm].
  - repeat split_if; intros Hok; first [reflexivity | unfold frame; by rewrite Hm].
  - done.
Qed.

Lemma scan_frame ctx r y (t : string) (s : Scan) :
  ctx <> [] ->
  mode (scan s t) <> Malformed ->
  scan (frame ctx r y s) t = frame ctx r y (scan s t).
Proof.
  intros Hctx. revert s. induction t as [|c t IH]; intros s Hok; [reflexivity|].
  cbn [scan] in *.
  assert (mode (scan_char s c) <> Malformed) as Hc.
  { intros Hbad. by rewrite (scan_malformed _ t Hbad) in Hok. }
  rewrite scan_char_frame by done. by apply IH.
Qed.

(** A balanced fragment leaves the reader where it found it, inside any
    element. *)
Lemma balanced_in_context (fragment : string) ctx r y :
  balanced fragment = true -> ctx <> [] ->
  scan (mkScan Text ctx r y) fragment = mkScan Text ctx r y.
Proof.
  unfold balanced, in_text, at_root. intros Hb Hctx.
  change (mkScan Text ctx r y) with (frame ctx r y start).
  rewrite scan_frame by (done || by destruct (mode (scan start fragment))).
  destruct (scan start fragment) as [[] [|] ? ?]; done.
Qed.

(** Inside a quoted attribute value only a double quote is noticed. *)
Lemma scan_quoted (u : string) closing name slash st r y :
  has_char "034" u = false ->
  scan (mkScan (Attrs closing name true slash) st r y) u
  = mkScan (Attrs closing name true slash) st r y.
Proof.
  induction u as [|c u IH]; [reflexivity|].
  cbn [has_char scan]. intros [Hc Hu]%orb_false_elim.
  unfold scan_char at 1. cbn. rewrite Hc. by apply IH.
Qed.

(** Inside an element, text without [<] is just text. *)
Lemma scan_plain_text (t : string) st r y :
  has_char "<" t = false -> st <> [] ->
  scan (mkScan Text st r y) t = mkScan Text st r y.
Proof.
  intros Ht Hst. induction t as [|c t IH]; [reflexivity|].
  cbn [has_char scan] in *. apply orb_false_elim in Ht as [Hc Hu].
  unfold scan_char at 1. cbn. rewrite Hc.
  unfold at_root. cbn. destruct st; [done|]. cbn. rewrite orb_true_r. by apply IH.
Qed.

End MarkupFacts.

(** ** The rendered document *)

Section DocumentFacts.
Context `{Host}.
Import Markup MarkupFacts.

Lemma cv_document_shape (v : CommandView.GitDiffView) (diffContent : string) :
  CommandView.getHtmlForWebview v diffContent
  = CommandView.before_diff (getMediaUri (CommandView.extensionPath v) "out.min.css")
    +:+ html diffContent
    +:+ CommandView.after_diff (CommandView.gitCmd v).
Proof.
  unfold CommandView.getHtmlForWebview, CommandView.before_diff, CommandView.after_diff,
    CommandView.body_open, CommandView.body_middle, CommandView.body_close, ln.
  rewrite !str_app_assoc. reflexivity.
Qed.

Lemma tv_document_shape (v : ContentView.GitDiffView) (diffContent : string) :
  ContentView.getHtmlForWebview v diffContent
  = ContentView.before_diff (getMediaUri (ContentView.extensionPath v) "out.min.css")
    +:+ html diffContent
    +:+ ContentView.body_close.
Proof.
  unfold ContentView.getHtmlForWebview, ContentView.before_diff,
    ContentView.body_open, ContentView.body_close, ln.
  rewrite !str_app_assoc. reflexivity.
Qed.

(** Where the reader stands at each interpolation of the template. *)
Lemma scan_template_head :
  scan start template_head
  = mkScan (Attrs false "link" true false) ["head"; "html"] 1 false.
Proof. vm_compute. reflexivity. Qed.

Lemma cv_scan_body_open :
  scan (mkScan (Attrs false "link" true false) ["head"; "html"] 1 false)
       CommandView.body_open
  = mkScan Text ["div"; "body"; "html"] 1 false.
Proof. vm_compute. reflexivity. Qed.

Lemma cv_scan_body_middle :
  scan (mkScan Text ["div"; "body"; "html"] 1 false) CommandView.body_middle
  = mkScan Text ["div"; "body"; "html"] 1 false.
Proof. vm_compute. reflexivity. Qed.

Lemma cv_scan_body_close :
  scan (mkScan Text ["div"; "body"; "html"] 1 false) CommandView.body_close
  = mkScan Text [] 1 false.
Proof. vm_compute. reflexivity. Qed.

Lemma tv_scan_body_open :
  scan (mkScan (Attrs false "link" true false) ["head"; "html"] 1 false)
       ContentView.body_open
  = mkScan Text ["body"; "html"] 1 false.
Proof. vm_compute. reflexivity. Qed.

Lemma tv_scan_body_close :
  scan (mkScan Text ["body"; "html"] 1 false) ContentView.body_close
  = mkScan Text [] 1 false.
Proof. vm_compute. reflexivity. Qed.

(** The document of the command-driven design is well formed as soon as
    the three interpolated strings fit the place they are put in. *)
Lemma cv_document_well_formed (v : CommandView.GitDiffView) (diffContent : string) :
  balanced (html diffContent) = true ->
  has_char "034" (getMediaUri (CommandView.extensionPath v) "out.min.css") = false ->
  has_char "<" (CommandView.gitCmd v) = false ->
  well_formed (CommandView.getHtmlForWebview v diffContent) = true.
Proof.
  intros Hfrag Huri Hcmd. rewrite cv_document_shape.
  unfold well_formed, CommandView.before_diff, CommandView.after_diff.
  rewrite !scan_app, scan_template_head, (scan_quoted _ _ _ _ _ _ _ Huri),
    cv_scan_body_open, (balanced_in_context _ _ _ _ Hfrag) by done.
  rewrite cv_scan_body_middle, (scan_plain_text _ _ _ _ Hcmd) by done.
  rewrite cv_scan_body_close. reflexivity.
Qed.

Lemma tv_document_well_formed (v : ContentView.GitDiffView) (diffContent : string) :
  balanced (html diffContent) = true ->
  has_char "034" (getMediaUri (ContentView.extensionPath v) "out.min.css") = false ->
  well_formed (ContentView.getHtmlForWebview v diffContent) = true.
Proof.
  intros Hfrag Huri. rewrite tv_document_shape.
  unfold well_formed, ContentView.before_diff.
  rewrite !scan_app, scan_template_head, (scan_quoted _ _ _ _ _ _ _ Huri),
    tv_scan_body_open, (balanced_in_context _ _ _ _ Hfrag) by done.
  rewrite tv_scan_body_close. reflexivity.
Qed.

(** The command is part of the document, character for character. *)
Lemma cv_document_includes (v : CommandView.GitDiffView) (diffContent : string) :
  includes (CommandView.getHtmlForWebview v diffContent) (CommandView.gitCmd v) = true.
Proof.
  rewrite cv_document_shape. unfold CommandView.after_diff.
  replace (CommandView.before_diff (getMediaUri (CommandView.extensionPath v) "out.min.css")
           +:+ html diffContent
           +:+ CommandView.body_middle +:+ CommandView.gitCmd v +:+ CommandView.body_close)
    with ((CommandView.before_diff (getMediaUri (CommandView.extensionPath v) "out.min.css")
           +:+ html diffContent +:+ CommandView.body_middle)
          +:+ CommandView.gitCmd v +:+ CommandView.body_close)
    by (by rewrite !str_app_assoc).
  apply includes_middle.
Qed.

End DocumentFacts.

(** ** The command-driven design *)

Module CommandFacts.
Import CommandView.

Section Facts.
Context `{Host}.

Lemma cv_alter_insert (f : GitDiffView -> GitDiffView) (i : nat) (l : list GitDiffView) v :
  l !! i = Some v -> alter f i l = <[i := f v]> l.
Proof.
  intros Hv. apply list_eq. intros j. destruct (decide (i = j)) as [<-|Hne].
  - rewrite list_lookup_alter_eq, Hv, list_lookup_insert_eq by (by eapply lookup_lt_Some).
    reflexivity.
  - by rewrite list_lookup_alter_ne, list_lookup_insert_ne.
Qed.

Lemma cv_lifecycle_alter (f : GitDiffView -> GitDiffView) (i : nat) (l : list GitDiffView) :
  (forall v, lifecycle (f v) = lifecycle v) ->
  lifecycle <$> alter f i l = lifecycle <$> l.
Proof.
  intros Hf. apply list_eq. intros j. rewrite !list_lookup_fmap.
  destruct (decide (i = j)) as [<-|Hne].
  - rewrite list_lookup_alter_eq. destruct (l !! i); cbn; by rewrite ?Hf.
  - by rewrite list_lookup_alter_ne.
Qed.

(** *** [refreshViewContent] *)

Lemma cv_refresh_eq (i : nat) (v : GitDiffView) (w : World) :
  objects w !! i = Some v ->
  refreshViewContent i w
  = mkWorld (currentPanel w) (objects w) (saveListeners w)
            (pending w ++ [mkPending (nextReq w) i (gitCmd v)]) (S (nextReq w))
            (effects w ++ [ExecShell i (nextReq w) (gitCmd v)]).
Proof. intros Hv. unfold refreshViewContent. by rewrite Hv. Qed.

Lemma cv_refresh_objects (i : nat) (w : World) :
  objects (refreshViewContent i w) = objects w.
Proof. unfold refreshViewContent. by destruct (objects w !! i). Qed.

Lemma cv_refresh_currentPanel (i : nat) (w : World) :
  currentPanel (refreshViewContent i w) = currentPanel w.
Proof. unfold refreshViewContent. by destruct (objects w !! i). Qed.

Lemma cv_refresh_saveListeners (i : nat) (w : World) :
  saveListeners (refreshViewContent i w) = saveListeners w.
Proof. unfold refreshViewContent. by destruct (objects w !! i). Qed.

(** *** [dispose] *)

Lemma cv_world_eq (w1 w2 : World) :
  currentPanel w1 = currentPanel w2 -> objects w1 = objects w2 ->
  saveListeners w1 = saveListeners w2 -> pending w1 = pending w2 ->
  nextReq w1 = nextReq w2 -> effects w1 = effects w2 -> w1 = w2.
Proof. destruct w1, w2; cbn; intros; by subst. Qed.

Lemma cv_update_id (i : nat) (f : GitDiffView -> GitDiffView) (v : GitDiffView) (w : World) :
  objects w !! i = Some v -> f v = v -> update i f w = w.
Proof.
  intros Hv Hf. apply cv_world_eq; try reflexivity. cbn.
  rewrite (cv_alter_insert _ _ _ _ Hv), Hf. by apply list_insert_id.
Qed.

(** With its listener detached, disposing of the panel only marks it. *)
Lemma cv_panel_dispose_detached (listener : World -> World) (i : nat)
      (v : GitDiffView) (w : World) :
  objects w !! i = Some v -> didDisposeHook (panel v) = false ->
  panel_dispose listener i w = update_panel i (set_panelDisposed true) w.
Proof.
  intros Hv Hhook. unfold panel_dispose. rewrite Hv, Hhook.
  destruct (panelDisposed (panel v)) eqn:Hgone; [|reflexivity].
  symmetry. apply (cv_update_id _ _ v); [done|].
  destruct v as [[] ? ? ? ? ?]; cbn in *; by subst.
Qed.

(** Disposing of an object whose chain holds the four registered
    disposables retires it, whatever the fuel and whatever the state of
    its panel: the listener of [onDidDispose] is detached before the panel
    is disposed of, so [dispose] is not entered again. *)
Lemma cv_dispose_fuel_registered (n i : nat) (v : GitDiffView) (w : World) :
  objects w !! i = Some v ->
  base v = mkDisposable registered false ->
  dispose_fuel (S n) i w = retired i v w.
Proof.
  intros Hv Hbase. cbn [dispose_fuel]. rewrite Hv, Hbase.
  cbn [disposed disposables registered fold_left invoke].
  erewrite cv_panel_dispose_detached;
    [|cbn; rewrite !list_lookup_alter_eq, Hv; reflexivity|reflexivity].
  apply cv_world_eq; cbn; try reflexivity.
  - rewrite !list_alter_alter_eq, (cv_alter_insert _ _ _ _ Hv). reflexivity.
  - by rewrite <- !app_assoc.
Qed.

Lemma cv_dispose_fuel_disposed (n i : nat) (v : GitDiffView) (w : World) :
  objects w !! i = Some v -> disposed (base v) = true -> dispose_fuel n i w = w.
Proof. intros Hv Hd. destruct n; [reflexivity|]. cbn. by rewrite Hv, Hd. Qed.

Lemma cv_dispose_fuel_absent (n i : nat) (w : World) :
  objects w !! i = None -> dispose_fuel n i w = w.
Proof. intros Hv. destruct n; [reflexivity|]. cbn. by rewrite Hv. Qed.

(** *** [createOrShow] *)

Lemma cv_construct_eq (ep cmd fp : string) (col : ViewColumn) (w : World) :
  construct ep cmd fp col w
  = (length (objects w),
     mkWorld (currentPanel w) (objects w ++ [fresh ep cmd fp col])
             (saveListeners w ++ [length (objects w)])
             (pending w ++ [mkPending (nextReq w) (length (objects w)) cmd])
             (S (nextReq w))
             (effects w ++ [CreateWebviewPanel (length (objects w)) col;
                            ExecShell (length (objects w)) (nextReq w) cmd])).
Proof.
  unfold construct. f_equal.
  erewrite cv_refresh_eq by (cbn; apply list_lookup_middle; reflexivity).
  apply cv_world_eq; cbn; try reflexivity.
  - rewrite !list_alter_alter_eq, alter_app_r_alt, Nat.sub_diag by done. reflexivity.
  - by rewrite <- app_assoc.
Qed.

(** The slot is occupied: the object in it is reused. *)
Lemma cv_createOrShow_reuse (ep cmd fp : string) (col : ViewColumn) (i : nat)
      (v : GitDiffView) (w : World) :
  currentPanel w = Some i -> objects w !! i = Some v ->
  createOrShow ep cmd fp col w
  = mkWorld (Some i) (<[i := reused cmd fp col v]> (objects w)) (saveListeners w)
            (pending w ++ [mkPending (nextReq w) i cmd]) (S (nextReq w))
            (effects w ++ [Reveal i col; ExecShell i (nextReq w) cmd]).
Proof.
  intros Hcur Hv. unfold createOrShow. rewrite Hcur.
  erewrite cv_refresh_eq
    by (cbn; rewrite !list_lookup_alter_eq, Hv; reflexivity).
  apply cv_world_eq; cbn; try done.
  - rewrite !list_alter_alter_eq. by apply cv_alter_insert.
  - by rewrite <- app_assoc.
Qed.

(** The slot is empty: an object is built and takes it. *)
Lemma cv_createOrShow_new (ep cmd fp : string) (col : ViewColumn) (w : World) :
  currentPanel w = None ->
  createOrShow ep cmd fp col w
  = mkWorld (Some (length (objects w))) (objects w ++ [fresh ep cmd fp col])
            (saveListeners w ++ [length (objects w)])
            (pending w ++ [mkPending (nextReq w) (length (objects w)) cmd])
            (S (nextReq w))
            (effects w ++ [CreateWebviewPanel (length (objects w)) col;
                           ExecShell (length (objects w)) (nextReq w) cmd]).
Proof.
  intros Hcur. unfold createOrShow. rewrite Hcur, cv_construct_eq. reflexivity.
Qed.

(** *** Objects in use and objects disposed of *)

Lemma cv_alive_fields (v : GitDiffView) :
  lifecycle v = alive_cycle ->
  base v = mkDisposable registered false /\ panelDisposed (panel v) = false
  /\ didDisposeHook (panel v) = true /\ viewStateHook (panel v) = true.
Proof. unfold lifecycle, lifecycle_of, alive_cycle. by intros [= -> -> -> ->]. Qed.

Lemma cv_dead_fields (v : GitDiffView) :
  lifecycle v = dead_cycle ->
  base v = mkDisposable registered true /\ panelDisposed (panel v) = true
  /\ didDisposeHook (panel v) = false /\ viewStateHook (panel v) = false.
Proof. unfold lifecycle, lifecycle_of, dead_cycle. by intros [= -> -> -> ->]. Qed.

Lemma cv_lifecycle_retire (v : GitDiffView) :
  lifecycle v = alive_cycle -> lifecycle (retire v) = dead_cycle.
Proof.
  intros (Hb & _)%cv_alive_fields. unfold lifecycle, lifecycle_of, retire. cbn.
  by rewrite Hb.
Qed.

Lemma cv_insert_alter (f : GitDiffView -> GitDiffView) (i : nat) (x : GitDiffView)
      (l : list GitDiffView) :
  <[i := x]> (alter f i l) = <[i := x]> l.
Proof. by rewrite !list_insert_alter, list_alter_alter_eq. Qed.

Lemma cv_dispose_live (i : nat) (v : GitDiffView) (w : World) :
  objects w !! i = Some v -> lifecycle v = alive_cycle -> dispose i w = retired i v w.
Proof.
  intros Hv (Hb & _)%cv_alive_fields. by apply cv_dispose_fuel_registered.
Qed.

Lemma cv_dispose_dead (i : nat) (v : GitDiffView) (w : World) :
  objects w !! i = Some v -> lifecycle v = dead_cycle -> dispose i w = w.
Proof.
  intros Hv (Hb & _)%cv_dead_fields. apply (cv_dispose_fuel_disposed _ _ v); [done|].
  by rewrite Hb.
Qed.

(** The user closes the panel of an object in use: the host disposes of
    the panel and calls the listener, which disposes of the object. *)
Lemma cv_close_live (i : nat) (v : GitDiffView) (w : World) :
  objects w !! i = Some v -> lifecycle v = alive_cycle ->
  panel_dispose (dispose i) i w = retired i v w.
Proof.
  intros Hv (Hb & Hgone & Hhook & _)%cv_alive_fields.
  unfold panel_dispose. rewrite Hv, Hgone, Hhook. unfold dispose.
  erewrite cv_dispose_fuel_registered;
    [|cbn; rewrite list_lookup_alter_eq, Hv; reflexivity|exact Hb].
  apply cv_world_eq; cbn; try reflexivity. apply cv_insert_alter.
Qed.

Lemma cv_close_dead (i : nat) (v : GitDiffView) (w : World) :
  objects w !! i = Some v -> lifecycle v = dead_cycle ->
  panel_dispose (dispose i) i w = w.
Proof.
  intros Hv (_ & Hgone & _)%cv_dead_fields. unfold panel_dispose. by rewrite Hv, Hgone.
Qed.

(** *** The save listener *)

Lemma cv_onSave_eq (i : nat) (uri_path : string) (v : GitDiffView) (w : World) :
  objects w !! i = Some v ->
  onDidSaveTextDocument i uri_path w
  = if saveTriggers uri_path (filePath v)
    then mkWorld (currentPanel w) (objects w) (saveListeners w)
                 (pending w ++ [mkPending (nextReq w) i (gitCmd v)]) (S (nextReq w))
                 (effects w ++ [AppendLine i (saveLine uri_path (filePath v));
                                ExecShell i (nextReq w) (gitCmd v)])
    else w.
Proof.
  intros Hv. unfold onDidSaveTextDocument, saveTriggers, saveLine. rewrite Hv.
  destruct (truthy uri_path && endsWith uri_path (filePath v)); cbn [orb].
  - erewrite cv_refresh_eq by exact Hv. cbn. by rewrite <- app_assoc.
  - destruct (String.eqb (filePath v) "."); [|reflexivity].
    erewrite cv_refresh_eq by exact Hv. cbn. by rewrite <- app_assoc.
Qed.

Lemma only_refreshes_refl (w : World) : only_refreshes w w.
Proof. by repeat split. Qed.

Lemma only_refreshes_trans (w1 w2 w3 : World) :
  only_refreshes w1 w2 -> only_refreshes w2 w3 -> only_refreshes w1 w3.
Proof.
  intros (? & ? & ? & ? & ?) (? & ? & ? & ? & ?).
  repeat split; try congruence; [lia|auto].
Qed.

Lemma only_refreshes_onSave (i : nat) (uri_path : string) (w : World) :
  only_refreshes w (onDidSaveTextDocument i uri_path w).
Proof.
  destruct (objects w !! i) as [v|] eqn:Hv.
  - rewrite (cv_onSave_eq _ _ _ _ Hv).
    destruct (saveTriggers uri_path (filePath v)); [|apply only_refreshes_refl].
    repeat split; cbn; [lia|]. intros Hold. apply Forall_app. split.
    + eapply Forall_impl; [exact Hold|]. cbn. lia.
    + apply Forall_singleton. cbn. lia.
  - unfold onDidSaveTextDocument. rewrite Hv. apply only_refreshes_refl.
Qed.

Lemma only_refreshes_save (uri_path : string) (ls : list nat) (w : World) :
  only_refreshes w (fold_left (fun w i => onDidSaveTextDocument i uri_path w) ls w).
Proof.
  revert w. induction ls as [|i ls IH]; intros w; [apply only_refreshes_refl|].
  cbn [fold_left]. eapply only_refreshes_trans; [apply only_refreshes_onSave|apply IH].
Qed.

(** *** The invariant *)

Lemma cv_lifecycle_insert (i : nat) (v v' : GitDiffView) (l : list GitDiffView) :
  l !! i = Some v -> lifecycle v' = lifecycle v ->
  lifecycle <$> <[i := v']> l = lifecycle <$> l.
Proof.
  intros Hv Hsame. rewrite list_fmap_insert. apply list_insert_id.
  by rewrite list_lookup_fmap, Hv, Hsame.
Qed.

Lemma cv_Inv_init : Inv init.
Proof. split; [apply lifecycles_ok_init|]. by split. Qed.

Lemma cv_Inv_cases (w : World) (i : nat) (v : GitDiffView) :
  Inv w -> objects w !! i = Some v ->
  (lifecycle v = alive_cycle /\ currentPanel w = Some i)
  \/ (lifecycle v = dead_cycle /\ currentPanel w <> Some i).
Proof.
  intros [[Hobj _] _] Hv. apply (Hobj i). by rewrite list_lookup_fmap, Hv.
Qed.

(** The object in the slot exists and is in use. *)
Lemma cv_Inv_current (w : World) (i : nat) :
  Inv w -> currentPanel w = Some i ->
  exists v, objects w !! i = Some v /\ lifecycle v = alive_cycle.
Proof.
  intros Hinv Hcur. pose proof Hinv as [[_ Hlt] _].
  specialize (Hlt i Hcur). rewrite length_fmap in Hlt.
  destruct (lookup_lt_is_Some_2 _ _ Hlt) as [v Hv]. exists v. split; [done|].
  by destruct (cv_Inv_cases w i v Hinv Hv) as [[? _]|[_ ?]].
Qed.

(** The invariant does not look at the fields the life cycle leaves out. *)
Lemma cv_Inv_frame (w w' : World) :
  Inv w ->
  currentPanel w' = currentPanel w ->
  lifecycle <$> objects w' = lifecycle <$> objects w ->
  saveListeners w' = saveListeners w ->
  Forall (fun p => req_id p < nextReq w') (pending w') ->
  Inv w'.
Proof.
  intros (Hok & Hls & _) Hcur Hobj Hls' Hp. repeat split; try done.
  - rewrite Hcur, Hobj. apply Hok.
  - rewrite Hcur, Hobj. apply Hok.
  - rewrite Hls', Hls. f_equal.
    by rewrite <- (length_fmap lifecycle (objects w')), Hobj, length_fmap.
Qed.

Lemma cv_Inv_only_refreshes (w w' : World) :
  Inv w -> only_refreshes w w' -> Inv w'.
Proof.
  intros Hinv (Hcur & Hobj & Hls & _ & Hp).
  apply (cv_Inv_frame w); try done; [by rewrite Hobj|]. apply Hp, Hinv.
Qed.

Lemma cv_Inv_retired (w : World) (i : nat) (v : GitDiffView) :
  Inv w -> objects w !! i = Some v -> lifecycle v = alive_cycle ->
  Inv (retired i v w).
Proof.
  intros Hinv Hv Halive. pose proof Hinv as (Hok & Hls & Hp).
  destruct (cv_Inv_cases w i v Hinv Hv) as [[_ Hcur]|[Hdead _]];
    [|rewrite Halive in Hdead; discriminate].
  repeat split; cbn.
  - rewrite list_fmap_insert, (cv_lifecycle_retire v Halive).
    rewrite Hcur in Hok. apply (lifecycles_ok_retire i _ Hok).
  - done.
  - by rewrite length_insert.
  - done.
Qed.

Lemma cv_Inv_createOrShow (ep cmd fp : string) (col : ViewColumn) (w : World) :
  Inv w -> Inv (createOrShow ep cmd fp col w).
Proof.
  intros Hinv. pose proof Hinv as (Hok & Hls & Hp).
  assert (Forall (fun p => req_id p < S (nextReq w)) (pending w)) as Hp'.
  { eapply Forall_impl; [exact Hp|]. cbn. lia. }
  destruct (currentPanel w) as [i|] eqn:Hcur.
  - destruct (cv_Inv_current w i Hinv Hcur) as (v & Hv & Halive).
    rewrite (cv_createOrShow_reuse _ _ _ _ i v) by done.
    apply (cv_Inv_frame w); cbn; try done.
    + by apply (cv_lifecycle_insert i v).
    + apply Forall_app. split; [done|]. apply Forall_singleton. cbn. lia.
  - rewrite cv_createOrShow_new by done. repeat split; cbn.
    + rewrite fmap_app. cbn. rewrite <- (length_fmap lifecycle).
      apply lifecycles_ok_new. exact Hok.
    + intros i [= <-]. rewrite length_fmap, length_app. cbn. lia.
    + rewrite Hls, length_app. cbn. rewrite Nat.add_1_r, seq_S. reflexivity.
    + apply Forall_app. split; [done|]. apply Forall_singleton. cbn. lia.
Qed.

Lemma cv_Forall_drop_req (r : nat) (w : World) :
  Forall (fun p => req_id p < nextReq w) (pending w) ->
  Forall (fun p => req_id p < nextReq w) (pending (drop_req r w)).
Proof.
  intros Hp. cbn. apply Forall_forall. intros p [_ Hin]%list_elem_of_filter.
  rewrite Forall_forall in Hp. by apply Hp.
Qed.

Lemma cv_Inv_drop_req (r : nat) (w : World) : Inv w -> Inv (drop_req r w).
Proof.
  intros Hinv. apply (cv_Inv_frame w); try done. apply (cv_Forall_drop_req r w), Hinv.
Qed.

Lemma cv_Inv_onFulfilled (i : nat) (stdout : string) (w : World) :
  Inv w -> Inv (onFulfilled i stdout w).
Proof.
  intros Hinv. unfold onFulfilled. destruct (objects w !! i) as [v|]; [|done].
  apply (cv_Inv_frame w); cbn; try done; [by apply cv_lifecycle_alter|apply Hinv].
Qed.

Lemma cv_Inv_viewStateChanged (i : nat) (b : bool) (w : World) :
  Inv w -> Inv (viewStateChanged i b w).
Proof.
  intros Hinv.
  apply (cv_Inv_frame w); try done;
    unfold viewStateChanged, onDidChangeViewState; repeat case_match; cbn;
    rewrite ?cv_lifecycle_alter; try done; apply Hinv.
Qed.

Lemma cv_Inv_dispose (i : nat) (w : World) : Inv w -> Inv (dispose i w).
Proof.
  intros Hinv. destruct (objects w !! i) as [v|] eqn:Hv.
  - destruct (cv_Inv_cases w i v Hinv Hv) as [[Halive _]|[Hdead _]].
    + rewrite (cv_dispose_live i v) by done. by apply cv_Inv_retired.
    + by rewrite (cv_dispose_dead i v).
  - unfold dispose. by rewrite cv_dispose_fuel_absent.
Qed.

Lemma cv_Inv_close (i : nat) (w : World) : Inv w -> Inv (panel_dispose (dispose i) i w).
Proof.
  intros Hinv. destruct (objects w !! i) as [v|] eqn:Hv.
  - destruct (cv_Inv_cases w i v Hinv Hv) as [[Halive _]|[Hdead _]].
    + rewrite (cv_close_live i v) by done. by apply cv_Inv_retired.
    + by rewrite (cv_close_dead i v).
  - unfold panel_dispose. by rewrite Hv.
Qed.

Lemma cv_Inv_step (w : World) (e : Event) : Inv w -> Inv (step w e).
Proof.
  intros Hinv. destruct e as [ep cmd fp col|p|r out|r|i|i|i b]; cbn [step].
  - by apply cv_Inv_createOrShow.
  - eapply cv_Inv_only_refreshes; [exact Hinv|apply only_refreshes_save].
  - unfold execResolved. destruct (find (is_req r) (pending w)); [|done].
    by apply cv_Inv_onFulfilled, cv_Inv_drop_req.
  - unfold execRejected. destruct (find (is_req r) (pending w)); [|done].
    by apply cv_Inv_drop_req.
  - by apply cv_Inv_close.
  - by apply cv_Inv_dispose.
  - by apply cv_Inv_viewStateChanged.
Qed.

Lemma cv_Inv_run (es : list Event) (w : World) : Inv w -> Inv (run w es).
Proof.
  revert w. induction es as [|e es IH]; intros w Hinv; [done|].
  cbn. apply IH. by apply cv_Inv_step.
Qed.

(** Every world the events lead to satisfies the invariant. *)
Lemma cv_Inv_reachable (es : list Event) : Inv (run init es).
Proof. apply cv_Inv_run, cv_Inv_init. Qed.

(** *** Counting *)

Lemma cv_liveCount_cycles (l : list GitDiffView) :
  length (List.filter isLive l) = length (List.filter cycle_live (lifecycle <$> l)).
Proof.
  induction l as [|v l IH]; [reflexivity|]. cbn.
  change (cycle_live (lifecycle v)) with (isLive v).
  destruct (isLive v); cbn; by rewrite IH.
Qed.

(** The objects in use are the object in the slot, if any. *)
Lemma cv_liveCount_slot (w : World) :
  Inv w -> liveCount w = match currentPanel w with Some _ => 1 | None => 0 end.
Proof.
  intros [Hok _]. unfold liveCount. rewrite cv_liveCount_cycles.
  by apply lifecycles_ok_count.
Qed.

Lemma cv_refreshCount_onSave (i j : nat) (uri_path : string) (v : GitDiffView) (w : World) :
  objects w !! j = Some v ->
  refreshCount i (onDidSaveTextDocument j uri_path w)
  = refreshCount i w
    + (if (j =? i) && saveTriggers uri_path (filePath v) then 1 else 0).
Proof.
  intros Hv. rewrite (cv_onSave_eq _ _ _ _ Hv). unfold refreshCount.
  destruct (saveTriggers uri_path (filePath v)); cbn.
  - rewrite List.filter_app, length_app. cbn. rewrite andb_true_r.
    by destruct (j =? i).
  - rewrite andb_false_r. lia.
Qed.

(** A saved document makes each listener run once: the refreshes of
    object [i] grow by one when its listener is subscribed and its rule
    holds, and not at all otherwise. *)
Lemma cv_refreshCount_save (i : nat) (uri_path : string) (v : GitDiffView)
      (ls : list nat) (w : World) :
  NoDup ls -> objects w !! i = Some v ->
  refreshCount i (fold_left (fun w j => onDidSaveTextDocument j uri_path w) ls w)
  = refreshCount i w
    + (if bool_decide (i ∈ ls) && saveTriggers uri_path (filePath v) then 1 else 0).
Proof.
  intros Hnd. revert w. induction Hnd as [|j ls Hj Hnd IH]; intros w Hv.
  - rewrite bool_decide_eq_false_2 by apply not_elem_of_nil. cbn. lia.
  - cbn [fold_left].
    pose proof (only_refreshes_onSave j uri_path w) as (_ & Hobj & _).
    rewrite IH by (by rewrite Hobj).
    destruct (decide (j = i)) as [->|Hne].
    + rewrite (cv_refreshCount_onSave i i uri_path v) by done.
      rewrite Nat.eqb_refl, (bool_decide_eq_false_2 _ Hj), bool_decide_eq_true_2
        by (by left).
      cbn. lia.
    + assert (refreshCount i (onDidSaveTextDocument j uri_path w) = refreshCount i w) as ->.
      { destruct (objects w !! j) as [vj|] eqn:Hvj.
        - rewrite (cv_refreshCount_onSave i j uri_path vj) by done.
          apply Nat.eqb_neq in Hne. rewrite Hne. cbn. lia.
        - unfold onDidSaveTextDocument. by rewrite Hvj. }
      assert (bool_decide (i ∈ j :: ls) = bool_decide (i ∈ ls)) as ->; [|reflexivity].
      apply bool_decide_ext. rewrite elem_of_cons.
      split; [intros [Heq|Hin]; [congruence|done]|by right].
Qed.

(** The rule of the save listener, seen from the outside: after a saved
    document the refreshes of an existing object have grown by one if the
    rule holds for the path it watches, and are the same otherwise. *)
Lemma cv_save_rule (i : nat) (uri_path : string) (v : GitDiffView) (w : World) :
  Inv w -> objects w !! i = Some v ->
  refreshCount i (step w (DidSaveTextDocument uri_path))
  = refreshCount i w + (if saveTriggers uri_path (filePath v) then 1 else 0).
Proof.
  intros (_ & Hls & _) Hv. cbn [step]. rewrite (cv_refreshCount_save i uri_path v).
  - rewrite bool_decide_eq_true_2; [reflexivity|].
    rewrite Hls. apply list_elem_of_In, in_seq. apply lookup_lt_Some in Hv. lia.
  - rewrite Hls. apply NoDup_ListNoDup, seq_NoDup.
  - done.
Qed.

(** *** What an event changes *)

Lemma cv_viewStateChanged_eq (i : nat) (b : bool) (v : GitDiffView) (w : World) :
  objects w !! i = Some v ->
  viewStateChanged i b w = if panelDisposed (panel v) then w else update i (seen b) w.
Proof.
  intros Hv. unfold viewStateChanged. rewrite Hv.
  destruct (panelDisposed (panel v)); [reflexivity|].
  unfold onDidChangeViewState. cbn. rewrite list_lookup_alter_eq, Hv. cbn.
  destruct (viewStateHook (panel v)) eqn:Hhook,
    (Bool.eqb b (isPanelVisible v)) eqn:Hsame; cbn;
    apply cv_world_eq; cbn; try reflexivity;
    rewrite ?list_alter_alter_eq, !(cv_alter_insert _ _ _ _ Hv);
    unfold seen; cbn; rewrite Hhook, ?Hsame; reflexivity.
Qed.

Lemma kept_refl (e : Event) (v : GitDiffView) : kept e v v.
Proof. by repeat split. Qed.

Lemma cv_lookup_retired (i j : nat) (v vj : GitDiffView) (w : World) :
  objects w !! i = Some v -> objects w !! j = Some vj ->
  objects (retired j vj w) !! i = Some (if decide (j = i) then retire v else v).
Proof.
  intros Hv Hvj. cbn. case_decide as Hij.
  - subst. rewrite list_lookup_insert_eq by (by eapply lookup_lt_Some). congruence.
  - by rewrite list_lookup_insert_ne.
Qed.

Lemma kept_retire (e : Event) (j i : nat) (v : GitDiffView) :
  kept e v (if decide (j = i) then retire v else v).
Proof. case_decide; by repeat split. Qed.

(** Every object stays where it is, and an event changes only the fields
    that are its own to change. *)
Lemma cv_step_kept (e : Event) (i : nat) (v : GitDiffView) (w : World) :
  Inv w -> objects w !! i = Some v ->
  exists v', objects (step w e) !! i = Some v' /\ kept e v v'.
Proof.
  intros Hinv Hv. destruct e as [ep cmd fp col|p|r out|r|j|j|j b]; cbn [step].
  - destruct (currentPanel w) as [i0|] eqn:Hcur.
    + destruct (cv_Inv_current w i0 Hinv Hcur) as (v0 & Hv0 & _).
      rewrite (cv_createOrShow_reuse _ _ _ _ i0 v0) by done. cbn.
      destruct (decide (i0 = i)) as [->|Hne].
      * rewrite list_lookup_insert_eq by (by eapply lookup_lt_Some).
        eexists; split; [reflexivity|]. assert (v0 = v) as -> by congruence.
        by repeat split.
      * rewrite list_lookup_insert_ne by done. eauto using kept_refl.
    + rewrite cv_createOrShow_new by done. cbn.
      rewrite (lookup_app_l_Some _ _ _ _ Hv). eauto using kept_refl.
  - pose proof (only_refreshes_save p (saveListeners w) w) as (_ & -> & _).
    eauto using kept_refl.
  - unfold execResolved. destruct (find (is_req r) (pending w)) as [q|];
      [|eauto using kept_refl].
    unfold onFulfilled. cbn. destruct (objects w !! req_owner q) as [vq|];
      [|eauto using kept_refl].
    cbn. destruct (decide (req_owner q = i)) as [->|Hne].
    + rewrite list_lookup_alter_eq, Hv. cbn. eexists; split; [reflexivity|].
      by repeat split.
    + rewrite list_lookup_alter_ne by done. eauto using kept_refl.
  - unfold execRejected. destruct (find (is_req r) (pending w));
      cbn; eauto using kept_refl.
  - destruct (objects w !! j) as [vj|] eqn:Hvj.
    + destruct (cv_Inv_cases w j vj Hinv Hvj) as [[Halive _]|[Hdead _]].
      * rewrite (cv_close_live j vj), (cv_lookup_retired i j v vj) by done.
        eauto using kept_retire.
      * rewrite (cv_close_dead j vj) by done. eauto using kept_refl.
    + unfold panel_dispose. rewrite Hvj. eauto using kept_refl.
  - destruct (objects w !! j) as [vj|] eqn:Hvj.
    + destruct (cv_Inv_cases w j vj Hinv Hvj) as [[Halive _]|[Hdead _]].
      * rewrite (cv_dispose_live j vj), (cv_lookup_retired i j v vj) by done.
        eauto using kept_retire.
      * rewrite (cv_dispose_dead j vj) by done. eauto using kept_refl.
    + unfold dispose. rewrite cv_dispose_fuel_absent by done. eauto using kept_refl.
  - destruct (objects w !! j) as [vj|] eqn:Hvj.
    + rewrite (cv_viewStateChanged_eq j b vj) by done.
      destruct (panelDisposed (panel vj)); [eauto using kept_refl|]. cbn.
      destruct (decide (j = i)) as [->|Hne].
      * rewrite list_lookup_alter_eq, Hv. cbn. eexists; split; [reflexivity|].
        unfold seen. case_match; by repeat split.
      * rewrite list_lookup_alter_ne by done. eauto using kept_refl.
    + unfold viewStateChanged. rewrite Hvj. eauto using kept_refl.
Qed.

Lemma is_createOrShow_forallb (e : Event) (es : list Event) :
  forallb (fun e => negb (is_createOrShow e)) (e :: es) = true ->
  is_createOrShow e = false /\ forallb (fun e => negb (is_createOrShow e)) es = true.
Proof. cbn. intros [He Hes]%andb_true_iff. by destruct (is_createOrShow e). Qed.

(** Between two calls of [createOrShow] an object keeps the path it
    watches. *)
Lemma cv_run_keeps_filePath (es : list Event) (i : nat) (v : GitDiffView) (w : World) :
  Inv w -> objects w !! i = Some v ->
  forallb (fun e => negb (is_createOrShow e)) es = true ->
  exists v', objects (run w es) !! i = Some v' /\ filePath v' = filePath v.
Proof.
  revert v w. induction es as [|e es IH]; intros v w Hinv Hv Hes; [by exists v|].
  apply is_createOrShow_forallb in Hes as [He Hes].
  destruct (cv_step_kept e i v w Hinv Hv) as (v1 & Hv1 & _ & Hkeep & _).
  destruct (Hkeep He) as [_ Hfp].
  destruct (IH v1 (step w e) (cv_Inv_step w e Hinv) Hv1 Hes) as (v' & Hv' & Hfp').
  exists v'. split; [exact Hv'|congruence].
Qed.

(** *** A rejected promise *)

Lemma cv_drop_fresh (n : nat) (l : list Pending) :
  Forall (fun p => req_id p < n) l ->
  filter (fun p => negb (is_req n p)) l = l.
Proof.
  induction 1 as [|p l Hp _ IH]; [reflexivity|].
  rewrite filter_cons_True, IH; [reflexivity|].
  unfold is_req. apply Is_true_true, negb_true_iff, Nat.eqb_neq. lia.
Qed.

(** A refresh whose promise is rejected leaves the world as it was, but
    for the request number spent and the call recorded. *)
Lemma cv_refresh_rejected (j : nat) (v : GitDiffView) (w : World) :
  Inv w -> objects w !! j = Some v ->
  execRejected (nextReq w) (refreshViewContent j w)
  = mkWorld (currentPanel w) (objects w) (saveListeners w) (pending w)
            (S (nextReq w)) (effects w ++ [ExecShell j (nextReq w) (gitCmd v)]).
Proof.
  intros (_ & _ & Hp) Hv. rewrite (cv_refresh_eq j v) by done.
  unfold execRejected. cbn [pending].
  destruct (find _ _) eqn:Hfind.
  - apply cv_world_eq; cbn; try reflexivity.
    rewrite filter_app, (cv_drop_fresh _ _ Hp), filter_singleton_False.
    + by rewrite app_nil_r.
    + exact (pending w).
    + unfold is_req. cbn. rewrite Nat.eqb_refl. cbn. tauto.
  - exfalso.
    pose proof (find_none _ _ Hfind (mkPending (nextReq w) j (gitCmd v))) as Hnone.
    unfold is_req in Hnone. cbn in Hnone. rewrite Nat.eqb_refl in Hnone.
    discriminate Hnone. apply in_or_app. right. by left.
Qed.

Lemma cv_displayed_rejected (i r : nat) (w : World) :
  displayed i (execRejected r w) = displayed i w.
Proof. unfold execRejected. by destruct (find (is_req r) (pending w)). Qed.

Lemma cv_displayed_refresh (i j : nat) (w : World) :
  displayed i (refreshViewContent j w) = displayed i w.
Proof. unfold displayed. by rewrite cv_refresh_objects. Qed.

(** *** The slot after [createOrShow] *)

Lemma cv_createOrShow_slot (ep cmd fp : string) (col : ViewColumn) (w : World) :
  Inv w ->
  match currentPanel w with
  | Some i =>
      currentPanel (createOrShow ep cmd fp col w) = Some i
      /\ length (objects (createOrShow ep cmd fp col w)) = length (objects w)
      /\ panelsCreated (createOrShow ep cmd fp col w) = panelsCreated w
  | None =>
      currentPanel (createOrShow ep cmd fp col w) = Some (length (objects w))
      /\ length (objects (createOrShow ep cmd fp col w)) = S (length (objects w))
      /\ panelsCreated (createOrShow ep cmd fp col w) = S (panelsCreated w)
  end.
Proof.
  intros Hinv. destruct (currentPanel w) as [i|] eqn:Hcur.
  - destruct (cv_Inv_current w i Hinv Hcur) as (v & Hv & _).
    rewrite (cv_createOrShow_reuse _ _ _ _ i v) by done.
    unfold panelsCreated. cbn. rewrite length_insert, List.filter_app, length_app.
    cbn. split; [done|]. split; [done|lia].
  - rewrite cv_createOrShow_new by done.
    unfold panelsCreated. cbn. rewrite !length_app, List.filter_app, length_app.
    cbn. split; [done|]. split; lia.
Qed.

(** The rule of the save listener in words: the watched path is the
    marker of the whole repository, or the saved path is not empty and
    ends with the watched path. *)
Lemma cv_saveTriggers_iff (saved watched : string) :
  saveTriggers saved watched = true
  <-> watched = "." \/ (saved <> EmptyString /\ exists p, saved = p +:+ watched).
Proof.
  unfold saveTriggers.
  rewrite orb_true_iff, andb_true_iff, truthy_nonempty, endsWith_suffix, String.eqb_eq.
  tauto.
Qed.

Lemma cv_saveTriggers_marker (saved : string) : saveTriggers saved "." = true.
Proof. unfold saveTriggers. cbn. apply orb_true_r. Qed.

(** *** Disposing twice *)

Lemma cv_dispose_idem (i : nat) (w : World) :
  Inv w -> dispose i (dispose i w) = dispose i w.
Proof.
  intros Hinv. destruct (objects w !! i) as [v|] eqn:Hv.
  - destruct (cv_Inv_cases w i v Hinv Hv) as [[Halive _]|[Hdead _]].
    + rewrite (cv_dispose_live i v w Hv Halive).
      apply (cv_dispose_dead i (retire v)); [|by apply cv_lifecycle_retire].
      cbn. apply list_lookup_insert_eq. by eapply lookup_lt_Some.
    + rewrite (cv_dispose_dead i v w Hv Hdead). exact (cv_dispose_dead i v w Hv Hdead).
  - unfold dispose. rewrite (cv_dispose_fuel_absent 2 i w Hv).
    exact (cv_dispose_fuel_absent 2 i w Hv).
Qed.

Lemma cv_close_after_dispose (i : nat) (w : World) :
  Inv w -> panel_dispose (dispose i) i (dispose i w) = dispose i w.
Proof.
  intros Hinv. destruct (objects w !! i) as [v|] eqn:Hv.
  - destruct (cv_Inv_cases w i v Hinv Hv) as [[Halive _]|[Hdead _]].
    + rewrite (cv_dispose_live i v w Hv Halive).
      apply (cv_close_dead i (retire v)); [|by apply cv_lifecycle_retire].
      cbn. apply list_lookup_insert_eq. by eapply lookup_lt_Some.
    + rewrite (cv_dispose_dead i v w Hv Hdead). by apply (cv_close_dead i v).
  - unfold dispose. rewrite cv_dispose_fuel_absent by done.
    unfold panel_dispose. by rewrite Hv.
Qed.

(** The fuel of [dispose] is never spent: more fuel changes nothing. *)
Lemma dispose_fuel_enough (n i : nat) (w : World) :
  Inv w -> dispose_fuel (2 + n) i w = dispose i w.
Proof.
  intros Hinv. unfold dispose. destruct (objects w !! i) as [v|] eqn:Hv.
  - destruct (cv_Inv_cases w i v Hinv Hv) as [[(Hb & _)%cv_alive_fields _]|[Hdead _]].
    + change (2 + n) with (S (S n)).
      by rewrite (cv_dispose_fuel_registered (S n) i v w Hv Hb),
        (cv_dispose_fuel_registered 1 i v w Hv Hb).
    + apply cv_dead_fields in Hdead as (Hb & _).
      assert (disposed (base v) = true) as Hd by (by rewrite Hb).
      by rewrite (cv_dispose_fuel_disposed (2 + n) i v w Hv Hd),
        (cv_dispose_fuel_disposed 2 i v w Hv Hd).
  - by rewrite (cv_dispose_fuel_absent (2 + n) i w Hv), (cv_dispose_fuel_absent 2 i w Hv).
Qed.

(** *** The visibility flag *)

Lemma cv_isLive_cases (w : World) (i : nat) (v : GitDiffView) :
  Inv w -> objects w !! i = Some v ->
  (isLive v = true /\ panelDisposed (panel v) = false /\ viewStateHook (panel v) = true)
  \/ (isLive v = false /\ panelDisposed (panel v) = true).
Proof.
  intros Hinv Hv. unfold isLive.
  destruct (cv_Inv_cases w i v Hinv Hv) as [[Ha _]|[Hd _]].
  - apply cv_alive_fields in Ha as (-> & -> & _ & ->). by left.
  - apply cv_dead_fields in Hd as (-> & -> & _). by right.
Qed.

(** The host reports panel [j] shown or hidden: the flag of object [i]
    takes the reported value when [i] is [j], is live and held the other
    value, and is left alone otherwise. *)
Lemma cv_viewState_flag (j i : nat) (b : bool) (v : GitDiffView) (w : World) :
  Inv w -> objects w !! i = Some v ->
  exists v',
    objects (step w (ViewStateChanged j b)) !! i = Some v'
    /\ isPanelVisible v'
       = if bool_decide (j = i) && isLive v && negb (Bool.eqb b (isPanelVisible v))
         then b else isPanelVisible v.
Proof.
  intros Hinv Hv. cbn [step]. destruct (decide (j = i)) as [->|Hne].
  - rewrite bool_decide_eq_true_2 by done.
    rewrite (cv_viewStateChanged_eq i b v w Hv).
    destruct (cv_isLive_cases w i v Hinv Hv) as [(-> & -> & Hhook)|(-> & ->)].
    + cbn. rewrite list_lookup_alter_eq, Hv. cbn. eexists; split; [reflexivity|].
      unfold seen. rewrite Hhook. cbn.
      by destruct (Bool.eqb b (isPanelVisible v)).
    + by exists v.
  - rewrite bool_decide_eq_false_2 by done. cbn. exists v. split; [|done].
    destruct (objects w !! j) as [vj|] eqn:Hvj.
    + rewrite (cv_viewStateChanged_eq j b vj w Hvj).
      destruct (panelDisposed (panel vj)); [done|]. cbn.
      by rewrite list_lookup_alter_ne.
    + unfold viewStateChanged. by rewrite Hvj.
Qed.

Lemma is_viewStateChanged_forallb (e : Event) (es : list Event) :
  forallb (fun e => negb (is_viewStateChanged e)) (e :: es) = true ->
  is_viewStateChanged e = false
  /\ forallb (fun e => negb (is_viewStateChanged e)) es = true.
Proof. cbn. intros [He Hes]%andb_true_iff. by destruct (is_viewStateChanged e). Qed.

(** As long as the host reports no change of visibility, an object keeps
    its flag. *)
Lemma cv_run_keeps_flag (es : list Event) (i : nat) (v : GitDiffView) (w : World) :
  Inv w -> objects w !! i = Some v ->
  forallb (fun e => negb (is_viewStateChanged e)) es = true ->
  exists v', objects (run w es) !! i = Some v' /\ isPanelVisible v' = isPanelVisible v.
Proof.
  revert v w. induction es as [|e es IH]; intros v w Hinv Hv Hes; [by exists v|].
  apply is_viewStateChanged_forallb in Hes as [He Hes].
  destruct (cv_step_kept e i v w Hinv Hv) as (v1 & Hv1 & _ & _ & Hkeep & _).
  destruct (IH v1 (step w e) (cv_Inv_step w e Hinv) Hv1 Hes) as (v' & Hv' & Hflag).
  exists v'. split; [exact Hv'|]. rewrite Hflag. by apply Hkeep.
Qed.

End Facts.
End CommandFacts.

(** ** The direct-content design *)

Module ContentFacts.
Import ContentView.

Section Facts.
Context `{Host}.

Lemma tv_world_eq (w1 w2 : World) :
  currentPanel w1 = currentPanel w2 -> objects w1 = objects w2 ->
  effects w1 = effects w2 -> w1 = w2.
Proof. destruct w1, w2; cbn; intros; by subst. Qed.

Lemma tv_alter_insert (f : GitDiffView -> GitDiffView) (i : nat) (l : list GitDiffView) v :
  l !! i = Some v -> alter f i l = <[i := f v]> l.
Proof.
  intros Hv. apply list_eq. intros j. destruct (decide (i = j)) as [<-|Hne].
  - rewrite list_lookup_alter_eq, Hv, list_lookup_insert_eq by (by eapply lookup_lt_Some).
    reflexivity.
  - by rewrite list_lookup_alter_ne, list_lookup_insert_ne.
Qed.

Lemma tv_lifecycle_alter (f : GitDiffView -> GitDiffView) (i : nat) (l : list GitDiffView) :
  (forall v, lifecycle (f v) = lifecycle v) ->
  lifecycle <$> alter f i l = lifecycle <$> l.
Proof.
  intros Hf. apply list_eq. intros j. rewrite !list_lookup_fmap.
  destruct (decide (i = j)) as [<-|Hne].
  - rewrite list_lookup_alter_eq. destruct (l !! i); cbn; by rewrite ?Hf.
  - by rewrite list_lookup_alter_ne.
Qed.

Lemma tv_lifecycle_insert (i : nat) (v v' : GitDiffView) (l : list GitDiffView) :
  l !! i = Some v -> lifecycle v' = lifecycle v ->
  lifecycle <$> <[i := v']> l = lifecycle <$> l.
Proof.
  intros Hv Hsame. rewrite list_fmap_insert. apply list_insert_id.
  by rewrite list_lookup_fmap, Hv, Hsame.
Qed.

Lemma tv_insert_alter (f : GitDiffView -> GitDiffView) (i : nat) (x : GitDiffView)
      (l : list GitDiffView) :
  <[i := x]> (alter f i l) = <[i := x]> l.
Proof. by rewrite !list_insert_alter, list_alter_alter_eq. Qed.

(** *** [dispose] *)

Lemma tv_update_id (i : nat) (f : GitDiffView -> GitDiffView) (v : GitDiffView) (w : World) :
  objects w !! i = Some v -> f v = v -> update i f w = w.
Proof.
  intros Hv Hf. apply tv_world_eq; try reflexivity. cbn.
  rewrite (tv_alter_insert _ _ _ _ Hv), Hf. by apply list_insert_id.
Qed.

Lemma tv_panel_dispose_detached (listener : World -> World) (i : nat)
      (v : GitDiffView) (w : World) :
  objects w !! i = Some v -> didDisposeHook (panel v) = false ->
  panel_dispose listener i w = update_panel i (set_panelDisposed true) w.
Proof.
  intros Hv Hhook. unfold panel_dispose. rewrite Hv, Hhook.
  destruct (panelDisposed (panel v)) eqn:Hgone; [|reflexivity].
  symmetry. apply (tv_update_id _ _ v); [done|].
  destruct v as [[] ? ? ?]; cbn in *; by subst.
Qed.

Lemma tv_dispose_fuel_registered (n i : nat) (v : GitDiffView) (w : World) :
  objects w !! i = Some v ->
  base v = mkDisposable registered false ->
  dispose_fuel (S n) i w = retired i v w.
Proof.
  intros Hv Hbase. cbn [dispose_fuel]. rewrite Hv, Hbase.
  cbn [disposed disposables registered fold_left invoke].
  erewrite tv_panel_dispose_detached;
    [|cbn; rewrite !list_lookup_alter_eq, Hv; reflexivity|reflexivity].
  apply tv_world_eq; cbn; try reflexivity.
  - rewrite !list_alter_alter_eq, (tv_alter_insert _ _ _ _ Hv). reflexivity.
  - by rewrite <- !app_assoc.
Qed.

Lemma tv_dispose_fuel_disposed (n i : nat) (v : GitDiffView) (w : World) :
  objects w !! i = Some v -> disposed (base v) = true -> dispose_fuel n i w = w.
Proof. intros Hv Hd. destruct n; [reflexivity|]. cbn. by rewrite Hv, Hd. Qed.

Lemma tv_dispose_fuel_absent (n i : nat) (w : World) :
  objects w !! i = None -> dispose_fuel n i w = w.
Proof. intros Hv. destruct n; [reflexivity|]. cbn. by rewrite Hv. Qed.

Lemma tv_alive_fields (v : GitDiffView) :
  lifecycle v = alive_cycle ->
  base v = mkDisposable registered false /\ panelDisposed (panel v) = false
  /\ didDisposeHook (panel v) = true /\ viewStateHook (panel v) = true.
Proof. unfold lifecycle, lifecycle_of, alive_cycle. by intros [= -> -> -> ->]. Qed.

Lemma tv_dead_fields (v : GitDiffView) :
  lifecycle v = dead_cycle ->
  base v = mkDisposable registered true /\ panelDisposed (panel v) = true
  /\ didDisposeHook (panel v) = false /\ viewStateHook (panel v) = false.
Proof. unfold lifecycle, lifecycle_of, dead_cycle. by intros [= -> -> -> ->]. Qed.

Lemma tv_lifecycle_retire (v : GitDiffView) :
  lifecycle v = alive_cycle -> lifecycle (retire v) = dead_cycle.
Proof.
  intros (Hb & _)%tv_alive_fields. unfold lifecycle, lifecycle_of, retire. cbn.
  by rewrite Hb.
Qed.

Lemma tv_dispose_live (i : nat) (v : GitDiffView) (w : World) :
  objects w !! i = Some v -> lifecycle v = alive_cycle -> dispose i w = retired i v w.
Proof.
  intros Hv (Hb & _)%tv_alive_fields. by apply tv_dispose_fuel_registered.
Qed.

Lemma tv_dispose_dead (i : nat) (v : GitDiffView) (w : World) :
  objects w !! i = Some v -> lifecycle v = dead_cycle -> dispose i w = w.
Proof.
  intros Hv (Hb & _)%tv_dead_fields. apply (tv_dispose_fuel_disposed _ _ v); [done|].
  by rewrite Hb.
Qed.

Lemma tv_close_live (i : nat) (v : GitDiffView) (w : World) :
  objects w !! i = Some v -> lifecycle v = alive_cycle ->
  panel_dispose (dispose i) i w = retired i v w.
Proof.
  intros Hv (Hb & Hgone & Hhook & _)%tv_alive_fields.
  unfold panel_dispose. rewrite Hv, Hgone, Hhook. unfold dispose.
  erewrite tv_dispose_fuel_registered;
    [|cbn; rewrite list_lookup_alter_eq, Hv; reflexivity|exact Hb].
  apply tv_world_eq; cbn; try reflexivity. apply tv_insert_alter.
Qed.

Lemma tv_close_dead (i : nat) (v : GitDiffView) (w : World) :
  objects w !! i = Some v -> lifecycle v = dead_cycle ->
  panel_dispose (dispose i) i w = w.
Proof.
  intros Hv (_ & Hgone & _)%tv_dead_fields. unfold panel_dispose. by rewrite Hv, Hgone.
Qed.

(** *** [createOrShow] *)

Lemma tv_construct_eq (ep diff : string) (col : ViewColumn) (w : World) :
  construct ep diff col w
  = (length (objects w),
     mkWorld (currentPanel w) (objects w ++ [fresh ep diff col])
             (effects w ++ [CreateWebviewPanel (length (objects w)) col])).
Proof.
  unfold construct. f_equal.
  apply tv_world_eq; cbn; try reflexivity.
  rewrite !list_alter_alter_eq, alter_app_r_alt, Nat.sub_diag by done. reflexivity.
Qed.

Lemma tv_createOrShow_reuse (ep diff : string) (col : ViewColumn) (i : nat)
      (v : GitDiffView) (w : World) :
  currentPanel w = Some i -> objects w !! i = Some v ->
  createOrShow ep diff col w
  = mkWorld (Some i) (<[i := reused diff col v]> (objects w))
            (effects w ++ [Reveal i col]).
Proof.
  intros Hcur Hv. unfold createOrShow. rewrite Hcur, Hv.
  apply tv_world_eq; cbn; try done.
  rewrite !list_alter_alter_eq, (tv_alter_insert _ _ _ _ Hv). reflexivity.
Qed.

Lemma tv_createOrShow_new (ep diff : string) (col : ViewColumn) (w : World) :
  currentPanel w = None ->
  createOrShow ep diff col w
  = mkWorld (Some (length (objects w))) (objects w ++ [fresh ep diff col])
            (effects w ++ [CreateWebviewPanel (length (objects w)) col]).
Proof.
  intros Hcur. unfold createOrShow. rewrite Hcur, tv_construct_eq. reflexivity.
Qed.

(** *** The invariant *)

Lemma tv_Inv_init : Inv init.
Proof. apply lifecycles_ok_init. Qed.

Lemma tv_Inv_cases (w : World) (i : nat) (v : GitDiffView) :
  Inv w -> objects w !! i = Some v ->
  (lifecycle v = alive_cycle /\ currentPanel w = Some i)
  \/ (lifecycle v = dead_cycle /\ currentPanel w <> Some i).
Proof.
  intros [Hobj _] Hv. apply (Hobj i). by rewrite list_lookup_fmap, Hv.
Qed.

Lemma tv_Inv_current (w : World) (i : nat) :
  Inv w -> currentPanel w = Some i ->
  exists v, objects w !! i = Some v /\ lifecycle v = alive_cycle.
Proof.
  intros Hinv Hcur. pose proof Hinv as [_ Hlt].
  specialize (Hlt i Hcur). rewrite length_fmap in Hlt.
  destruct (lookup_lt_is_Some_2 _ _ Hlt) as [v Hv]. exists v. split; [done|].
  by destruct (tv_Inv_cases w i v Hinv Hv) as [[? _]|[_ ?]].
Qed.

Lemma tv_Inv_frame (w w' : World) :
  Inv w ->
  currentPanel w' = currentPanel w ->
  lifecycle <$> objects w' = lifecycle <$> objects w ->
  Inv w'.
Proof. unfold Inv. by intros Hok -> ->. Qed.

Lemma tv_Inv_retired (w : World) (i : nat) (v : GitDiffView) :
  Inv w -> objects w !! i = Some v -> lifecycle v = alive_cycle ->
  Inv (retired i v w).
Proof.
  intros Hinv Hv Halive.
  destruct (tv_Inv_cases w i v Hinv Hv) as [[_ Hcur]|[Hdead _]];
    [|rewrite Halive in Hdead; discriminate].
  unfold Inv in *. cbn.
  rewrite list_fmap_insert, (tv_lifecycle_retire v Halive).
  rewrite Hcur in Hinv. apply (lifecycles_ok_retire i _ Hinv).
Qed.

Lemma tv_Inv_createOrShow (ep diff : string) (col : ViewColumn) (w : World) :
  Inv w -> Inv (createOrShow ep diff col w).
Proof.
  intros Hinv. destruct (currentPanel w) as [i|] eqn:Hcur.
  - destruct (tv_Inv_current w i Hinv Hcur) as (v & Hv & Halive).
    rewrite (tv_createOrShow_reuse _ _ _ i v) by done.
    apply (tv_Inv_frame w); cbn; try done.
    by apply (tv_lifecycle_insert i v).
  - rewrite tv_createOrShow_new by done. unfold Inv in *. cbn.
    rewrite fmap_app. cbn. rewrite <- (length_fmap lifecycle).
    apply lifecycles_ok_new. by rewrite <- Hcur.
Qed.

Lemma tv_viewStateChanged_eq (i : nat) (b : bool) (v : GitDiffView) (w : World) :
  objects w !! i = Some v ->
  viewStateChanged i b w = if panelDisposed (panel v) then w else update i (seen b) w.
Proof.
  intros Hv. unfold viewStateChanged. rewrite Hv.
  destruct (panelDisposed (panel v)); [reflexivity|].
  unfold onDidChangeViewState. cbn. rewrite list_lookup_alter_eq, Hv. cbn.
  destruct (viewStateHook (panel v)) eqn:Hhook,
    (Bool.eqb b (isPanelVisible v)) eqn:Hsame; cbn;
    apply tv_world_eq; cbn; try reflexivity;
    rewrite ?list_alter_alter_eq, !(tv_alter_insert _ _ _ _ Hv);
    unfold seen; cbn; rewrite Hhook, ?Hsame; reflexivity.
Qed.

Lemma tv_Inv_viewStateChanged (i : nat) (b : bool) (w : World) :
  Inv w -> Inv (viewStateChanged i b w).
Proof.
  intros Hinv.
  apply (tv_Inv_frame w); try done;
    unfold viewStateChanged, onDidChangeViewState; repeat case_match; cbn;
    rewrite ?tv_lifecycle_alter; done.
Qed.

Lemma tv_Inv_dispose (i : nat) (w : World) : Inv w -> Inv (dispose i w).
Proof.
  intros Hinv. destruct (objects w !! i) as [v|] eqn:Hv.
  - destruct (tv_Inv_cases w i v Hinv Hv) as [[Halive _]|[Hdead _]].
    + rewrite (tv_dispose_live i v) by done. by apply tv_Inv_retired.
    + by rewrite (tv_dispose_dead i v).
  - unfold dispose. by rewrite tv_dispose_fuel_absent.
Qed.

Lemma tv_Inv_close (i : nat) (w : World) : Inv w -> Inv (panel_dispose (dispose i) i w).
Proof.
  intros Hinv. destruct (objects w !! i) as [v|] eqn:Hv.
  - destruct (tv_Inv_cases w i v Hinv Hv) as [[Halive _]|[Hdead _]].
    + rewrite (tv_close_live i v) by done. by apply tv_Inv_retired.
    + by rewrite (tv_close_dead i v).
  - unfold panel_dispose. by rewrite Hv.
Qed.

Lemma tv_Inv_step (w : World) (e : Event) : Inv w -> Inv (step w e).
Proof.
  intros Hinv. destruct e as [ep diff col|i|i|i b]; cbn [step].
  - by apply tv_Inv_createOrShow.
  - by apply tv_Inv_close.
  - by apply tv_Inv_dispose.
  - by apply tv_Inv_viewStateChanged.
Qed.

Lemma tv_Inv_run (es : list Event) (w : World) : Inv w -> Inv (run w es).
Proof.
  revert w. induction es as [|e es IH]; intros w Hinv; [done|].
  cbn. apply IH. by apply tv_Inv_step.
Qed.

Lemma tv_Inv_reachable (es : list Event) : Inv (run init es).
Proof. apply tv_Inv_run, tv_Inv_init. Qed.

Lemma tv_liveCount_cycles (l : list GitDiffView) :
  length (List.filter isLive l) = length (List.filter cycle_live (lifecycle <$> l)).
Proof.
  induction l as [|v l IH]; [reflexivity|]. cbn.
  change (cycle_live (lifecycle v)) with (isLive v).
  destruct (isLive v); cbn; by rewrite IH.
Qed.

Lemma tv_liveCount_slot (w : World) :
  Inv w -> liveCount w = match currentPanel w with Some _ => 1 | None => 0 end.
Proof.
  intros Hok. unfold liveCount. rewrite tv_liveCount_cycles.
  by apply lifecycles_ok_count.
Qed.

(** *** What an event changes *)

Lemma tv_kept_refl (e : Event) (v : GitDiffView) : kept e v v.
Proof. by repeat split. Qed.

Lemma tv_lookup_retired (i j : nat) (v vj : GitDiffView) (w : World) :
  objects w !! i = Some v -> objects w !! j = Some vj ->
  objects (retired j vj w) !! i = Some (if decide (j = i) then retire v else v).
Proof.
  intros Hv Hvj. cbn. case_decide as Hij.
  - subst. rewrite list_lookup_insert_eq by (by eapply lookup_lt_Some). congruence.
  - by rewrite list_lookup_insert_ne.
Qed.

Lemma tv_kept_retire (e : Event) (j i : nat) (v : GitDiffView) :
  kept e v (if decide (j = i) then retire v else v).
Proof. case_decide; by repeat split. Qed.

Lemma tv_step_kept (e : Event) (i : nat) (v : GitDiffView) (w : World) :
  Inv w -> objects w !! i = Some v ->
  exists v', objects (step w e) !! i = Some v' /\ kept e v v'.
Proof.
  intros Hinv Hv. destruct e as [ep diff col|j|j|j b]; cbn [step].
  - destruct (currentPanel w) as [i0|] eqn:Hcur.
    + destruct (tv_Inv_current w i0 Hinv Hcur) as (v0 & Hv0 & _).
      rewrite (tv_createOrShow_reuse _ _ _ i0 v0) by done. cbn.
      destruct (decide (i0 = i)) as [->|Hne].
      * rewrite list_lookup_insert_eq by (by eapply lookup_lt_Some).
        eexists; split; [reflexivity|]. assert (v0 = v) as -> by congruence.
        by repeat split.
      * rewrite list_lookup_insert_ne by done. eauto using tv_kept_refl.
    + rewrite tv_createOrShow_new by done. cbn.
      rewrite (lookup_app_l_Some _ _ _ _ Hv). eauto using tv_kept_refl.
  - destruct (objects w !! j) as [vj|] eqn:Hvj.
    + destruct (tv_Inv_cases w j vj Hinv Hvj) as [[Halive _]|[Hdead _]].
      * rewrite (tv_close_live j vj), (tv_lookup_retired i j v vj) by done.
        eauto using tv_kept_retire.
      * rewrite (tv_close_dead j vj) by done. eauto using tv_kept_refl.
    + unfold panel_dispose. rewrite Hvj. eauto using tv_kept_refl.
  - destruct (objects w !! j) as [vj|] eqn:Hvj.
    + destruct (tv_Inv_cases w j vj Hinv Hvj) as [[Halive _]|[Hdead _]].
      * rewrite (tv_dispose_live j vj), (tv_lookup_retired i j v vj) by done.
        eauto using tv_kept_retire.
      * rewrite (tv_dispose_dead j vj) by done. eauto using tv_kept_refl.
    + unfold dispose. rewrite tv_dispose_fuel_absent by done. eauto using tv_kept_refl.
  - destruct (objects w !! j) as [vj|] eqn:Hvj.
    + rewrite (tv_viewStateChanged_eq j b vj) by done.
      destruct (panelDisposed (panel vj)); [eauto using tv_kept_refl|]. cbn.
      destruct (decide (j = i)) as [->|Hne].
      * rewrite list_lookup_alter_eq, Hv. cbn. eexists; split; [reflexivity|].
        unfold seen. case_match; by repeat split.
      * rewrite list_lookup_alter_ne by done. eauto using tv_kept_refl.
    + unfold viewStateChanged. rewrite Hvj. eauto using tv_kept_refl.
Qed.

(** *** The slot after [createOrShow] *)

Lemma tv_createOrShow_slot (ep diff : string) (col : ViewColumn) (w : World) :
  Inv w ->
  match currentPanel w with
  | Some i =>
      currentPanel (createOrShow ep diff col w) = Some i
      /\ length (objects (createOrShow ep diff col w)) = length (objects w)
      /\ panelsCreated (createOrShow ep diff col w) = panelsCreated w
  | None =>
      currentPanel (createOrShow ep diff col w) = Some (length (objects w))
      /\ length (objects (createOrShow ep diff col w)) = S (length (objects w))
      /\ panelsCreated (createOrShow ep diff col w) = S (panelsCreated w)
  end.
Proof.
  intros Hinv. destruct (currentPanel w) as [i|] eqn:Hcur.
  - destruct (tv_Inv_current w i Hinv Hcur) as (v & Hv & _).
    rewrite (tv_createOrShow_reuse _ _ _ i v) by done.
    unfold panelsCreated. cbn. rewrite length_insert, List.filter_app, length_app.
    cbn. split; [done|]. split; [done|lia].
  - rewrite tv_createOrShow_new by done.
    unfold panelsCreated. cbn. rewrite !length_app, List.filter_app, length_app.
    cbn. split; [done|]. split; lia.
Qed.

(** *** The visibility flag *)

Lemma tv_isLive_cases (w : World) (i : nat) (v : GitDiffView) :
  Inv w -> objects w !! i = Some v ->
  (isLive v = true /\ panelDisposed (panel v) = false /\ viewStateHook (panel v) = true)
  \/ (isLive v = false /\ panelDisposed (panel v) = true).
Proof.
  intros Hinv Hv. unfold isLive.
  destruct (tv_Inv_cases w i v Hinv Hv) as [[Ha _]|[Hd _]].
  - apply tv_alive_fields in Ha as (-> & -> & _ & ->). by left.
  - apply tv_dead_fields in Hd as (-> & -> & _). by right.
Qed.

Lemma tv_viewState_flag (j i : nat) (b : bool) (v : GitDiffView) (w : World) :
  Inv w -> objects w !! i = Some v ->
  exists v',
    objects (step w (ViewStateChanged j b)) !! i = Some v'
    /\ isPanelVisible v'
       = if bool_decide (j = i) && isLive v && negb (Bool.eqb b (isPanelVisible v))
         then b else isPanelVisible v.
Proof.
  intros Hinv Hv. cbn [step]. destruct (decide (j = i)) as [->|Hne].
  - rewrite bool_decide_eq_true_2 by done.
    rewrite (tv_viewStateChanged_eq i b v w Hv).
    destruct (tv_isLive_cases w i v Hinv Hv) as [(-> & -> & Hhook)|(-> & ->)].
    + cbn. rewrite list_lookup_alter_eq, Hv. cbn. eexists; split; [reflexivity|].
      unfold seen. rewrite Hhook. cbn.
      by destruct (Bool.eqb b (isPanelVisible v)).
    + by exists v.
  - rewrite bool_decide_eq_false_2 by done. cbn. exists v. split; [|done].
    destruct (objects w !! j) as [vj|] eqn:Hvj.
    + rewrite (tv_viewStateChanged_eq j b vj w Hvj).
      destruct (panelDisposed (panel vj)); [done|]. cbn.
      by rewrite list_lookup_alter_ne.
    + unfold viewStateChanged. by rewrite Hvj.
Qed.

Lemma tv_is_viewStateChanged_forallb (e : Event) (es : list Event) :
  forallb (fun e => negb (is_viewStateChanged e)) (e :: es) = true ->
  is_viewStateChanged e = false
  /\ forallb (fun e => negb (is_viewStateChanged e)) es = true.
Proof. cbn. intros [He Hes]%andb_true_iff. by destruct (is_viewStateChanged e). Qed.

Lemma tv_run_keeps_flag (es : list Event) (i : nat) (v : GitDiffView) (w : World) :
  Inv w -> objects w !! i = Some v ->
  forallb (fun e => negb (is_viewStateChanged e)) es = true ->
  exists v', objects (run w es) !! i = Some v' /\ isPanelVisible v' = isPanelVisible v.
Proof.
  revert v w. induction es as [|e es IH]; intros v w Hinv Hv Hes; [by exists v|].
  apply tv_is_viewStateChanged_forallb in Hes as [He Hes].
  destruct (tv_step_kept e i v w Hinv Hv) as (v1 & Hv1 & _ & Hkeep).
  destruct (IH v1 (step w e) (tv_Inv_step w e Hinv) Hv1 Hes) as (v' & Hv' & Hflag).
  exists v'. split; [exact Hv'|]. rewrite Hflag. by apply Hkeep.
Qed.

End Facts.
End ContentFacts.

(** * The properties of the specification *)

(** C1.  Singleton invariant.  Along every sequence of events, and so
    along every sequence of [createOrShow] calls, at most one object is
    live, in either design.  A further call of [createOrShow] leaves
    exactly one live object: when the slot [currentPanel] holds an object,
    the slot still holds that object afterwards and neither an object nor a
    host panel has been created; an object and a panel are created only
    when the slot is empty. *)
Theorem C1_singleton (H : Host) :
  (forall (es : list CommandView.Event) (ep cmd fp : string) (col : ViewColumn),
     let w := CommandView.run CommandView.init es in
     let w' := CommandView.createOrShow ep cmd fp col w in
     CommandView.liveCount w <= 1
     /\ CommandView.liveCount w' = 1
     /\ match CommandView.currentPanel w with
        | Some i =>
            CommandView.currentPanel w' = Some i
            /\ length (CommandView.objects w') = length (CommandView.objects w)
            /\ CommandView.panelsCreated w' = CommandView.panelsCreated w
        | None =>
            CommandView.currentPanel w' = Some (length (CommandView.objects w))
            /\ length (CommandView.objects w') = S (length (CommandView.objects w))
            /\ CommandView.panelsCreated w' = S (CommandView.panelsCreated w)
        end)
  /\ (forall (es : list ContentView.Event) (ep diff : string) (col : ViewColumn),
     let w := ContentView.run ContentView.init es in
     let w' := ContentView.createOrShow ep diff col w in
     ContentView.liveCount w <= 1
     /\ ContentView.liveCount w' = 1
     /\ match ContentView.currentPanel w with
        | Some i =>
            ContentView.currentPanel w' = Some i
            /\ length (ContentView.objects w') = length (ContentView.objects w)
            /\ ContentView.panelsCreated w' = ContentView.panelsCreated w
        | None =>
            ContentView.currentPanel w' = Some (length (ContentView.objects w))
            /\ length (ContentView.objects w') = S (length (ContentView.objects w))
            /\ ContentView.panelsCreated w' = S (ContentView.panelsCreated w)
        end).
Proof.
  split.
  - intros es ep cmd fp col w w'.
    pose proof (CommandFacts.cv_Inv_reachable es) as Hinv. fold w in Hinv.
    pose proof (CommandFacts.cv_Inv_createOrShow ep cmd fp col w Hinv) as Hinv'.
    pose proof (CommandFacts.cv_createOrShow_slot ep cmd fp col w Hinv) as Hslot.
    fold w' in Hinv', Hslot.
    rewrite !CommandFacts.cv_liveCount_slot by done.
    split; [destruct (CommandView.currentPanel w); lia|]. split; [|exact Hslot].
    destruct (CommandView.currentPanel w); destruct Hslot as (-> & _); reflexivity.
  - intros es ep diff col w w'.
    pose proof (ContentFacts.tv_Inv_reachable es) as Hinv. fold w in Hinv.
    pose proof (ContentFacts.tv_Inv_createOrShow ep diff col w Hinv) as Hinv'.
    pose proof (ContentFacts.tv_createOrShow_slot ep diff col w Hinv) as Hslot.
    fold w' in Hinv', Hslot.
    rewrite !ContentFacts.tv_liveCount_slot by done.
    split; [destruct (ContentView.currentPanel w); lia|]. split; [|exact Hslot].
    destruct (ContentView.currentPanel w); destruct Hslot as (-> & _); reflexivity.
Qed.

(** C2 as the specification words it fails on one input.  The watched path is empty and a
    document whose path is empty is saved: the saved path ends with the
    watched path, and the watched path is not the marker, yet no refresh
    starts, because the listener tests [uri.path] for truthiness before it
    compares. *)
Lemma C2_empty_path_counterexample :
  let w := CommandView.run (H := sample_host) CommandView.init opened_on_nothing in
  CommandView.currentPanel w = Some 0
  /\ CommandView.filePath <$> CommandView.objects w !! 0 = Some EmptyString
  /\ (exists p, EmptyString = p +:+ EmptyString)
  /\ CommandView.refreshCount 0
       (CommandView.step (H := sample_host) w (CommandView.DidSaveTextDocument EmptyString))
     = CommandView.refreshCount 0 w.
Proof.
  repeat split; try reflexivity. by exists EmptyString.
Qed.

(** C2, as the code has it.  A save notification delivered while object [i] is in the
    slot starts exactly one refresh of [i] when the rule of the listener
    holds and none otherwise; the rule holds if and only if the watched
    path is the marker ["."], or the saved path is not empty and ends with
    the watched path.  In particular ["/repo/sub/file.txt"] against
    ["file.txt"] refreshes, ["/repo/other.txt"] against ["file.txt"] does
    not, and every saved path against ["."] does. *)
Theorem C2_save_rule (H : Host) (es : list CommandView.Event) (i : nat) (saved : string) :
  let w := CommandView.run CommandView.init es in
  CommandView.currentPanel w = Some i ->
  exists v,
    CommandView.objects w !! i = Some v
    /\ CommandView.refreshCount i (CommandView.step w (CommandView.DidSaveTextDocument saved))
       = CommandView.refreshCount i w
         + (if CommandView.saveTriggers saved (CommandView.filePath v) then 1 else 0)
    /\ (CommandView.saveTriggers saved (CommandView.filePath v) = true
        <-> CommandView.filePath v = "."
            \/ (saved <> EmptyString /\ exists p, saved = p +:+ CommandView.filePath v))
    /\ CommandView.saveTriggers "/repo/sub/file.txt" "file.txt" = true
    /\ CommandView.saveTriggers "/repo/other.txt" "file.txt" = false
    /\ (forall any, CommandView.saveTriggers any "." = true).
Proof.
  intros w Hcur. pose proof (CommandFacts.cv_Inv_reachable es) as Hinv. fold w in Hinv.
  destruct (CommandFacts.cv_Inv_current w i Hinv Hcur) as (v & Hv & _).
  exists v. split; [exact Hv|]. split; [by apply CommandFacts.cv_save_rule|].
  split; [apply CommandFacts.cv_saveTriggers_iff|].
  split; [reflexivity|]. split; [reflexivity|]. apply CommandFacts.cv_saveTriggers_marker.
Qed.

(** C2 on the panel opened on one file, a file of that name being saved. *)
Lemma C2_save_rule_witness :
  CommandView.currentPanel (CommandView.run (H := sample_host) CommandView.init opened) = Some 0
  /\ exists v,
    CommandView.objects (CommandView.run (H := sample_host) CommandView.init opened) !! 0
    = Some v
    /\ CommandView.refreshCount 0
         (CommandView.step (H := sample_host)
            (CommandView.run (H := sample_host) CommandView.init opened)
            (CommandView.DidSaveTextDocument "/repo/sub/file.txt"))
       = CommandView.refreshCount 0 (CommandView.run (H := sample_host) CommandView.init opened)
         + (if CommandView.saveTriggers "/repo/sub/file.txt" (CommandView.filePath v)
            then 1 else 0)
    /\ (CommandView.saveTriggers "/repo/sub/file.txt" (CommandView.filePath v) = true
        <-> CommandView.filePath v = "."
            \/ ("/repo/sub/file.txt" <> EmptyString
                /\ exists p, "/repo/sub/file.txt" = p +:+ CommandView.filePath v))
    /\ CommandView.saveTriggers "/repo/sub/file.txt" "file.txt" = true
    /\ CommandView.saveTriggers "/repo/other.txt" "file.txt" = false
    /\ (forall any, CommandView.saveTriggers any "." = true).
Proof.
  split; [reflexivity|].
  apply (C2_save_rule sample_host opened 0 "/repo/sub/file.txt"). reflexivity.
Defined.

(** C3.  A rejected promise changes what no panel displays, and neither
    does starting a refresh.  So a refresh started in any world the events
    lead to and then rejected leaves the slot, every object (and with it
    the document every panel displays) and the pending promises as they
    were before the attempt. *)
Theorem C3_rejected_refresh_keeps_content (H : Host) :
  (forall (w : CommandView.World) (r i : nat),
     CommandView.displayed i (CommandView.step w (CommandView.ExecRejected r))
     = CommandView.displayed i w)
  /\ (forall (w : CommandView.World) (i j : nat),
     CommandView.displayed i (CommandView.refreshViewContent j w)
     = CommandView.displayed i w)
  /\ (forall (es : list CommandView.Event) (j : nat),
     let w := CommandView.run CommandView.init es in
     let w' := CommandView.step (CommandView.refreshViewContent j w)
                                (CommandView.ExecRejected (CommandView.nextReq w)) in
     CommandView.objects w' = CommandView.objects w
     /\ (forall i, CommandView.displayed i w' = CommandView.displayed i w)
     /\ CommandView.pending w' = CommandView.pending w
     /\ CommandView.currentPanel w' = CommandView.currentPanel w).
Proof.
  split; [intros w r i; apply CommandFacts.cv_displayed_rejected|].
  split; [intros w i j; apply CommandFacts.cv_displayed_refresh|].
  intros es j w w'.
  pose proof (CommandFacts.cv_Inv_reachable es) as Hinv. fold w in Hinv.
  assert (CommandView.objects w' = CommandView.objects w
          /\ CommandView.pending w' = CommandView.pending w
          /\ CommandView.currentPanel w' = CommandView.currentPanel w) as (Ho & Hp & Hc).
  { subst w'. cbn [CommandView.step].
    destruct (CommandView.objects w !! j) as [v|] eqn:Hv.
    - by rewrite (CommandFacts.cv_refresh_rejected j v w Hinv Hv).
    - unfold CommandView.refreshViewContent. rewrite Hv.
      unfold CommandView.execRejected.
      destruct (find _ _) eqn:Hfind; [|done]. exfalso.
      apply find_some in Hfind as [Hin Hreq]. destruct Hinv as (_ & _ & Hfresh).
      rewrite Forall_forall in Hfresh. apply list_elem_of_In, Hfresh in Hin.
      unfold CommandView.is_req in Hreq. apply Nat.eqb_eq in Hreq. lia. }
  repeat split; try done. intros i. unfold CommandView.displayed. by rewrite Ho.
Qed.

(** C4.  [createOrShow] is called while object [i] is in the slot.  In the
    command-driven design the object then holds the new command and the
    new watched path, its panel has been revealed in the requested column
    (the default being [Beside]), and [execShell] has been called with the
    new command before the call returns, its promise now pending; the slot
    still holds [i], and no object and no host panel has been created.
    In the earlier design the panel displays the document of the new diff
    text and has been revealed, and again nothing has been created. *)
Theorem C4_reuse_updates_and_refreshes (H : Host)
        (es : list CommandView.Event) (i : nat) (ep cmd fp : string)
        (col : option ViewColumn)
        (es_t : list ContentView.Event) (j : nat) (ep_t diff : string) :
  let w := CommandView.run CommandView.init es in
  let w' := CommandView.step w (CommandView.CreateOrShow ep cmd fp col) in
  let wt := ContentView.run ContentView.init es_t in
  let wt' := ContentView.step wt (ContentView.CreateOrShow ep_t diff col) in
  CommandView.currentPanel w = Some i ->
  ContentView.currentPanel wt = Some j ->
  (exists v v',
     CommandView.objects w !! i = Some v
     /\ CommandView.objects w' !! i = Some v'
     /\ CommandView.gitCmd v' = cmd
     /\ CommandView.filePath v' = fp
     /\ viewColumn (CommandView.panel v') = default Beside col
     /\ webview_html (CommandView.panel v') = webview_html (CommandView.panel v)
     /\ CommandView.pending w'
        = CommandView.pending w
          ++ [CommandView.mkPending (CommandView.nextReq w) i cmd]
     /\ CommandView.effects w'
        = CommandView.effects w
          ++ [CommandView.Reveal i (default Beside col);
              CommandView.ExecShell i (CommandView.nextReq w) cmd]
     /\ CommandView.currentPanel w' = Some i
     /\ length (CommandView.objects w') = length (CommandView.objects w)
     /\ CommandView.panelsCreated w' = CommandView.panelsCreated w)
  /\ (exists v v',
     ContentView.objects wt !! j = Some v
     /\ ContentView.objects wt' !! j = Some v'
     /\ webview_html (ContentView.panel v') = ContentView.getHtmlForWebview v diff
     /\ viewColumn (ContentView.panel v') = default Beside col
     /\ ContentView.effects wt'
        = ContentView.effects wt ++ [ContentView.Reveal j (default Beside col)]
     /\ ContentView.currentPanel wt' = Some j
     /\ length (ContentView.objects wt') = length (ContentView.objects wt)
     /\ ContentView.panelsCreated wt' = ContentView.panelsCreated wt).
Proof.
  intros w w' wt wt' Hcur Hcur_t. split.
  - pose proof (CommandFacts.cv_Inv_reachable es) as Hinv. fold w in Hinv.
    destruct (CommandFacts.cv_Inv_current w i Hinv Hcur) as (v & Hv & _).
    pose proof (CommandFacts.cv_createOrShow_slot ep cmd fp (default Beside col) w Hinv)
      as Hslot.
    rewrite Hcur in Hslot. destruct Hslot as (Hc & Hlen & Hcreated).
    exists v, (CommandView.reused cmd fp (default Beside col) v).
    subst w'. cbn [CommandView.step]. split; [exact Hv|].
    rewrite Hc, Hlen, Hcreated.
    rewrite (CommandFacts.cv_createOrShow_reuse _ _ _ _ i v) by done. cbn.
    rewrite list_lookup_insert_eq by (by eapply lookup_lt_Some). by repeat split.
  - pose proof (ContentFacts.tv_Inv_reachable es_t) as Hinv. fold wt in Hinv.
    destruct (ContentFacts.tv_Inv_current wt j Hinv Hcur_t) as (v & Hv & _).
    pose proof (ContentFacts.tv_createOrShow_slot ep_t diff (default Beside col) wt Hinv)
      as Hslot.
    rewrite Hcur_t in Hslot. destruct Hslot as (Hc & Hlen & Hcreated).
    exists v, (ContentView.reused diff (default Beside col) v).
    subst wt'. cbn [ContentView.step]. split; [exact Hv|].
    rewrite Hc, Hlen, Hcreated.
    rewrite (ContentFacts.tv_createOrShow_reuse _ _ _ j v) by done. cbn.
    rewrite list_lookup_insert_eq by (by eapply lookup_lt_Some). by repeat split.
Qed.

(** C5.  Object [i] is in the slot and [createOrShow] is called with a new
    watched path.  After that call, and after any further events among
    which there is no other [createOrShow], a saved document starts a
    refresh of [i] exactly when the rule holds for the new watched path:
    the path the object held before does not appear. *)
Theorem C5_reuse_watches_new_path (H : Host)
        (es : list CommandView.Event) (i : nat) (ep cmd fp : string)
        (col : option ViewColumn) (es' : list CommandView.Event) (saved : string) :
  let w := CommandView.run CommandView.init es in
  let w' := CommandView.run (CommandView.step w (CommandView.CreateOrShow ep cmd fp col)) es' in
  CommandView.currentPanel w = Some i ->
  forallb (fun e => negb (CommandView.is_createOrShow e)) es' = true ->
  CommandView.refreshCount i (CommandView.step w' (CommandView.DidSaveTextDocument saved))
  = CommandView.refreshCount i w'
    + (if CommandView.saveTriggers saved fp then 1 else 0).
Proof.
  intros w w' Hcur Hes'.
  pose proof (CommandFacts.cv_Inv_reachable es) as Hinv. fold w in Hinv.
  destruct (CommandFacts.cv_Inv_current w i Hinv Hcur) as (v & Hv & _).
  set (w1 := CommandView.step w (CommandView.CreateOrShow ep cmd fp col)) in *.
  assert (CommandView.Inv w1) as Hinv1 by (by apply CommandFacts.cv_Inv_step).
  assert (CommandView.objects w1 !! i
          = Some (CommandView.reused cmd fp (default Beside col) v)) as Hv1.
  { subst w1. cbn [CommandView.step].
    rewrite (CommandFacts.cv_createOrShow_reuse _ _ _ _ i v) by done. cbn.
    apply list_lookup_insert_eq. by eapply lookup_lt_Some. }
  destruct (CommandFacts.cv_run_keeps_filePath es' i _ w1 Hinv1 Hv1 Hes')
    as (v' & Hv' & Hfp).
  fold w' in Hv'. cbn in Hfp. rewrite <- Hfp.
  apply CommandFacts.cv_save_rule; [|exact Hv'].
  by apply CommandFacts.cv_Inv_run.
Qed.

(** C4 on the panel opened on one file and requested again for another. *)
Lemma C4_reuse_witness :
  CommandView.currentPanel (CommandView.run (H := sample_host) CommandView.init opened)
  = Some 0
  /\ ContentView.currentPanel
       (ContentView.run (H := sample_host) ContentView.init opened_with_text)
     = Some 0
  /\ (exists v',
        CommandView.objects
          (CommandView.step (H := sample_host)
             (CommandView.run (H := sample_host) CommandView.init opened)
             reopened_elsewhere) !! 0 = Some v'
        /\ CommandView.gitCmd v' = "git diff -- other.txt"
        /\ CommandView.filePath v' = "other.txt"
        /\ viewColumn (CommandView.panel v') = Two)
  /\ CommandView.panelsCreated
       (CommandView.step (H := sample_host)
          (CommandView.run (H := sample_host) CommandView.init opened)
          reopened_elsewhere)
     = CommandView.panelsCreated
         (CommandView.run (H := sample_host) CommandView.init opened).
Proof.
  destruct (C4_reuse_updates_and_refreshes sample_host
              opened 0 "/ext" "git diff -- other.txt" "other.txt" (Some Two)
              opened_with_text 0 "/ext" "+new" eq_refl eq_refl)
    as [(v & v' & _ & Hv' & Hcmd & Hfp & Hcol & _ & _ & _ & _ & _ & Hcreated) _].
  split; [reflexivity|]. split; [reflexivity|].
  split; [exists v'; repeat split; assumption|exact Hcreated].
Defined.

(** C5 on the same panel: the file it was opened on is saved after the
    second request, and what decides is the path of the second request. *)
Lemma C5_reuse_witness :
  CommandView.currentPanel (CommandView.run (H := sample_host) CommandView.init opened)
  = Some 0
  /\ forallb (fun e => negb (CommandView.is_createOrShow e)) other_events = true
  /\ CommandView.refreshCount 0
       (CommandView.step (H := sample_host)
          (CommandView.run (H := sample_host)
             (CommandView.step (H := sample_host)
                (CommandView.run (H := sample_host) CommandView.init opened)
                reopened_elsewhere)
             other_events)
          (CommandView.DidSaveTextDocument "/repo/sub/file.txt"))
     = CommandView.refreshCount 0
         (CommandView.run (H := sample_host)
            (CommandView.step (H := sample_host)
               (CommandView.run (H := sample_host) CommandView.init opened)
               reopened_elsewhere)
            other_events)
       + (if CommandView.saveTriggers "/repo/sub/file.txt" "other.txt" then 1 else 0).
Proof.
  split; [reflexivity|]. split; [reflexivity|].
  exact (C5_reuse_watches_new_path sample_host opened 0
           "/ext" "git diff -- other.txt" "other.txt" (Some Two) other_events
           "/repo/sub/file.txt" eq_refl eq_refl).
Defined.

(** C6.  Object [i] is in the slot and is disposed of, by a call of
    [dispose()] or by the user closing the panel (both lead to the same
    world).  The slot is then empty and no object is live.  A call of
    [createOrShow] that follows builds a new object, whose number is not
    [i], with a new host panel, and puts it in the slot; object [i] stays
    disposed of. *)
Theorem C6_dispose_clears_slot (H : Host)
        (es : list CommandView.Event) (i : nat) (ep cmd fp : string)
        (col : option ViewColumn) :
  let w := CommandView.run CommandView.init es in
  let w1 := CommandView.step w (CommandView.Dispose i) in
  let w2 := CommandView.step w1 (CommandView.CreateOrShow ep cmd fp col) in
  CommandView.currentPanel w = Some i ->
  CommandView.step w (CommandView.PanelClosed i) = w1
  /\ CommandView.currentPanel w1 = None
  /\ CommandView.liveCount w1 = 0
  /\ CommandView.currentPanel w2 = Some (length (CommandView.objects w))
  /\ i < length (CommandView.objects w)
  /\ CommandView.objects w2 !! length (CommandView.objects w)
     = Some (CommandView.fresh ep cmd fp (default Beside col))
  /\ CommandView.isLive <$> CommandView.objects w2 !! i = Some false
  /\ CommandView.liveCount w2 = 1
  /\ CommandView.panelsCreated w2 = S (CommandView.panelsCreated w).
Proof.
  intros w w1 w2 Hcur.
  pose proof (CommandFacts.cv_Inv_reachable es) as Hinv. fold w in Hinv.
  destruct (CommandFacts.cv_Inv_current w i Hinv Hcur) as (v & Hv & Halive).
  assert (w1 = CommandView.retired i v w) as Hw1
    by (by apply CommandFacts.cv_dispose_live).
  assert (CommandView.Inv w1) as Hinv1 by (by apply CommandFacts.cv_Inv_step).
  assert (CommandView.Inv w2) as Hinv2 by (by apply CommandFacts.cv_Inv_step).
  assert (CommandView.currentPanel w1 = None) as Hcur1 by (by rewrite Hw1).
  assert (w2 = CommandView.mkWorld
                 (Some (length (CommandView.objects w1)))
                 (CommandView.objects w1
                    ++ [CommandView.fresh ep cmd fp (default Beside col)])
                 (CommandView.saveListeners w1 ++ [length (CommandView.objects w1)])
                 (CommandView.pending w1
                    ++ [CommandView.mkPending (CommandView.nextReq w1)
                          (length (CommandView.objects w1)) cmd])
                 (S (CommandView.nextReq w1))
                 (CommandView.effects w1
                    ++ [CommandView.CreateWebviewPanel (length (CommandView.objects w1))
                          (default Beside col);
                        CommandView.ExecShell (length (CommandView.objects w1))
                          (CommandView.nextReq w1) cmd])) as Hw2
    by (by apply CommandFacts.cv_createOrShow_new).
  assert (length (CommandView.objects w1) = length (CommandView.objects w)) as Hlen
    by (rewrite Hw1; cbn; apply length_insert).
  assert (i < length (CommandView.objects w)) as Hlt by (by eapply lookup_lt_Some).
  assert (CommandView.objects w1 !! i = Some (CommandView.retire v)) as Hv1
    by (rewrite Hw1; cbn; by apply list_lookup_insert_eq).
  assert (CommandView.panelsCreated w1 = CommandView.panelsCreated w) as Hcreated.
  { rewrite Hw1. unfold CommandView.panelsCreated. cbn.
    rewrite List.filter_app, length_app. cbn. lia. }
  assert (CommandView.step w (CommandView.PanelClosed i) = w1) as Hclose
    by (rewrite Hw1; by apply CommandFacts.cv_close_live).
  clearbody w2. clearbody w1. subst w2.
  split; [exact Hclose|].
  split; [exact Hcur1|].
  split; [by rewrite CommandFacts.cv_liveCount_slot, Hcur1|].
  split; [cbn; by rewrite Hlen|].
  split; [exact Hlt|].
  split; [rewrite <- Hlen; cbn; by apply list_lookup_middle|].
  split; [cbn; rewrite lookup_app_l by lia; by rewrite Hv1|].
  split; [by rewrite CommandFacts.cv_liveCount_slot|].
  unfold CommandView.panelsCreated in *. cbn.
  rewrite List.filter_app, length_app, Hcreated. cbn. lia.
Qed.

(** C6 on the panel opened on one file, disposed of and requested again. *)
Lemma C6_dispose_witness :
  CommandView.currentPanel (CommandView.run (H := sample_host) CommandView.init opened)
  = Some 0
  /\ CommandView.currentPanel
       (CommandView.step (H := sample_host)
          (CommandView.run (H := sample_host) CommandView.init opened)
          (CommandView.Dispose 0))
     = None
  /\ CommandView.currentPanel
       (CommandView.step (H := sample_host)
          (CommandView.step (H := sample_host)
             (CommandView.run (H := sample_host) CommandView.init opened)
             (CommandView.Dispose 0))
          reopened_elsewhere)
     = Some (length (CommandView.objects
                       (CommandView.run (H := sample_host) CommandView.init opened))).
Proof.
  destruct (C6_dispose_clears_slot sample_host opened 0
              "/ext" "git diff -- other.txt" "other.txt" (Some Two) eq_refl)
    as (_ & Hempty & _ & Hnew & _).
  split; [reflexivity|]. split; [exact Hempty|exact Hnew].
Defined.

(** C8.  Object [i] is in the slot.  A call of [dispose()] invokes the four
    registered disposables once each, in the order of their registration,
    and a second call changes nothing: the world after two calls is the
    world after one.  Closing the panel afterwards changes nothing either,
    nor does more fuel for the re-entrant call. *)
Theorem C8_dispose_idempotent (H : Host) (es : list CommandView.Event) (i : nat) :
  let w := CommandView.run CommandView.init es in
  CommandView.currentPanel w = Some i ->
  CommandView.effects (CommandView.dispose i w)
  = CommandView.effects w
    ++ [CommandView.Invoked i ClearCurrentPanel;
        CommandView.Invoked i DetachDidDispose;
        CommandView.Invoked i DetachViewState;
        CommandView.Invoked i DisposePanel]
  /\ CommandView.dispose i (CommandView.dispose i w) = CommandView.dispose i w
  /\ CommandView.step (CommandView.dispose i w) (CommandView.PanelClosed i)
     = CommandView.dispose i w
  /\ (forall n, CommandView.dispose_fuel (2 + n) i w = CommandView.dispose i w).
Proof.
  intros w Hcur.
  pose proof (CommandFacts.cv_Inv_reachable es) as Hinv. fold w in Hinv.
  destruct (CommandFacts.cv_Inv_current w i Hinv Hcur) as (v & Hv & Halive).
  split; [by rewrite (CommandFacts.cv_dispose_live i v w Hv Halive)|].
  split; [by apply CommandFacts.cv_dispose_idem|].
  split; [by apply CommandFacts.cv_close_after_dispose|].
  intros n. by apply CommandFacts.dispose_fuel_enough.
Qed.

(** C8 on the panel opened on one file. *)
Lemma C8_dispose_witness :
  CommandView.currentPanel (CommandView.run (H := sample_host) CommandView.init opened)
  = Some 0
  /\ CommandView.dispose 0
       (CommandView.dispose 0
          (CommandView.run (H := sample_host) CommandView.init opened))
     = CommandView.dispose 0
         (CommandView.run (H := sample_host) CommandView.init opened).
Proof.
  destruct (C8_dispose_idempotent sample_host opened 0 eq_refl) as (_ & Hidem & _).
  split; [reflexivity|exact Hidem].
Defined.

(** C9 fails on the code.  The panel is opened on ["file.txt"] and then
    disposed of: the slot is empty and the object is no longer live, but
    its save listener is still subscribed, and saving
    ["/repo/sub/file.txt"] starts a refresh of the disposed object.  The
    constructor drops the handle [onDidSaveTextDocument] returns instead of
    registering it with the other disposables. *)
Theorem C9_listener_outlives_disposal :
  let w := CommandView.run (H := sample_host) CommandView.init opened_then_disposed in
  CommandView.currentPanel w = None
  /\ CommandView.isLive <$> CommandView.objects w !! 0 = Some false
  /\ CommandView.saveListeners w = [0]
  /\ CommandView.refreshCount 0
       (CommandView.step (H := sample_host) w
          (CommandView.DidSaveTextDocument "/repo/sub/file.txt"))
     = S (CommandView.refreshCount 0 w).
Proof. repeat split; reflexivity. Qed.

(** C7 as the specification words it fails on one input.  The renderer's fragment is balanced
    and the URI of the style sheet is harmless, but the command holds a
    [<]: it is copied into the document as it is, the reader takes
    [<dev@example.com>] for an opening tag, and the document is not well
    formed. *)
Lemma C7_markup_in_command_counterexample :
  let v := CommandView.fresh "/ext" command_with_markup "." Beside in
  Markup.balanced (html (Host := sample_host) sample_diff) = true
  /\ Markup.has_char "034" (getMediaUri (H := sample_host) "/ext" "out.min.css") = false
  /\ Markup.well_formed (CommandView.getHtmlForWebview (H := sample_host) v sample_diff)
     = false.
Proof. repeat split; vm_compute; reflexivity. Qed.

(** C7, as the code has it.  In both designs the document is the template with the
    rendered fragment in one place, text that depends neither on the diff
    nor on the renderer before and after it.  In the command-driven design
    the command is included character for character.  The document is well
    formed (one root element, every tag closed in order) as soon as the
    fragment is balanced, the URI of the style sheet holds no double quote
    and, in the command-driven design, the command holds no [<]. *)
Theorem C7_document (H : Host) :
  (forall (v : CommandView.GitDiffView) (diff : string),
     CommandView.getHtmlForWebview v diff
     = CommandView.before_diff (getMediaUri (CommandView.extensionPath v) "out.min.css")
       +:+ html diff
       +:+ CommandView.after_diff (CommandView.gitCmd v)
     /\ includes (CommandView.getHtmlForWebview v diff) (CommandView.gitCmd v) = true)
  /\ (forall (v : CommandView.GitDiffView) (diff : string),
     Markup.balanced (html diff) = true ->
     Markup.has_char "034" (getMediaUri (CommandView.extensionPath v) "out.min.css") = false ->
     Markup.has_char "<" (CommandView.gitCmd v) = false ->
     Markup.well_formed (CommandView.getHtmlForWebview v diff) = true)
  /\ (forall (v : ContentView.GitDiffView) (diff : string),
     ContentView.getHtmlForWebview v diff
     = ContentView.before_diff (getMediaUri (ContentView.extensionPath v) "out.min.css")
       +:+ html diff
       +:+ ContentView.body_close)
  /\ (forall (v : ContentView.GitDiffView) (diff : string),
     Markup.balanced (html diff) = true ->
     Markup.has_char "034" (getMediaUri (ContentView.extensionPath v) "out.min.css") = false ->
     Markup.well_formed (ContentView.getHtmlForWebview v diff) = true).
Proof.
  split; [intros v diff; split;
          [apply cv_document_shape|apply cv_document_includes]|].
  split; [intros v diff; apply cv_document_well_formed|].
  split; [intros v diff; apply tv_document_shape|].
  intros v diff. apply tv_document_well_formed.
Qed.

(** C7 on the diff text of the specification's example. *)
Lemma C7_document_witness :
  Markup.balanced (html (Host := sample_host) sample_diff) = true
  /\ Markup.has_char "034" (getMediaUri (H := sample_host) "/ext" "out.min.css") = false
  /\ Markup.has_char "<" "git diff -- file.txt" = false
  /\ Markup.well_formed
       (CommandView.getHtmlForWebview (H := sample_host)
          (CommandView.fresh "/ext" "git diff -- file.txt" "file.txt" Beside) sample_diff)
     = true
  /\ includes
       (CommandView.getHtmlForWebview (H := sample_host)
          (CommandView.fresh "/ext" "git diff -- file.txt" "file.txt" Beside) sample_diff)
       "git diff -- file.txt"
     = true
  /\ Markup.well_formed
       (ContentView.getHtmlForWebview (H := sample_host)
          (ContentView.fresh (H := sample_host) "/ext" sample_diff Beside) sample_diff)
     = true.
Proof.
  destruct (C7_document sample_host) as (Hshape & Hcv & _ & Htv).
  split; [reflexivity|]. split; [reflexivity|]. split; [reflexivity|].
  split; [apply Hcv; reflexivity|].
  split; [apply (Hshape (CommandView.fresh "/ext" "git diff -- file.txt" "file.txt" Beside))|].
  apply Htv; reflexivity.
Defined.

(** C10.  In both designs the constructor leaves the flag [isPanelVisible]
    true.  Whatever events follow, as long as the host reports no change of
    visibility among them, every object keeps its flag.  When the host
    reports panel [j] shown or hidden, the flag of object [i] takes the
    reported value if [i] is [j], is live (its listener is attached) and
    held the other value; otherwise it is left as it was. *)
Theorem C10_visibility_flag (H : Host) :
  (forall (ep cmd fp : string) (col : ViewColumn) (w : CommandView.World),
     CommandView.isPanelVisible
       <$> CommandView.objects (snd (CommandView.construct ep cmd fp col w))
           !! fst (CommandView.construct ep cmd fp col w)
     = Some true)
  /\ (forall (es es' : list CommandView.Event) (i : nat) (v : CommandView.GitDiffView),
     CommandView.objects (CommandView.run CommandView.init es) !! i = Some v ->
     forallb (fun e => negb (CommandView.is_viewStateChanged e)) es' = true ->
     exists v',
       CommandView.objects (CommandView.run (CommandView.run CommandView.init es) es') !! i
       = Some v'
       /\ CommandView.isPanelVisible v' = CommandView.isPanelVisible v)
  /\ (forall (es : list CommandView.Event) (j i : nat) (b : bool)
            (v : CommandView.GitDiffView),
     CommandView.objects (CommandView.run CommandView.init es) !! i = Some v ->
     exists v',
       CommandView.objects
         (CommandView.step (CommandView.run CommandView.init es)
            (CommandView.ViewStateChanged j b)) !! i
       = Some v'
       /\ CommandView.isPanelVisible v'
          = if bool_decide (j = i) && CommandView.isLive v
               && negb (Bool.eqb b (CommandView.isPanelVisible v))
            then b else CommandView.isPanelVisible v)
  /\ (forall (ep diff : string) (col : ViewColumn) (w : ContentView.World),
     ContentView.isPanelVisible
       <$> ContentView.objects (snd (ContentView.construct ep diff col w))
           !! fst (ContentView.construct ep diff col w)
     = Some true)
  /\ (forall (es es' : list ContentView.Event) (i : nat) (v : ContentView.GitDiffView),
     ContentView.objects (ContentView.run ContentView.init es) !! i = Some v ->
     forallb (fun e => negb (ContentView.is_viewStateChanged e)) es' = true ->
     exists v',
       ContentView.objects (ContentView.run (ContentView.run ContentView.init es) es') !! i
       = Some v'
       /\ ContentView.isPanelVisible v' = ContentView.isPanelVisible v)
  /\ (forall (es : list ContentView.Event) (j i : nat) (b : bool)
            (v : ContentView.GitDiffView),
     ContentView.objects (ContentView.run ContentView.init es) !! i = Some v ->
     exists v',
       ContentView.objects
         (ContentView.step (ContentView.run ContentView.init es)
            (ContentView.ViewStateChanged j b)) !! i
       = Some v'
       /\ ContentView.isPanelVisible v'
          = if bool_decide (j = i) && ContentView.isLive v
               && negb (Bool.eqb b (ContentView.isPanelVisible v))
            then b else ContentView.isPanelVisible v).
Proof.
  split.
  { intros ep cmd fp col w. rewrite CommandFacts.cv_construct_eq. cbn.
    by rewrite list_lookup_middle. }
  split.
  { intros es es' i v Hv Hes'.
    by apply CommandFacts.cv_run_keeps_flag; [apply CommandFacts.cv_Inv_reachable| |]. }
  split.
  { intros es j i b v Hv.
    by apply CommandFacts.cv_viewState_flag; [apply CommandFacts.cv_Inv_reachable|]. }
  split.
  { intros ep diff col w. rewrite ContentFacts.tv_construct_eq. cbn.
    by rewrite list_lookup_middle. }
  split.
  { intros es es' i v Hv Hes'.
    by apply ContentFacts.tv_run_keeps_flag; [apply ContentFacts.tv_Inv_reachable| |]. }
  intros es j i b v Hv.
  by apply ContentFacts.tv_viewState_flag; [apply ContentFacts.tv_Inv_reachable|].
Qed.

(** C10 on the panel opened on one file: requested again, saved to and
    refused a refresh, it keeps its flag; reported hidden, it loses it. *)
Lemma C10_visibility_witness :
  CommandView.objects (CommandView.run (H := sample_host) CommandView.init opened) !! 0
  = Some (CommandView.fresh "/ext" "git diff -- file.txt" "file.txt" Beside)
  /\ forallb (fun e => negb (CommandView.is_viewStateChanged e))
             [reopened_elsewhere; CommandView.DidSaveTextDocument "/repo/other.txt";
              CommandView.ExecRejected 1]
     = true
  /\ ContentView.objects
       (ContentView.run (H := sample_host) ContentView.init opened_with_text) !! 0
     = Some (ContentView.fresh (H := sample_host) "/ext" sample_diff Beside)
  /\ forallb (fun e => negb (ContentView.is_viewStateChanged e)) [ContentView.Dispose 0]
     = true
  /\ (exists v',
        CommandView.objects
          (CommandView.run (H := sample_host)
             (CommandView.run (H := sample_host) CommandView.init opened)
             [reopened_elsewhere; CommandView.DidSaveTextDocument "/repo/other.txt";
              CommandView.ExecRejected 1]) !! 0
        = Some v'
        /\ CommandView.isPanelVisible v' = true)
  /\ (exists v',
        CommandView.objects
          (CommandView.step (H := sample_host)
             (CommandView.run (H := sample_host) CommandView.init opened)
             (CommandView.ViewStateChanged 0 false)) !! 0
        = Some v'
        /\ CommandView.isPanelVisible v' = false)
  /\ (exists v',
        ContentView.objects
          (ContentView.run (H := sample_host)
             (ContentView.run (H := sample_host) ContentView.init opened_with_text)
             [ContentView.Dispose 0]) !! 0
        = Some v'
        /\ ContentView.isPanelVisible v' = true)
  /\ (exists v',
        ContentView.objects
          (ContentView.step (H := sample_host)
             (ContentView.run (H := sample_host) ContentView.init opened_with_text)
             (ContentView.ViewStateChanged 0 false)) !! 0
        = Some v'
        /\ ContentView.isPanelVisible v' = false).
Proof.
  destruct (C10_visibility_flag sample_host) as (_ & Hkeep & Hset & _ & Hkeep_t & Hset_t).
  split; [reflexivity|]. split; [reflexivity|].
  split; [reflexivity|]. split; [reflexivity|].
  split.
  { exact (Hkeep opened
             [reopened_elsewhere; CommandView.DidSaveTextDocument "/repo/other.txt";
              CommandView.ExecRejected 1]
             0 (CommandView.fresh "/ext" "git diff -- file.txt" "file.txt" Beside)
             eq_refl eq_refl). }
  split.
  { exact (Hset opened 0 0 false
             (CommandView.fresh "/ext" "git diff -- file.txt" "file.txt" Beside)
             eq_refl). }
  split.
  { exact (Hkeep_t opened_with_text [ContentView.Dispose 0] 0
             (ContentView.fresh (H := sample_host) "/ext" sample_diff Beside)
             eq_refl eq_refl). }
  exact (Hset_t opened_with_text 0 0 false
           (ContentView.fresh (H := sample_host) "/ext" sample_diff Beside) eq_refl).
Defined.

(** * Further properties of the code *)

(** ** Strings *)

Lemma str_app_cancel_r (x y b : string) : x +:+ b = y +:+ b -> x = y.
Proof.
  intros Heq.
  assert (String.length x = String.length y) as Hlen.
  { apply (f_equal String.length) in Heq. rewrite !str_length_app in Heq. lia. }
  revert y Heq Hlen. induction x as [|c x IH]; intros [|d y] Heq Hlen;
    cbn in Hlen; try discriminate; [reflexivity|].
  rewrite !str_app_cons in Heq. injection Heq as -> Heq. f_equal. apply IH; [done|lia].
Qed.

Lemma str_app_cancel_l (a x y : string) : a +:+ x = a +:+ y -> x = y.
Proof.
  induction a as [|c a IH]; [done|]. rewrite !str_app_cons. intros [= Heq]. by apply IH.
Qed.

(** ** The command-driven design, continued *)

Module CommandMore.
Import CommandView CommandFacts.

Section Facts.
Context `{Host}.

(** *** Promises *)

Lemma cv_find_app_l (r : nat) (p : Pending) (l l' : list Pending) :
  find (is_req r) l = Some p -> find (is_req r) (l ++ l') = Some p.
Proof.
  induction l as [|q l IH]; [done|]. cbn. by destruct (is_req r q).
Qed.


(** The document does not depend on the panel of the object. *)
Lemma cv_document_panel (p : WebviewPanel) (v : GitDiffView) (out : string) :
  getHtmlForWebview (set_panel p v) out = getHtmlForWebview v out.
Proof. reflexivity. Qed.

(** A pending promise is fulfilled: its owner displays the document of the
    output, every other object is as it was, and the promise is gone. *)
Lemma cv_execResolved_eq (r : nat) (out : string) (p : Pending) (v : GitDiffView)
      (w : World) :
  find (is_req r) (pending w) = Some p ->
  objects w !! req_owner p = Some v ->
  execResolved r out w
  = mkWorld (currentPanel w)
            (<[req_owner p := set_panel (set_html (getHtmlForWebview v out) (panel v)) v]>
               (objects w))
            (saveListeners w)
            (filter (fun q => negb (is_req r q)) (pending w))
            (nextReq w)
            (effects w ++ [AppendLine (req_owner p) "content refreshed"]).
Proof.
  intros Hfind Hv. unfold execResolved, onFulfilled. rewrite Hfind. cbn. rewrite Hv.
  apply cv_world_eq; cbn; try reflexivity.
  by rewrite (cv_alter_insert _ _ _ _ Hv).
Qed.



(** *** The slot *)

(** After an event the slot holds what it held, or nothing, or the object
    just built. *)
Lemma cv_step_slot (e : Event) (w : World) :
  Inv w ->
  currentPanel (step w e) = currentPanel w
  \/ currentPanel (step w e) = None
  \/ currentPanel (step w e) = Some (length (objects w)).
Proof.
  intros Hinv. destruct e as [ep cmd fp col|p|r out|r|j|j|j b]; cbn [step].
  - pose proof (cv_createOrShow_slot ep cmd fp (default Beside col) w Hinv) as Hslot.
    destruct (currentPanel w); destruct Hslot as (-> & _); auto.
  - left. by destruct (only_refreshes_save p (saveListeners w) w) as (-> & _).
  - left. unfold execResolved, onFulfilled.
    destruct (find _ _); [|done]. cbn. by destruct (objects w !! _).
  - left. unfold execRejected. by destruct (find _ _).
  - destruct (objects w !! j) as [vj|] eqn:Hvj.
    + destruct (cv_Inv_cases w j vj Hinv Hvj) as [[Halive _]|[Hdead _]].
      * right. left. by rewrite (cv_close_live j vj w Hvj Halive).
      * left. by rewrite (cv_close_dead j vj w Hvj Hdead).
    + left. unfold panel_dispose. by rewrite Hvj.
  - destruct (objects w !! j) as [vj|] eqn:Hvj.
    + destruct (cv_Inv_cases w j vj Hinv Hvj) as [[Halive _]|[Hdead _]].
      * right. left. by rewrite (cv_dispose_live j vj w Hvj Halive).
      * left. by rewrite (cv_dispose_dead j vj w Hvj Hdead).
    + left. unfold dispose. by rewrite (cv_dispose_fuel_absent 2 j w Hvj).
  - left. unfold viewStateChanged, onDidChangeViewState. by repeat case_match.
Qed.

Lemma cv_not_live_dead (w : World) (i : nat) (v : GitDiffView) :
  Inv w -> objects w !! i = Some v -> isLive v = false ->
  lifecycle v = dead_cycle /\ currentPanel w <> Some i.
Proof.
  intros Hinv Hv Hlive. destruct (cv_Inv_cases w i v Hinv Hv) as [[Ha _]|Hd]; [|done].
  apply cv_alive_fields in Ha as (Hb & _). unfold isLive in Hlive.
  rewrite Hb in Hlive. discriminate.
Qed.

(** An object disposed of stays so, and out of the slot. *)
Lemma cv_step_dead (e : Event) (i : nat) (v : GitDiffView) (w : World) :
  Inv w -> objects w !! i = Some v -> isLive v = false ->
  exists v', objects (step w e) !! i = Some v' /\ isLive v' = false
             /\ currentPanel (step w e) <> Some i.
Proof.
  intros Hinv Hv Hlive.
  destruct (cv_not_live_dead w i v Hinv Hv Hlive) as [_ Hslot].
  destruct (cv_step_kept e i v w Hinv Hv) as (v' & Hv' & _).
  assert (currentPanel (step w e) <> Some i) as Hslot'.
  { destruct (cv_step_slot e w Hinv) as [->| [->| ->]]; [done|done|].
    intros [= Heq]. apply lookup_lt_Some in Hv. lia. }
  exists v'. split; [exact Hv'|]. split; [|exact Hslot'].
  destruct (cv_Inv_cases _ i v' (cv_Inv_step w e Hinv) Hv') as [[_ ?]|[Hd _]]; [done|].
  apply cv_dead_fields in Hd as (Hb & _). unfold isLive. by rewrite Hb.
Qed.

Lemma cv_run_dead (es : list Event) (i : nat) (v : GitDiffView) (w : World) :
  Inv w -> objects w !! i = Some v -> isLive v = false ->
  exists v', objects (run w es) !! i = Some v' /\ isLive v' = false
             /\ currentPanel (run w es) <> Some i.
Proof.
  revert v w. induction es as [|e es IH]; intros v w Hinv Hv Hlive.
  - exists v. split; [done|]. split; [done|]. by apply (cv_not_live_dead w i v).
  - destruct (cv_step_dead e i v w Hinv Hv Hlive) as (v1 & Hv1 & Hlive1 & _).
    exact (IH v1 (step w e) (cv_Inv_step w e Hinv) Hv1 Hlive1).
Qed.

(** *** What a run of events keeps *)

Lemma is_execResolved_forallb (e : Event) (es : list Event) :
  forallb (fun e => negb (is_execResolved e)) (e :: es) = true ->
  is_execResolved e = false /\ forallb (fun e => negb (is_execResolved e)) es = true.
Proof. cbn. intros [He Hes]%andb_true_iff. by destruct (is_execResolved e). Qed.

(** As long as no promise is fulfilled, every panel displays what it
    displayed. *)
Lemma cv_run_keeps_html (es : list Event) (i : nat) (v : GitDiffView) (w : World) :
  Inv w -> objects w !! i = Some v ->
  forallb (fun e => negb (is_execResolved e)) es = true ->
  displayed i (run w es) = Some (webview_html (panel v)).
Proof.
  revert v w. induction es as [|e es IH]; intros v w Hinv Hv Hes.
  - unfold displayed. cbn. by rewrite Hv.
  - apply is_execResolved_forallb in Hes as [He Hes].
    destruct (cv_step_kept e i v w Hinv Hv) as (v1 & Hv1 & _ & _ & _ & Hkeep).
    rewrite <- (Hkeep He).
    exact (IH v1 (step w e) (cv_Inv_step w e Hinv) Hv1 Hes).
Qed.

(** An object keeps the extension path it was built with. *)
Lemma cv_run_keeps_extensionPath (es : list Event) (i : nat) (v : GitDiffView) (w : World) :
  Inv w -> objects w !! i = Some v ->
  exists v', objects (run w es) !! i = Some v' /\ extensionPath v' = extensionPath v.
Proof.
  revert v w. induction es as [|e es IH]; intros v w Hinv Hv; [by exists v|].
  destruct (cv_step_kept e i v w Hinv Hv) as (v1 & Hv1 & Hep & _).
  destruct (IH v1 (step w e) (cv_Inv_step w e Hinv) Hv1) as (v' & Hv' & Hep').
  exists v'. split; [exact Hv'|congruence].
Qed.

(** *** The flag and the panel *)

Lemma cv_mirrors_step (e : Event) (w : World) :
  Inv w -> Forall cv_mirrors (objects w) -> Forall cv_mirrors (objects (step w e)).
Proof.
  intros Hinv Hall. destruct e as [ep cmd fp col|p|r out|r|j|j|j b]; cbn [step].
  - destruct (currentPanel w) as [i|] eqn:Hcur.
    + destruct (cv_Inv_current w i Hinv Hcur) as (v & Hv & _).
      rewrite (cv_createOrShow_reuse _ _ _ _ i v) by done. cbn.
      apply Forall_insert; [done|]. exact (Forall_lookup_1 _ _ _ _ Hall Hv).
    + rewrite cv_createOrShow_new by done. cbn.
      apply Forall_app. split; [done|]. by apply Forall_singleton.
  - by destruct (only_refreshes_save p (saveListeners w) w) as (_ & -> & _).
  - unfold execResolved, onFulfilled. destruct (find _ _) as [q|]; [|done]. cbn.
    destruct (objects w !! req_owner q); [|done]. cbn.
    apply Forall_alter; [done|]. by intros x _ Hx.
  - unfold execRejected. by destruct (find _ _).
  - destruct (objects w !! j) as [vj|] eqn:Hvj.
    + destruct (cv_Inv_cases w j vj Hinv Hvj) as [[Halive _]|[Hdead _]].
      * rewrite (cv_close_live j vj w Hvj Halive). cbn.
        apply Forall_insert; [done|]. exact (Forall_lookup_1 _ _ _ _ Hall Hvj).
      * by rewrite (cv_close_dead j vj w Hvj Hdead).
    + unfold panel_dispose. by rewrite Hvj.
  - destruct (objects w !! j) as [vj|] eqn:Hvj.
    + destruct (cv_Inv_cases w j vj Hinv Hvj) as [[Halive _]|[Hdead _]].
      * rewrite (cv_dispose_live j vj w Hvj Halive). cbn.
        apply Forall_insert; [done|]. exact (Forall_lookup_1 _ _ _ _ Hall Hvj).
      * by rewrite (cv_dispose_dead j vj w Hvj Hdead).
    + unfold dispose. by rewrite (cv_dispose_fuel_absent 2 j w Hvj).
  - destruct (objects w !! j) as [vj|] eqn:Hvj.
    + rewrite (cv_viewStateChanged_eq j b vj w Hvj).
      destruct (cv_isLive_cases w j vj Hinv Hvj) as [(_ & -> & Hhook)|(_ & ->)]; [|done].
      cbn. apply Forall_alter; [done|]. intros x Hx _.
      assert (x = vj) as -> by congruence.
      unfold cv_mirrors, seen. rewrite Hhook. cbn.
      destruct (Bool.eqb b (isPanelVisible vj)) eqn:Hb; cbn; [|done].
      by apply Bool.eqb_prop in Hb.
    + unfold viewStateChanged. by rewrite Hvj.
Qed.

Lemma cv_mirrors_run (es : list Event) (w : World) :
  Inv w -> Forall cv_mirrors (objects w) -> Forall cv_mirrors (objects (run w es)).
Proof.
  revert w. induction es as [|e es IH]; intros w Hinv Hall; [done|].
  cbn. apply IH; [by apply cv_Inv_step|by apply cv_mirrors_step].
Qed.

(** *** All the listeners of a saved document *)

Lemma cv_save_total_fold (uri_path : string) (ls : list nat) (w : World) :
  nextReq (fold_left (fun w j => onDidSaveTextDocument j uri_path w) ls w)
  = nextReq w
    + length (List.filter
                (fun j => match objects w !! j with
                          | Some v => saveTriggers uri_path (filePath v)
                          | None => false
                          end) ls).
Proof.
  revert w. induction ls as [|j ls IH]; intros w; [cbn; lia|].
  cbn [fold_left List.filter]. rewrite IH.
  pose proof (only_refreshes_onSave j uri_path w) as (_ & Hobj & _). rewrite Hobj.
  destruct (objects w !! j) as [v|] eqn:Hv.
  - rewrite (cv_onSave_eq j uri_path v w Hv).
    destruct (saveTriggers uri_path (filePath v)); cbn; lia.
  - unfold onDidSaveTextDocument. rewrite Hv. lia.
Qed.

Lemma cv_filter_by_index (f : GitDiffView -> bool) (l : list GitDiffView) :
  length (List.filter
            (fun j => match l !! j with Some v => f v | None => false end)
            (seq 0 (length l)))
  = length (List.filter f l).
Proof.
  induction l as [|x l IH] using rev_ind; [reflexivity|].
  rewrite length_app. cbn [length]. rewrite Nat.add_1_r, seq_S.
  rewrite !List.filter_app, !length_app. cbn [List.filter Nat.add].
  rewrite list_lookup_middle by done.
  rewrite (List.filter_ext_in _
             (fun j => match l !! j with Some v => f v | None => false end)).
  - rewrite IH. by destruct (f x).
  - intros j Hj%in_seq. by rewrite lookup_app_l by lia.
Qed.

(** A saved document starts one refresh for every object ever built whose
    rule holds, disposed of or not. *)
Lemma cv_save_total (uri_path : string) (w : World) :
  Inv w ->
  nextReq (step w (DidSaveTextDocument uri_path))
  = nextReq w + length (listening uri_path (objects w)).
Proof.
  intros (_ & Hls & _). cbn [step]. rewrite cv_save_total_fold, Hls.
  unfold listening. by rewrite cv_filter_by_index.
Qed.

(** *** Every call of [createOrShow] *)

Lemma cv_createOrShow_summary (ep cmd fp : string) (col : ViewColumn) (w : World) :
  Inv w ->
  exists j v',
    currentPanel (createOrShow ep cmd fp col w) = Some j
    /\ objects (createOrShow ep cmd fp col w) !! j = Some v'
    /\ gitCmd v' = cmd /\ filePath v' = fp
    /\ viewColumn (panel v') = col
    /\ isLive v' = true
    /\ pending (createOrShow ep cmd fp col w)
       = pending w ++ [mkPending (nextReq w) j cmd].
Proof.
  intros Hinv. destruct (currentPanel w) as [i|] eqn:Hcur.
  - destruct (cv_Inv_current w i Hinv Hcur) as (v & Hv & Halive).
    exists i, (reused cmd fp col v).
    rewrite (cv_createOrShow_reuse _ _ _ _ i v) by done. cbn.
    rewrite list_lookup_insert_eq by (by eapply lookup_lt_Some).
    apply cv_alive_fields in Halive as (Hb & _). unfold isLive. cbn. by rewrite Hb.
  - exists (length (objects w)), (fresh ep cmd fp col).
    rewrite cv_createOrShow_new by done. cbn. by rewrite list_lookup_middle.
Qed.

End Facts.
End CommandMore.

(** ** The direct-content design, continued *)

Module ContentMore.
Import ContentView ContentFacts.

Section Facts.
Context `{Host}.

(** *** Disposing twice *)

Lemma tv_dispose_idem (i : nat) (w : World) :
  Inv w -> dispose i (dispose i w) = dispose i w.
Proof.
  intros Hinv. destruct (objects w !! i) as [v|] eqn:Hv.
  - destruct (tv_Inv_cases w i v Hinv Hv) as [[Halive _]|[Hdead _]].
    + rewrite (tv_dispose_live i v w Hv Halive).
      apply (tv_dispose_dead i (retire v)); [|by apply tv_lifecycle_retire].
      cbn. apply list_lookup_insert_eq. by eapply lookup_lt_Some.
    + rewrite (tv_dispose_dead i v w Hv Hdead). exact (tv_dispose_dead i v w Hv Hdead).
  - unfold dispose. rewrite (tv_dispose_fuel_absent 2 i w Hv).
    exact (tv_dispose_fuel_absent 2 i w Hv).
Qed.

Lemma tv_close_after_dispose (i : nat) (w : World) :
  Inv w -> panel_dispose (dispose i) i (dispose i w) = dispose i w.
Proof.
  intros Hinv. destruct (objects w !! i) as [v|] eqn:Hv.
  - destruct (tv_Inv_cases w i v Hinv Hv) as [[Halive _]|[Hdead _]].
    + rewrite (tv_dispose_live i v w Hv Halive).
      apply (tv_close_dead i (retire v)); [|by apply tv_lifecycle_retire].
      cbn. apply list_lookup_insert_eq. by eapply lookup_lt_Some.
    + rewrite (tv_dispose_dead i v w Hv Hdead). by apply (tv_close_dead i v).
  - unfold dispose. rewrite (tv_dispose_fuel_absent 2 i w Hv).
    unfold panel_dispose. by rewrite Hv.
Qed.

(** *** The slot *)

Lemma tv_step_slot (e : Event) (w : World) :
  Inv w ->
  currentPanel (step w e) = currentPanel w
  \/ currentPanel (step w e) = None
  \/ currentPanel (step w e) = Some (length (objects w)).
Proof.
  intros Hinv. destruct e as [ep diff col|j|j|j b]; cbn [step].
  - pose proof (tv_createOrShow_slot ep diff (default Beside col) w Hinv) as Hslot.
    destruct (currentPanel w); destruct Hslot as (-> & _); auto.
  - destruct (objects w !! j) as [vj|] eqn:Hvj.
    + destruct (tv_Inv_cases w j vj Hinv Hvj) as [[Halive _]|[Hdead _]].
      * right. left. by rewrite (tv_close_live j vj w Hvj Halive).
      * left. by rewrite (tv_close_dead j vj w Hvj Hdead).
    + left. unfold panel_dispose. by rewrite Hvj.
  - destruct (objects w !! j) as [vj|] eqn:Hvj.
    + destruct (tv_Inv_cases w j vj Hinv Hvj) as [[Halive _]|[Hdead _]].
      * right. left. by rewrite (tv_dispose_live j vj w Hvj Halive).
      * left. by rewrite (tv_dispose_dead j vj w Hvj Hdead).
    + left. unfold dispose. by rewrite (tv_dispose_fuel_absent 2 j w Hvj).
  - left. unfold viewStateChanged, onDidChangeViewState. by repeat case_match.
Qed.

Lemma tv_not_live_dead (w : World) (i : nat) (v : GitDiffView) :
  Inv w -> objects w !! i = Some v -> isLive v = false ->
  lifecycle v = dead_cycle /\ currentPanel w <> Some i.
Proof.
  intros Hinv Hv Hlive. destruct (tv_Inv_cases w i v Hinv Hv) as [[Ha _]|Hd]; [|done].
  apply tv_alive_fields in Ha as (Hb & _). unfold isLive in Hlive.
  rewrite Hb in Hlive. discriminate.
Qed.

Lemma tv_step_dead (e : Event) (i : nat) (v : GitDiffView) (w : World) :
  Inv w -> objects w !! i = Some v -> isLive v = false ->
  exists v', objects (step w e) !! i = Some v' /\ isLive v' = false
             /\ currentPanel (step w e) <> Some i.
Proof.
  intros Hinv Hv Hlive.
  destruct (tv_not_live_dead w i v Hinv Hv Hlive) as [_ Hslot].
  destruct (tv_step_kept e i v w Hinv Hv) as (v' & Hv' & _).
  assert (currentPanel (step w e) <> Some i) as Hslot'.
  { destruct (tv_step_slot e w Hinv) as [->| [->| ->]]; [done|done|].
    intros [= Heq]. apply lookup_lt_Some in Hv. lia. }
  exists v'. split; [exact Hv'|]. split; [|exact Hslot'].
  destruct (tv_Inv_cases _ i v' (tv_Inv_step w e Hinv) Hv') as [[_ ?]|[Hd _]]; [done|].
  apply tv_dead_fields in Hd as (Hb & _). unfold isLive. by rewrite Hb.
Qed.

Lemma tv_run_dead (es : list Event) (i : nat) (v : GitDiffView) (w : World) :
  Inv w -> objects w !! i = Some v -> isLive v = false ->
  exists v', objects (run w es) !! i = Some v' /\ isLive v' = false
             /\ currentPanel (run w es) <> Some i.
Proof.
  revert v w. induction es as [|e es IH]; intros v w Hinv Hv Hlive.
  - exists v. split; [done|]. split; [done|]. by apply (tv_not_live_dead w i v).
  - destruct (tv_step_dead e i v w Hinv Hv Hlive) as (v1 & Hv1 & Hlive1 & _).
    exact (IH v1 (step w e) (tv_Inv_step w e Hinv) Hv1 Hlive1).
Qed.

(** *** What a run of events keeps *)

Lemma tv_run_keeps_extensionPath (es : list Event) (i : nat) (v : GitDiffView) (w : World) :
  Inv w -> objects w !! i = Some v ->
  exists v', objects (run w es) !! i = Some v' /\ extensionPath v' = extensionPath v.
Proof.
  revert v w. induction es as [|e es IH]; intros v w Hinv Hv; [by exists v|].
  destruct (tv_step_kept e i v w Hinv Hv) as (v1 & Hv1 & Hep & _).
  destruct (IH v1 (step w e) (tv_Inv_step w e Hinv) Hv1) as (v' & Hv' & Hep').
  exists v'. split; [exact Hv'|congruence].
Qed.

(** Only [createOrShow] changes what a panel displays. *)
Lemma tv_step_keeps_html (e : Event) (i : nat) (v : GitDiffView) (w : World) :
  Inv w -> objects w !! i = Some v -> tv_is_createOrShow e = false ->
  displayed i (step w e) = Some (webview_html (panel v)).
Proof.
  intros Hinv Hv He. unfold displayed.
  destruct e as [ep diff col|j|j|j b]; [discriminate| | |]; cbn [step].
  - destruct (objects w !! j) as [vj|] eqn:Hvj.
    + destruct (tv_Inv_cases w j vj Hinv Hvj) as [[Halive _]|[Hdead _]].
      * rewrite (tv_close_live j vj w Hvj Halive), (tv_lookup_retired i j v vj) by done.
        by case_decide.
      * by rewrite (tv_close_dead j vj w Hvj Hdead), Hv.
    + unfold panel_dispose. by rewrite Hvj, Hv.
  - destruct (objects w !! j) as [vj|] eqn:Hvj.
    + destruct (tv_Inv_cases w j vj Hinv Hvj) as [[Halive _]|[Hdead _]].
      * rewrite (tv_dispose_live j vj w Hvj Halive), (tv_lookup_retired i j v vj) by done.
        by case_decide.
      * by rewrite (tv_dispose_dead j vj w Hvj Hdead), Hv.
    + unfold dispose. by rewrite (tv_dispose_fuel_absent 2 j w Hvj), Hv.
  - destruct (objects w !! j) as [vj|] eqn:Hvj.
    + rewrite (tv_viewStateChanged_eq j b vj w Hvj).
      destruct (panelDisposed (panel vj)); [by rewrite Hv|]. cbn.
      destruct (decide (j = i)) as [->|Hne].
      * rewrite list_lookup_alter_eq, Hv. cbn. unfold seen. by case_match.
      * by rewrite list_lookup_alter_ne, Hv.
    + unfold viewStateChanged. by rewrite Hvj, Hv.
Qed.

Lemma tv_is_createOrShow_forallb (e : Event) (es : list Event) :
  forallb (fun e => negb (tv_is_createOrShow e)) (e :: es) = true ->
  tv_is_createOrShow e = false
  /\ forallb (fun e => negb (tv_is_createOrShow e)) es = true.
Proof. cbn. intros [He Hes]%andb_true_iff. by destruct (tv_is_createOrShow e). Qed.

Lemma tv_run_keeps_html (es : list Event) (i : nat) (v : GitDiffView) (w : World) :
  Inv w -> objects w !! i = Some v ->
  forallb (fun e => negb (tv_is_createOrShow e)) es = true ->
  displayed i (run w es) = Some (webview_html (panel v)).
Proof.
  revert v w. induction es as [|e es IH]; intros v w Hinv Hv Hes.
  - unfold displayed. cbn. by rewrite Hv.
  - apply tv_is_createOrShow_forallb in Hes as [He Hes].
    pose proof (tv_step_keeps_html e i v w Hinv Hv He) as Hstep.
    unfold displayed in Hstep.
    destruct (objects (step w e) !! i) as [v1|] eqn:Hv1; [|discriminate].
    injection Hstep as Hhtml. rewrite <- Hhtml.
    exact (IH v1 (step w e) (tv_Inv_step w e Hinv) Hv1 Hes).
Qed.

(** *** Every call of [createOrShow] *)

Lemma tv_createOrShow_summary (ep diff : string) (col : ViewColumn) (w : World) :
  Inv w ->
  exists j v',
    currentPanel (createOrShow ep diff col w) = Some j
    /\ objects (createOrShow ep diff col w) !! j = Some v'
    /\ webview_html (panel v') = getHtmlForWebview v' diff
    /\ viewColumn (panel v') = col
    /\ isLive v' = true.
Proof.
  intros Hinv. destruct (currentPanel w) as [i|] eqn:Hcur.
  - destruct (tv_Inv_current w i Hinv Hcur) as (v & Hv & Halive).
    exists i, (reused diff col v).
    rewrite (tv_createOrShow_reuse _ _ _ i v) by done. cbn.
    rewrite list_lookup_insert_eq by (by eapply lookup_lt_Some).
    apply tv_alive_fields in Halive as (Hb & _). unfold isLive. cbn. by rewrite Hb.
  - exists (length (objects w)), (fresh ep diff col).
    rewrite tv_createOrShow_new by done. cbn. by rewrite list_lookup_middle.
Qed.

(** *** The flag and the panel *)

Lemma tv_mirrors_step (e : Event) (w : World) :
  Inv w -> Forall tv_mirrors (objects w) -> Forall tv_mirrors (objects (step w e)).
Proof.
  intros Hinv Hall. destruct e as [ep diff col|j|j|j b]; cbn [step].
  - destruct (currentPanel w) as [i|] eqn:Hcur.
    + destruct (tv_Inv_current w i Hinv Hcur) as (v & Hv & _).
      rewrite (tv_createOrShow_reuse _ _ _ i v) by done. cbn.
      apply Forall_insert; [done|]. exact (Forall_lookup_1 _ _ _ _ Hall Hv).
    + rewrite tv_createOrShow_new by done. cbn.
      apply Forall_app. split; [done|]. by apply Forall_singleton.
  - destruct (objects w !! j) as [vj|] eqn:Hvj.
    + destruct (tv_Inv_cases w j vj Hinv Hvj) as [[Halive _]|[Hdead _]].
      * rewrite (tv_close_live j vj w Hvj Halive). cbn.
        apply Forall_insert; [done|]. exact (Forall_lookup_1 _ _ _ _ Hall Hvj).
      * by rewrite (tv_close_dead j vj w Hvj Hdead).
    + unfold panel_dispose. by rewrite Hvj.
  - destruct (objects w !! j) as [vj|] eqn:Hvj.
    + destruct (tv_Inv_cases w j vj Hinv Hvj) as [[Halive _]|[Hdead _]].
      * rewrite (tv_dispose_live j vj w Hvj Halive). cbn.
        apply Forall_insert; [done|]. exact (Forall_lookup_1 _ _ _ _ Hall Hvj).
      * by rewrite (tv_dispose_dead j vj w Hvj Hdead).
    + unfold dispose. by rewrite (tv_dispose_fuel_absent 2 j w Hvj).
  - destruct (objects w !! j) as [vj|] eqn:Hvj.
    + rewrite (tv_viewStateChanged_eq j b vj w Hvj).
      destruct (tv_isLive_cases w j vj Hinv Hvj) as [(_ & -> & Hhook)|(_ & ->)]; [|done].
      cbn. apply Forall_alter; [done|]. intros x Hx _.
      assert (x = vj) as -> by congruence.
      unfold tv_mirrors, seen. rewrite Hhook. cbn.
      destruct (Bool.eqb b (isPanelVisible vj)) eqn:Hb; cbn; [|done].
      by apply Bool.eqb_prop in Hb.
    + unfold viewStateChanged. by rewrite Hvj.
Qed.

Lemma tv_mirrors_run (es : list Event) (w : World) :
  Inv w -> Forall tv_mirrors (objects w) -> Forall tv_mirrors (objects (run w es)).
Proof.
  revert w. induction es as [|e es IH]; intros w Hinv Hall; [done|].
  cbn. apply IH; [by apply tv_Inv_step|by apply tv_mirrors_step].
Qed.

End Facts.
End ContentMore.

(** ** Refreshing *)





(** X3.  Object [i] is in the slot with a promise still pending, and
    [createOrShow] is called with another command before that promise is
    fulfilled.  When the older promise is fulfilled, the panel displays
    its output under the new command: the command of the document is the
    one the object holds when the callback runs, not the one that was
    executed. *)
Theorem stale_output_under_new_command (H : Host)
        (es : list CommandView.Event) (i r : nat) (p : CommandView.Pending)
        (ep cmd fp : string) (col : option ViewColumn) (out : string) :
  let w := CommandView.run CommandView.init es in
  let w' := CommandView.step
              (CommandView.step w (CommandView.CreateOrShow ep cmd fp col))
              (CommandView.ExecResolved r out) in
  CommandView.currentPanel w = Some i ->
  find (CommandView.is_req r) (CommandView.pending w) = Some p ->
  CommandView.req_owner p = i ->
  exists v,
    CommandView.objects w !! i = Some v
    /\ CommandView.displayed i w'
       = Some (CommandView.before_diff
                 (getMediaUri (CommandView.extensionPath v) "out.min.css")
               +:+ html out
               +:+ CommandView.after_diff cmd).
Proof.
  intros w w' Hcur Hfind Howner.
  pose proof (CommandFacts.cv_Inv_reachable es) as Hinv. fold w in Hinv.
  destruct (CommandFacts.cv_Inv_current w i Hinv Hcur) as (v & Hv & _).
  exists v. split; [exact Hv|]. subst w'. cbn [CommandView.step].
  rewrite (CommandFacts.cv_createOrShow_reuse _ _ _ _ i v) by done.
  rewrite (CommandMore.cv_execResolved_eq r out p
             (CommandView.reused cmd fp (default Beside col) v)).
  - unfold CommandView.displayed. cbn. rewrite Howner.
    rewrite list_lookup_insert_eq
      by (rewrite length_insert; by eapply lookup_lt_Some).
    cbn. f_equal.
    exact (cv_document_shape (CommandView.reused cmd fp (default Beside col) v) out).
  - cbn. by apply CommandMore.cv_find_app_l.
  - cbn. rewrite Howner. apply list_lookup_insert_eq. by eapply lookup_lt_Some.
Qed.

(** X3 on the panel opened on one file and requested again before its
    first promise is fulfilled. *)
Lemma stale_output_witness :
  CommandView.currentPanel (CommandView.run (H := sample_host) CommandView.init opened)
  = Some 0
  /\ find (CommandView.is_req 0)
          (CommandView.pending (CommandView.run (H := sample_host) CommandView.init opened))
     = Some (CommandView.mkPending 0 0 "git diff -- file.txt")
  /\ exists v,
       CommandView.objects (CommandView.run (H := sample_host) CommandView.init opened) !! 0
       = Some v
       /\ CommandView.displayed 0
            (CommandView.step (H := sample_host)
               (CommandView.step (H := sample_host)
                  (CommandView.run (H := sample_host) CommandView.init opened)
                  reopened_elsewhere)
               (CommandView.ExecResolved 0 sample_diff))
          = Some (CommandView.before_diff
                    (getMediaUri (H := sample_host) (CommandView.extensionPath v)
                       "out.min.css")
                  +:+ html (Host := sample_host) sample_diff
                  +:+ CommandView.after_diff "git diff -- other.txt").
Proof.
  split; [reflexivity|]. split; [reflexivity|].
  exact (stale_output_under_new_command sample_host opened 0 0
           (CommandView.mkPending 0 0 "git diff -- file.txt")
           "/ext" "git diff -- other.txt" "other.txt" (Some Two) sample_diff
           eq_refl eq_refl eq_refl).
Defined.

(** X4.  In every world the events lead to there is one save listener for
    every object ever built, in the order of construction, none removed
    by a disposal and none added by a reuse.  A saved document therefore
    starts as many [execShell] calls as there are objects, disposed of or
    not, whose rule holds for the saved path. *)
Theorem save_reaches_every_object_ever_built (H : Host)
        (es : list CommandView.Event) (saved : string) :
  let w := CommandView.run CommandView.init es in
  CommandView.saveListeners w = seq 0 (length (CommandView.objects w))
  /\ CommandView.nextReq (CommandView.step w (CommandView.DidSaveTextDocument saved))
     = CommandView.nextReq w + length (listening saved (CommandView.objects w))
  /\ CommandView.objects (CommandView.step w (CommandView.DidSaveTextDocument saved))
     = CommandView.objects w
  /\ CommandView.currentPanel (CommandView.step w (CommandView.DidSaveTextDocument saved))
     = CommandView.currentPanel w.
Proof.
  intros w. pose proof (CommandFacts.cv_Inv_reachable es) as Hinv. fold w in Hinv.
  split; [apply Hinv|]. split; [by apply CommandMore.cv_save_total|].
  cbn [CommandView.step].
  by destruct (CommandFacts.only_refreshes_save saved (CommandView.saveListeners w) w)
    as (-> & -> & _).
Qed.

(** Three panels opened in turn on the whole repository, two of them
    closed: one save starts three commands. *)
Example save_after_three_generations :
  let w := CommandView.run (H := sample_host) CommandView.init three_generations in
  CommandView.liveCount w = 1
  /\ CommandView.nextReq
       (CommandView.step (H := sample_host) w
          (CommandView.DidSaveTextDocument "/repo/a.txt"))
     = CommandView.nextReq w + 3.
Proof. split; reflexivity. Qed.

(** X5.  After every call of [createOrShow], whatever came before, a live
    object is in the slot, it holds the command and the watched path of
    the call, its panel is in the column of the call (by default
    [Beside]), and exactly one promise has been added, for that object
    and that command. *)
Theorem createOrShow_always_refreshes_the_slot (H : Host)
        (es : list CommandView.Event) (ep cmd fp : string) (col : option ViewColumn) :
  let w := CommandView.run CommandView.init es in
  let w' := CommandView.step w (CommandView.CreateOrShow ep cmd fp col) in
  exists j v',
    CommandView.currentPanel w' = Some j
    /\ CommandView.objects w' !! j = Some v'
    /\ CommandView.gitCmd v' = cmd
    /\ CommandView.filePath v' = fp
    /\ viewColumn (CommandView.panel v') = default Beside col
    /\ CommandView.isLive v' = true
    /\ CommandView.pending w'
       = CommandView.pending w ++ [CommandView.mkPending (CommandView.nextReq w) j cmd].
Proof.
  intros w w'. apply CommandMore.cv_createOrShow_summary, CommandFacts.cv_Inv_reachable.
Qed.

(** ** Disposed objects *)

(** X6.  In both designs an object that has been disposed of is never
    revived: whatever events follow, it stays disposed of and the slot
    never holds it again. *)
Theorem disposed_object_is_never_revived (H : Host)
        (es es' : list CommandView.Event) (i : nat) (v : CommandView.GitDiffView)
        (es_t es_t' : list ContentView.Event) (j : nat) (vt : ContentView.GitDiffView) :
  CommandView.objects (CommandView.run CommandView.init es) !! i = Some v ->
  CommandView.isLive v = false ->
  ContentView.objects (ContentView.run ContentView.init es_t) !! j = Some vt ->
  ContentView.isLive vt = false ->
  (exists v',
     CommandView.objects (CommandView.run (CommandView.run CommandView.init es) es') !! i
     = Some v'
     /\ CommandView.isLive v' = false
     /\ CommandView.currentPanel (CommandView.run (CommandView.run CommandView.init es) es')
        <> Some i)
  /\ (exists vt',
     ContentView.objects (ContentView.run (ContentView.run ContentView.init es_t) es_t') !! j
     = Some vt'
     /\ ContentView.isLive vt' = false
     /\ ContentView.currentPanel
          (ContentView.run (ContentView.run ContentView.init es_t) es_t')
        <> Some j).
Proof.
  intros Hv Hlive Hvt Hlive_t. split.
  - by apply (CommandMore.cv_run_dead es' i v); [apply CommandFacts.cv_Inv_reachable| |].
  - by apply (ContentMore.tv_run_dead es_t' j vt); [apply ContentFacts.tv_Inv_reachable| |].
Qed.

(** X6 on panels opened and disposed of, and then requested again. *)
Lemma disposed_never_revived_witness :
  CommandView.objects
    (CommandView.run (H := sample_host) CommandView.init opened_then_disposed) !! 0
  = Some (CommandView.retire
            (CommandView.fresh "/ext" "git diff -- file.txt" "file.txt" Beside))
  /\ ContentView.objects
       (ContentView.run (H := sample_host) ContentView.init text_then_disposed) !! 0
     = Some (ContentView.retire
               (ContentView.fresh (H := sample_host) "/ext" sample_diff Beside))
  /\ CommandView.currentPanel
       (CommandView.run (H := sample_host)
          (CommandView.run (H := sample_host) CommandView.init opened_then_disposed)
          [reopened_elsewhere; CommandView.Dispose 0])
     <> Some 0
  /\ ContentView.currentPanel
       (ContentView.run (H := sample_host)
          (ContentView.run (H := sample_host) ContentView.init text_then_disposed)
          [ContentView.CreateOrShow "/ext" "+new" None; ContentView.PanelClosed 0])
     <> Some 0.
Proof.
  destruct (disposed_object_is_never_revived sample_host
              opened_then_disposed [reopened_elsewhere; CommandView.Dispose 0] 0
              (CommandView.retire
                 (CommandView.fresh "/ext" "git diff -- file.txt" "file.txt" Beside))
              text_then_disposed
              [ContentView.CreateOrShow "/ext" "+new" None; ContentView.PanelClosed 0] 0
              (ContentView.retire
                 (ContentView.fresh (H := sample_host) "/ext" sample_diff Beside))
              eq_refl eq_refl eq_refl eq_refl)
    as [(_ & _ & _ & Hc) (_ & _ & _ & Ht)].
  split; [reflexivity|]. split; [reflexivity|]. split; [exact Hc|exact Ht].
Defined.

(** X7.  In both designs a call of [dispose()] on an object already
    disposed of, or the closing of its panel, changes nothing, also while
    another object is in the slot: the slot is emptied by the disposal of
    the object it holds and by nothing else. *)
Theorem stale_dispose_changes_nothing (H : Host)
        (es : list CommandView.Event) (i : nat) (v : CommandView.GitDiffView)
        (es_t : list ContentView.Event) (j : nat) (vt : ContentView.GitDiffView) :
  let w := CommandView.run CommandView.init es in
  let wt := ContentView.run ContentView.init es_t in
  CommandView.objects w !! i = Some v ->
  CommandView.isLive v = false ->
  ContentView.objects wt !! j = Some vt ->
  ContentView.isLive vt = false ->
  CommandView.step w (CommandView.Dispose i) = w
  /\ CommandView.step w (CommandView.PanelClosed i) = w
  /\ ContentView.step wt (ContentView.Dispose j) = wt
  /\ ContentView.step wt (ContentView.PanelClosed j) = wt.
Proof.
  intros w wt Hv Hlive Hvt Hlive_t.
  pose proof (CommandFacts.cv_Inv_reachable es) as Hinv. fold w in Hinv.
  pose proof (ContentFacts.tv_Inv_reachable es_t) as Hinv_t. fold wt in Hinv_t.
  destruct (CommandMore.cv_not_live_dead w i v Hinv Hv Hlive) as [Hdead _].
  destruct (ContentMore.tv_not_live_dead wt j vt Hinv_t Hvt Hlive_t) as [Hdead_t _].
  cbn [CommandView.step ContentView.step].
  split; [by apply (CommandFacts.cv_dispose_dead i v)|].
  split; [by apply (CommandFacts.cv_close_dead i v)|].
  split; [by apply (ContentFacts.tv_dispose_dead j vt)|].
  by apply (ContentFacts.tv_close_dead j vt).
Qed.

(** X7 on the first of two panels, the second being in the slot. *)
Lemma stale_dispose_witness :
  CommandView.objects
    (CommandView.run (H := sample_host) CommandView.init
       (opened_then_disposed ++ [reopened_elsewhere])) !! 0
  = Some (CommandView.retire
            (CommandView.fresh "/ext" "git diff -- file.txt" "file.txt" Beside))
  /\ CommandView.currentPanel
       (CommandView.run (H := sample_host) CommandView.init
          (opened_then_disposed ++ [reopened_elsewhere]))
     = Some 1
  /\ CommandView.step (H := sample_host)
       (CommandView.run (H := sample_host) CommandView.init
          (opened_then_disposed ++ [reopened_elsewhere]))
       (CommandView.Dispose 0)
     = CommandView.run (H := sample_host) CommandView.init
         (opened_then_disposed ++ [reopened_elsewhere])
  /\ ContentView.step (H := sample_host)
       (ContentView.run (H := sample_host) ContentView.init text_then_disposed)
       (ContentView.PanelClosed 0)
     = ContentView.run (H := sample_host) ContentView.init text_then_disposed.
Proof.
  destruct (stale_dispose_changes_nothing sample_host
              (opened_then_disposed ++ [reopened_elsewhere]) 0
              (CommandView.retire
                 (CommandView.fresh "/ext" "git diff -- file.txt" "file.txt" Beside))
              text_then_disposed 0
              (ContentView.retire
                 (ContentView.fresh (H := sample_host) "/ext" sample_diff Beside))
              eq_refl eq_refl eq_refl eq_refl)
    as (Hd & _ & _ & Hc).
  split; [reflexivity|]. split; [reflexivity|]. split; [exact Hd|exact Hc].
Defined.

(** ** What a panel displays *)

(** X8.  In the command-driven design the document a panel displays
    changes only when a promise is fulfilled: through any events among
    which no promise is fulfilled (calls of [createOrShow], saved
    documents, rejected promises, disposals, reports of visibility) every
    panel keeps displaying what it displayed. *)
Theorem content_changes_only_on_fulfilment (H : Host)
        (es es' : list CommandView.Event) (i : nat) (v : CommandView.GitDiffView) :
  CommandView.objects (CommandView.run CommandView.init es) !! i = Some v ->
  forallb (fun e => negb (CommandView.is_execResolved e)) es' = true ->
  CommandView.displayed i (CommandView.run (CommandView.run CommandView.init es) es')
  = Some (webview_html (CommandView.panel v)).
Proof.
  intros Hv Hes'.
  by apply CommandMore.cv_run_keeps_html; [apply CommandFacts.cv_Inv_reachable| |].
Qed.

(** X8 on the panel opened on one file: requested again, saved to and
    refused its refreshes, it still displays what the host created it
    with. *)
Lemma content_unchanged_witness :
  CommandView.objects (CommandView.run (H := sample_host) CommandView.init opened) !! 0
  = Some (CommandView.fresh "/ext" "git diff -- file.txt" "file.txt" Beside)
  /\ forallb (fun e => negb (CommandView.is_execResolved e))
             [reopened_elsewhere; CommandView.DidSaveTextDocument "/repo/other.txt";
              CommandView.ExecRejected 0; CommandView.ExecRejected 1]
     = true
  /\ CommandView.displayed 0
       (CommandView.run (H := sample_host)
          (CommandView.run (H := sample_host) CommandView.init opened)
          [reopened_elsewhere; CommandView.DidSaveTextDocument "/repo/other.txt";
           CommandView.ExecRejected 0; CommandView.ExecRejected 1])
     = Some (webview_html (createWebviewPanel Beside)).
Proof.
  split; [reflexivity|]. split; [reflexivity|].
  exact (content_changes_only_on_fulfilment sample_host opened
           [reopened_elsewhere; CommandView.DidSaveTextDocument "/repo/other.txt";
            CommandView.ExecRejected 0; CommandView.ExecRejected 1]
           0 (CommandView.fresh "/ext" "git diff -- file.txt" "file.txt" Beside)
           eq_refl eq_refl).
Defined.

(** X9.  In both designs an object keeps the extension path it was built
    with, also through calls of [createOrShow] that pass another one: on
    reuse the argument is not looked at.  Every document rendered for the
    object therefore refers to the style sheet that [getMediaUri] resolves
    from the path given at construction. *)
Theorem extensionPath_is_fixed_at_construction (H : Host)
        (es es' : list CommandView.Event) (i : nat) (v : CommandView.GitDiffView)
        (es_t es_t' : list ContentView.Event) (j : nat) (vt : ContentView.GitDiffView) :
  CommandView.objects (CommandView.run CommandView.init es) !! i = Some v ->
  ContentView.objects (ContentView.run ContentView.init es_t) !! j = Some vt ->
  (exists v',
     CommandView.objects (CommandView.run (CommandView.run CommandView.init es) es') !! i
     = Some v'
     /\ CommandView.extensionPath v' = CommandView.extensionPath v
     /\ forall diff,
          CommandView.getHtmlForWebview v' diff
          = CommandView.before_diff
              (getMediaUri (CommandView.extensionPath v) "out.min.css")
            +:+ html diff +:+ CommandView.after_diff (CommandView.gitCmd v'))
  /\ (exists vt',
     ContentView.objects (ContentView.run (ContentView.run ContentView.init es_t) es_t') !! j
     = Some vt'
     /\ ContentView.extensionPath vt' = ContentView.extensionPath vt
     /\ forall diff,
          ContentView.getHtmlForWebview vt' diff
          = ContentView.before_diff
              (getMediaUri (ContentView.extensionPath vt) "out.min.css")
            +:+ html diff +:+ ContentView.body_close).
Proof.
  intros Hv Hvt. split.
  - destruct (CommandMore.cv_run_keeps_extensionPath es' i v _
                (CommandFacts.cv_Inv_reachable es) Hv) as (v' & Hv' & Hep).
    exists v'. split; [exact Hv'|]. split; [exact Hep|].
    intros diff. rewrite <- Hep. apply cv_document_shape.
  - destruct (ContentMore.tv_run_keeps_extensionPath es_t' j vt _
                (ContentFacts.tv_Inv_reachable es_t) Hvt) as (vt' & Hvt' & Hep).
    exists vt'. split; [exact Hvt'|]. split; [exact Hep|].
    intros diff. rewrite <- Hep. apply tv_document_shape.
Qed.

(** X9 on panels built for ["/ext"] and requested again for ["/other"]. *)
Lemma extensionPath_fixed_witness :
  CommandView.objects (CommandView.run (H := sample_host) CommandView.init opened) !! 0
  = Some (CommandView.fresh "/ext" "git diff -- file.txt" "file.txt" Beside)
  /\ ContentView.objects
       (ContentView.run (H := sample_host) ContentView.init opened_with_text) !! 0
     = Some (ContentView.fresh (H := sample_host) "/ext" sample_diff Beside)
  /\ (exists v',
        CommandView.objects
          (CommandView.run (H := sample_host)
             (CommandView.run (H := sample_host) CommandView.init opened)
             [CommandView.CreateOrShow "/other" "git diff" "." None]) !! 0
        = Some v'
        /\ CommandView.extensionPath v' = "/ext")
  /\ (exists vt',
        ContentView.objects
          (ContentView.run (H := sample_host)
             (ContentView.run (H := sample_host) ContentView.init opened_with_text)
             [ContentView.CreateOrShow "/other" "+new" None]) !! 0
        = Some vt'
        /\ ContentView.extensionPath vt' = "/ext").
Proof.
  destruct (extensionPath_is_fixed_at_construction sample_host
              opened [CommandView.CreateOrShow "/other" "git diff" "." None] 0
              (CommandView.fresh "/ext" "git diff -- file.txt" "file.txt" Beside)
              opened_with_text [ContentView.CreateOrShow "/other" "+new" None] 0
              (ContentView.fresh (H := sample_host) "/ext" sample_diff Beside)
              eq_refl eq_refl)
    as [(v' & Hv' & Hep & _) (vt' & Hvt' & Hep_t & _)].
  split; [reflexivity|]. split; [reflexivity|].
  split; [by exists v'|by exists vt'].
Defined.

(** X10.  In both designs, in every world the events lead to, the flag
    [isPanelVisible] of every object equals the visibility of its panel:
    the listener of [onDidChangeViewState] keeps the two in step, and no
    other code separates them. *)
Theorem flag_mirrors_panel_visibility (H : Host) :
  (forall es : list CommandView.Event,
     Forall cv_mirrors (CommandView.objects (CommandView.run CommandView.init es)))
  /\ (forall es : list ContentView.Event,
     Forall tv_mirrors (ContentView.objects (ContentView.run ContentView.init es))).
Proof.
  split; intros es.
  - apply CommandMore.cv_mirrors_run; [apply CommandFacts.cv_Inv_init|constructor].
  - apply ContentMore.tv_mirrors_run; [apply ContentFacts.tv_Inv_init|constructor].
Qed.

(** ** The save rule at its edges *)

(** X11.  An object that watches the empty path is refreshed by every
    saved document whose path is not empty.  An object that watches a
    path longer than the saved path, and not the marker ["."], is not
    refreshed. *)
Theorem save_rule_edges (H : Host)
        (es : list CommandView.Event) (i : nat) (v : CommandView.GitDiffView)
        (saved : string) :
  let w := CommandView.run CommandView.init es in
  CommandView.objects w !! i = Some v ->
  (CommandView.filePath v = EmptyString -> saved <> EmptyString ->
   CommandView.refreshCount i (CommandView.step w (CommandView.DidSaveTextDocument saved))
   = S (CommandView.refreshCount i w))
  /\ (String.length saved < String.length (CommandView.filePath v) ->
      CommandView.filePath v <> "." ->
      CommandView.refreshCount i (CommandView.step w (CommandView.DidSaveTextDocument saved))
      = CommandView.refreshCount i w).
Proof.
  intros w Hv. pose proof (CommandFacts.cv_Inv_reachable es) as Hinv. fold w in Hinv.
  rewrite (CommandFacts.cv_save_rule i saved v w Hinv Hv). split.
  - intros Hfp Hsaved.
    assert (CommandView.saveTriggers saved (CommandView.filePath v) = true) as ->; [|lia].
    apply CommandFacts.cv_saveTriggers_iff. right. split; [done|].
    exists saved. by rewrite Hfp, str_app_nil_r.
  - intros Hlen Hfp.
    assert (CommandView.saveTriggers saved (CommandView.filePath v) = false) as ->; [|lia].
    unfold CommandView.saveTriggers, endsWith.
    destruct (Nat.leb_spec (String.length (CommandView.filePath v)) (String.length saved));
      [lia|].
    rewrite andb_false_r. cbn. by apply String.eqb_neq.
Qed.

(** X11 on a panel that watches the empty path and on one that watches a
    long path. *)
Lemma save_rule_edges_witness :
  CommandView.refreshCount 0
    (CommandView.step (H := sample_host)
       (CommandView.run (H := sample_host) CommandView.init opened_on_nothing)
       (CommandView.DidSaveTextDocument "/repo/any.md"))
  = S (CommandView.refreshCount 0
         (CommandView.run (H := sample_host) CommandView.init opened_on_nothing))
  /\ CommandView.refreshCount 0
       (CommandView.step (H := sample_host)
          (CommandView.run (H := sample_host) CommandView.init opened_on_long_path)
          (CommandView.DidSaveTextDocument "file.txt"))
     = CommandView.refreshCount 0
         (CommandView.run (H := sample_host) CommandView.init opened_on_long_path).
Proof.
  split.
  - apply (proj1 (save_rule_edges sample_host opened_on_nothing 0
                    (CommandView.fresh "/ext" "git diff" EmptyString Beside)
                    "/repo/any.md" eq_refl)); [reflexivity|discriminate].
  - apply (proj2 (save_rule_edges sample_host opened_on_long_path 0
                    (CommandView.fresh "/ext" "git diff" "/repo/sub/dir/file.txt" Beside)
                    "file.txt" eq_refl)); [cbn; lia|discriminate].
Defined.

(** ** The earlier design *)

(** X12.  In the earlier design, after every call of [createOrShow],
    whatever came before, a live object is in the slot and its panel
    displays, when the call returns, the document of the diff text of the
    call, in the column of the call (by default [Beside]). *)
Theorem createOrShow_displays_the_diff_at_once (H : Host)
        (es : list ContentView.Event) (ep diff : string) (col : option ViewColumn) :
  let w := ContentView.run ContentView.init es in
  let w' := ContentView.step w (ContentView.CreateOrShow ep diff col) in
  exists j v',
    ContentView.currentPanel w' = Some j
    /\ ContentView.objects w' !! j = Some v'
    /\ webview_html (ContentView.panel v') = ContentView.getHtmlForWebview v' diff
    /\ viewColumn (ContentView.panel v') = default Beside col
    /\ ContentView.isLive v' = true.
Proof.
  intros w w'. apply ContentMore.tv_createOrShow_summary, ContentFacts.tv_Inv_reachable.
Qed.

(** X13.  In the earlier design only [createOrShow] changes what a panel
    displays: through disposals and reports of visibility every panel
    keeps its document. *)
Theorem content_changes_only_in_createOrShow (H : Host)
        (es es' : list ContentView.Event) (i : nat) (v : ContentView.GitDiffView) :
  ContentView.objects (ContentView.run ContentView.init es) !! i = Some v ->
  forallb (fun e => negb (tv_is_createOrShow e)) es' = true ->
  ContentView.displayed i (ContentView.run (ContentView.run ContentView.init es) es')
  = Some (webview_html (ContentView.panel v)).
Proof.
  intros Hv Hes'.
  by apply ContentMore.tv_run_keeps_html; [apply ContentFacts.tv_Inv_reachable| |].
Qed.

(** X13 on the panel opened with the example diff, hidden and closed. *)
Lemma content_only_in_createOrShow_witness :
  ContentView.objects
    (ContentView.run (H := sample_host) ContentView.init opened_with_text) !! 0
  = Some (ContentView.fresh (H := sample_host) "/ext" sample_diff Beside)
  /\ forallb (fun e => negb (tv_is_createOrShow e))
             [ContentView.ViewStateChanged 0 false; ContentView.PanelClosed 0]
     = true
  /\ ContentView.displayed 0
       (ContentView.run (H := sample_host)
          (ContentView.run (H := sample_host) ContentView.init opened_with_text)
          [ContentView.ViewStateChanged 0 false; ContentView.PanelClosed 0])
     = Some (ContentView.getHtmlForWebview (H := sample_host)
               (ContentView.fresh (H := sample_host) "/ext" sample_diff Beside)
               sample_diff).
Proof.
  split; [reflexivity|]. split; [reflexivity|].
  exact (content_changes_only_in_createOrShow sample_host opened_with_text
           [ContentView.ViewStateChanged 0 false; ContentView.PanelClosed 0] 0
           (ContentView.fresh (H := sample_host) "/ext" sample_diff Beside)
           eq_refl eq_refl).
Defined.

(** X14.  In the earlier design, object [i] is in the slot and is disposed
    of, by [dispose()] or by the user closing the panel (both lead to the
    same world).  The slot is then empty and no object is live; the next
    call of [createOrShow] builds a new object with a new host panel, and
    object [i] stays disposed of. *)
Theorem earlier_design_dispose_clears_slot (H : Host)
        (es : list ContentView.Event) (i : nat) (ep diff : string)
        (col : option ViewColumn) :
  let w := ContentView.run ContentView.init es in
  let w1 := ContentView.step w (ContentView.Dispose i) in
  let w2 := ContentView.step w1 (ContentView.CreateOrShow ep diff col) in
  ContentView.currentPanel w = Some i ->
  ContentView.step w (ContentView.PanelClosed i) = w1
  /\ ContentView.currentPanel w1 = None
  /\ ContentView.liveCount w1 = 0
  /\ ContentView.currentPanel w2 = Some (length (ContentView.objects w))
  /\ i < length (ContentView.objects w)
  /\ ContentView.objects w2 !! length (ContentView.objects w)
     = Some (ContentView.fresh ep diff (default Beside col))
  /\ ContentView.isLive <$> ContentView.objects w2 !! i = Some false
  /\ ContentView.liveCount w2 = 1
  /\ ContentView.panelsCreated w2 = S (ContentView.panelsCreated w).
Proof.
  intros w w1 w2 Hcur.
  pose proof (ContentFacts.tv_Inv_reachable es) as Hinv. fold w in Hinv.
  destruct (ContentFacts.tv_Inv_current w i Hinv Hcur) as (v & Hv & Halive).
  assert (w1 = ContentView.retired i v w) as Hw1
    by (by apply ContentFacts.tv_dispose_live).
  assert (ContentView.Inv w1) as Hinv1 by (by apply ContentFacts.tv_Inv_step).
  assert (ContentView.Inv w2) as Hinv2 by (by apply ContentFacts.tv_Inv_step).
  assert (ContentView.currentPanel w1 = None) as Hcur1 by (by rewrite Hw1).
  assert (w2 = ContentView.mkWorld
                 (Some (length (ContentView.objects w1)))
                 (ContentView.objects w1
                    ++ [ContentView.fresh ep diff (default Beside col)])
                 (ContentView.effects w1
                    ++ [ContentView.CreateWebviewPanel (length (ContentView.objects w1))
                          (default Beside col)])) as Hw2
    by (by apply ContentFacts.tv_createOrShow_new).
  assert (length (ContentView.objects w1) = length (ContentView.objects w)) as Hlen
    by (rewrite Hw1; cbn; apply length_insert).
  assert (i < length (ContentView.objects w)) as Hlt by (by eapply lookup_lt_Some).
  assert (ContentView.objects w1 !! i = Some (ContentView.retire v)) as Hv1
    by (rewrite Hw1; cbn; by apply list_lookup_insert_eq).
  assert (ContentView.panelsCreated w1 = ContentView.panelsCreated w) as Hcreated.
  { rewrite Hw1. unfold ContentView.panelsCreated. cbn.
    rewrite List.filter_app, length_app. cbn. lia. }
  assert (ContentView.step w (ContentView.PanelClosed i) = w1) as Hclose
    by (rewrite Hw1; by apply ContentFacts.tv_close_live).
  clearbody w2. clearbody w1. subst w2.
  split; [exact Hclose|].
  split; [exact Hcur1|].
  split; [by rewrite ContentFacts.tv_liveCount_slot, Hcur1|].
  split; [cbn; by rewrite Hlen|].
  split; [exact Hlt|].
  split; [rewrite <- Hlen; cbn; by apply list_lookup_middle|].
  split; [cbn; rewrite lookup_app_l by lia; by rewrite Hv1|].
  split; [by rewrite ContentFacts.tv_liveCount_slot|].
  unfold ContentView.panelsCreated in *. cbn.
  rewrite List.filter_app, length_app, Hcreated. cbn. lia.
Qed.

(** X14 on the panel opened with the example diff. *)
Lemma earlier_design_dispose_witness :
  ContentView.currentPanel
    (ContentView.run (H := sample_host) ContentView.init opened_with_text)
  = Some 0
  /\ ContentView.currentPanel
       (ContentView.step (H := sample_host)
          (ContentView.run (H := sample_host) ContentView.init opened_with_text)
          (ContentView.Dispose 0))
     = None
  /\ ContentView.currentPanel
       (ContentView.step (H := sample_host)
          (ContentView.step (H := sample_host)
             (ContentView.run (H := sample_host) ContentView.init opened_with_text)
             (ContentView.Dispose 0))
          (ContentView.CreateOrShow "/ext" "+new" None))
     = Some (length (ContentView.objects
                       (ContentView.run (H := sample_host) ContentView.init
                          opened_with_text))).
Proof.
  destruct (earlier_design_dispose_clears_slot sample_host opened_with_text 0
              "/ext" "+new" None eq_refl)
    as (_ & Hempty & _ & Hnew & _).
  split; [reflexivity|]. split; [exact Hempty|exact Hnew].
Defined.

(** X15.  In the earlier design, object [i] being in the slot, a call of
    [dispose()] invokes the four registered disposables once each, in the
    order of their registration; a second call, or the closing of the
    panel afterwards, changes nothing. *)
Theorem earlier_design_dispose_idempotent (H : Host)
        (es : list ContentView.Event) (i : nat) :
  let w := ContentView.run ContentView.init es in
  ContentView.currentPanel w = Some i ->
  ContentView.effects (ContentView.dispose i w)
  = ContentView.effects w
    ++ [ContentView.Invoked i ClearCurrentPanel;
        ContentView.Invoked i DetachDidDispose;
        ContentView.Invoked i DetachViewState;
        ContentView.Invoked i DisposePanel]
  /\ ContentView.dispose i (ContentView.dispose i w) = ContentView.dispose i w
  /\ ContentView.step (ContentView.dispose i w) (ContentView.PanelClosed i)
     = ContentView.dispose i w.
Proof.
  intros w Hcur.
  pose proof (ContentFacts.tv_Inv_reachable es) as Hinv. fold w in Hinv.
  destruct (ContentFacts.tv_Inv_current w i Hinv Hcur) as (v & Hv & Halive).
  split; [by rewrite (ContentFacts.tv_dispose_live i v w Hv Halive)|].
  split; [by apply ContentMore.tv_dispose_idem|].
  by apply ContentMore.tv_close_after_dispose.
Qed.

(** X15 on the panel opened with the example diff. *)
Lemma earlier_design_idempotent_witness :
  ContentView.currentPanel
    (ContentView.run (H := sample_host) ContentView.init opened_with_text)
  = Some 0
  /\ ContentView.dispose 0
       (ContentView.dispose 0
          (ContentView.run (H := sample_host) ContentView.init opened_with_text))
     = ContentView.dispose 0
         (ContentView.run (H := sample_host) ContentView.init opened_with_text).
Proof.
  destruct (earlier_design_dispose_idempotent sample_host opened_with_text 0 eq_refl)
    as (_ & Hidem & _).
  split; [reflexivity|exact Hidem].
Defined.

(** ** The document and its parts *)

(** X16.  The document tells its parts apart.  For one object, two diff
    texts give the same document exactly when the renderer gives them the
    same fragment, in both designs; and for two objects of the
    command-driven design built for the same extension path, one diff
    text gives the same document exactly when they hold the same
    command. *)
Theorem document_determines_fragment_and_command (H : Host) :
  (forall (v : CommandView.GitDiffView) (d1 d2 : string),
     CommandView.getHtmlForWebview v d1 = CommandView.getHtmlForWebview v d2
     <-> html d1 = html d2)
  /\ (forall (v1 v2 : CommandView.GitDiffView) (d : string),
     CommandView.extensionPath v1 = CommandView.extensionPath v2 ->
     (CommandView.getHtmlForWebview v1 d = CommandView.getHtmlForWebview v2 d
      <-> CommandView.gitCmd v1 = CommandView.gitCmd v2))
  /\ (forall (v : ContentView.GitDiffView) (d1 d2 : string),
     ContentView.getHtmlForWebview v d1 = ContentView.getHtmlForWebview v d2
     <-> html d1 = html d2).
Proof.
  split; [|split].
  - intros v d1 d2. rewrite !cv_document_shape. split; [|by intros ->].
    intros Heq%str_app_cancel_l. by apply str_app_cancel_r in Heq.
  - intros v1 v2 d Hep. rewrite !cv_document_shape, Hep.
    unfold CommandView.after_diff. split; [|by intros ->].
    intros Heq%str_app_cancel_l%str_app_cancel_l%str_app_cancel_l.
    by apply str_app_cancel_r in Heq.
  - intros v d1 d2. rewrite !tv_document_shape. split; [|by intros ->].
    intros Heq%str_app_cancel_l. by apply str_app_cancel_r in Heq.
Qed.

(** X16 on two objects that differ by their command only. *)
Lemma document_determines_witness :
  CommandView.extensionPath (CommandView.fresh "/ext" "git diff" "." Beside)
  = CommandView.extensionPath (CommandView.fresh "/ext" "git log -p" "." Beside)
  /\ CommandView.getHtmlForWebview (H := sample_host)
       (CommandView.fresh "/ext" "git diff" "." Beside) sample_diff
     <> CommandView.getHtmlForWebview (H := sample_host)
          (CommandView.fresh "/ext" "git log -p" "." Beside) sample_diff.
Proof.
  split; [reflexivity|]. intros Heq.
  apply (proj1 (proj2 (document_determines_fragment_and_command sample_host))
           (CommandView.fresh "/ext" "git diff" "." Beside)
           (CommandView.fresh "/ext" "git log -p" "." Beside)
           sample_diff eq_refl) in Heq.
  discriminate Heq.
Defined.
